(** * PrediccionesPro: the draw-history pipeline, embedded and verified

    A shallow embedding of the TypeScript services that resolve scraped
    tokens to catalogue animals, merge draws into the persistent history,
    and score the animals from that history:

    - [services/lotovenService.ts]             (module [LotoVen])
    - [services/loteriaDehoyService.ts]        (module [LoteriaDehoy])
    - [services/realResultsService.ts]         (module [RealResults])
    - [services/statisticalAnalysisService.ts] (module [Statistical])
    - [services/predictionService.ts]          (module [Prediction])
    - [services/lotteryService.ts]             (modules [Lottery], [Engine])

    JavaScript numbers that carry fractions (frequencies, scores, weights)
    are IEEE-754 doubles and are modelled by Rocq's primitive binary64
    floats; counters are [nat]; epoch milliseconds are [Z].  Strings are
    Rocq strings holding the UTF-8 bytes of the source literals; the text
    operations of the resolver work on the decoded code points.  Lower case
    and canonical decomposition follow the tables of Unicode 14.0. *)

From Stdlib Require Import ZArith NArith List String Ascii Bool Lia DecimalString.
From Stdlib Require Import Floats Permutation Sorted.
From stdpp Require Import base gmap strings.
Import ListNotations.

#[local] Set Warnings "-inexact-float".
#[local] Open Scope string_scope.
#[local] Open Scope list_scope.

(** ** JavaScript text primitives *)

Module JsText.

(** Code points of a string given by its UTF-8 bytes. *)
Fixpoint utf8_decode (bs : list N) : list N :=
  match bs with
  | [] => []
  | b0 :: r0 =>
    if (b0 <? 128)%N then b0 :: utf8_decode r0
    else if (b0 <? 224)%N then
      match r0 with
      | b1 :: r1 =>
        (N.lor (N.shiftl (N.land b0 31) 6) (N.land b1 63)) :: utf8_decode r1
      | [] => [b0]
      end
    else if (b0 <? 240)%N then
      match r0 with
      | b1 :: b2 :: r2 =>
        (N.lor (N.shiftl (N.land b0 15) 12)
           (N.lor (N.shiftl (N.land b1 63) 6) (N.land b2 63))) :: utf8_decode r2
      | _ => [b0]
      end
    else
      match r0 with
      | b1 :: b2 :: b3 :: r3 =>
        (N.lor (N.shiftl (N.land b0 7) 18)
           (N.lor (N.shiftl (N.land b1 63) 12)
              (N.lor (N.shiftl (N.land b2 63) 6) (N.land b3 63)))) :: utf8_decode r3
      | _ => [b0]
      end
  end.

Definition codes (s : string) : list N :=
  utf8_decode (map N_of_ascii (list_ascii_of_string s)).

Definition isDigit (c : N) : bool := (48 <=? c)%N && (c <=? 57)%N.
Definition isLowerAZ (c : N) : bool := (97 <=? c)%N && (c <=? 122)%N.
Definition isUpperAZ (c : N) : bool := (65 <=? c)%N && (c <=? 90)%N.

(** The class [\w] of a regular expression without the [u] flag. *)
Definition isWord (c : N) : bool :=
  isDigit c || isLowerAZ c || isUpperAZ c || (c =? 95)%N.

(** White space and line terminators removed by [String.prototype.trim]. *)
Definition isSpace (c : N) : bool :=
  ((9 <=? c) && (c <=? 13) || (c =? 32) || (c =? 160) || (c =? 5760)
   || (8192 <=? c) && (c <=? 8202) || (c =? 8232) || (c =? 8233)
   || (c =? 8239) || (c =? 8287) || (c =? 12288) || (c =? 65279))%N.

Fixpoint dropWhile {A} (p : A -> bool) (l : list A) : list A :=
  match l with
  | [] => []
  | x :: l' => if p x then dropWhile p l' else l
  end.

Definition trim (s : list N) : list N :=
  rev (dropWhile isSpace (rev (dropWhile isSpace s))).

(** The simple lower-case mappings of Unicode 14.0 beyond Basic Latin, as
    runs [(first, last, stride, target)]: the code points [first],
    [first + stride], ..., [last] have the lower cases [target],
    [target + stride], ... *)
Definition lowerRuns : list (N * N * N * N) :=
  [
  (192, 214, 1, 224); (216, 222, 1, 248); (256, 302, 2, 257);
    (306, 310, 2, 307); (313, 327, 2, 314); (330, 374, 2, 331);
    (376, 376, 1, 255); (377, 381, 2, 378); (385, 385, 1, 595);
    (386, 388, 2, 387); (390, 390, 1, 596); (391, 391, 1, 392);
    (393, 394, 1, 598); (395, 395, 1, 396); (398, 398, 1, 477);
    (399, 399, 1, 601); (400, 400, 1, 603); (401, 401, 1, 402);
    (403, 403, 1, 608); (404, 404, 1, 611); (406, 406, 1, 617);
    (407, 407, 1, 616); (408, 408, 1, 409); (412, 412, 1, 623);
    (413, 413, 1, 626); (415, 415, 1, 629); (416, 420, 2, 417);
    (422, 422, 1, 640); (423, 423, 1, 424); (425, 425, 1, 643);
    (428, 428, 1, 429); (430, 430, 1, 648); (431, 431, 1, 432);
    (433, 434, 1, 650); (435, 437, 2, 436); (439, 439, 1, 658);
    (440, 440, 1, 441); (444, 444, 1, 445); (452, 452, 1, 454);
    (453, 453, 1, 454); (455, 455, 1, 457); (456, 456, 1, 457);
    (458, 458, 1, 460); (459, 475, 2, 460); (478, 494, 2, 479);
    (497, 497, 1, 499); (498, 500, 2, 499); (502, 502, 1, 405);
    (503, 503, 1, 447); (504, 542, 2, 505); (544, 544, 1, 414);
    (546, 562, 2, 547); (570, 570, 1, 11365); (571, 571, 1, 572);
    (573, 573, 1, 410); (574, 574, 1, 11366); (577, 577, 1, 578);
    (579, 579, 1, 384); (580, 580, 1, 649); (581, 581, 1, 652);
    (582, 590, 2, 583); (880, 882, 2, 881); (886, 886, 1, 887);
    (895, 895, 1, 1011); (902, 902, 1, 940); (904, 906, 1, 941);
    (908, 908, 1, 972); (910, 911, 1, 973); (913, 929, 1, 945);
    (931, 939, 1, 963); (975, 975, 1, 983); (984, 1006, 2, 985);
    (1012, 1012, 1, 952); (1015, 1015, 1, 1016); (1017, 1017, 1, 1010);
    (1018, 1018, 1, 1019); (1021, 1023, 1, 891); (1024, 1039, 1, 1104);
    (1040, 1071, 1, 1072); (1120, 1152, 2, 1121); (1162, 1214, 2, 1163);
    (1216, 1216, 1, 1231); (1217, 1229, 2, 1218); (1232, 1326, 2, 1233);
    (1329, 1366, 1, 1377); (4256, 4293, 1, 11520); (4295, 4295, 1, 11559);
    (4301, 4301, 1, 11565); (5024, 5103, 1, 43888); (5104, 5109, 1, 5112);
    (7312, 7354, 1, 4304); (7357, 7359, 1, 4349); (7680, 7828, 2, 7681);
    (7838, 7838, 1, 223); (7840, 7934, 2, 7841); (7944, 7951, 1, 7936);
    (7960, 7965, 1, 7952); (7976, 7983, 1, 7968); (7992, 7999, 1, 7984);
    (8008, 8013, 1, 8000); (8025, 8031, 2, 8017); (8040, 8047, 1, 8032);
    (8072, 8079, 1, 8064); (8088, 8095, 1, 8080); (8104, 8111, 1, 8096);
    (8120, 8121, 1, 8112); (8122, 8123, 1, 8048); (8124, 8124, 1, 8115);
    (8136, 8139, 1, 8050); (8140, 8140, 1, 8131); (8152, 8153, 1, 8144);
    (8154, 8155, 1, 8054); (8168, 8169, 1, 8160); (8170, 8171, 1, 8058);
    (8172, 8172, 1, 8165); (8184, 8185, 1, 8056); (8186, 8187, 1, 8060);
    (8188, 8188, 1, 8179); (8486, 8486, 1, 969); (8490, 8490, 1, 107);
    (8491, 8491, 1, 229); (8498, 8498, 1, 8526); (8544, 8559, 1, 8560);
    (8579, 8579, 1, 8580); (9398, 9423, 1, 9424); (11264, 11311, 1, 11312);
    (11360, 11360, 1, 11361); (11362, 11362, 1, 619);
    (11363, 11363, 1, 7549); (11364, 11364, 1, 637);
    (11367, 11371, 2, 11368); (11373, 11373, 1, 593); (11374, 11374, 1, 625);
    (11375, 11375, 1, 592); (11376, 11376, 1, 594); (11378, 11378, 1, 11379);
    (11381, 11381, 1, 11382); (11390, 11391, 1, 575);
    (11392, 11490, 2, 11393); (11499, 11501, 2, 11500);
    (11506, 11506, 1, 11507); (42560, 42604, 2, 42561);
    (42624, 42650, 2, 42625); (42786, 42798, 2, 42787);
    (42802, 42862, 2, 42803); (42873, 42875, 2, 42874);
    (42877, 42877, 1, 7545); (42878, 42886, 2, 42879);
    (42891, 42891, 1, 42892); (42893, 42893, 1, 613);
    (42896, 42898, 2, 42897); (42902, 42920, 2, 42903);
    (42922, 42922, 1, 614); (42923, 42923, 1, 604); (42924, 42924, 1, 609);
    (42925, 42925, 1, 620); (42926, 42926, 1, 618); (42928, 42928, 1, 670);
    (42929, 42929, 1, 647); (42930, 42930, 1, 669); (42931, 42931, 1, 43859);
    (42932, 42946, 2, 42933); (42948, 42948, 1, 42900);
    (42949, 42949, 1, 642); (42950, 42950, 1, 7566);
    (42951, 42953, 2, 42952); (42960, 42960, 1, 42961);
    (42966, 42968, 2, 42967); (42997, 42997, 1, 42998);
    (65313, 65338, 1, 65345); (66560, 66599, 1, 66600);
    (66736, 66771, 1, 66776); (66928, 66938, 1, 66967);
    (66940, 66954, 1, 66979); (66956, 66962, 1, 66995);
    (66964, 66965, 1, 67003); (68736, 68786, 1, 68800);
    (71840, 71871, 1, 71872); (93760, 93791, 1, 93792);
    (125184, 125217, 1, 125218)
  ]%N.

Definition inRun (c : N) (r : N * N * N * N) : bool :=
  let '(first, last, stride, _) := r in
  ((first <=? c) && (c <=? last) && ((c - first) mod stride =? 0))%N.

(** The lower case of a code point, for all code points whose lower case is
    one code point. *)
Definition toLowerCode (c : N) : N :=
  if isUpperAZ c then (c + 32)%N
  else if (c <? 128)%N then c
  else
    match find (inRun c) lowerRuns with
    | Some (first, _, _, target) => (target + (c - first))%N
    | None => c
    end.

(** U+0130, the capital I with a dot, alone has a lower case of two code
    points. *)
Definition lowerOf (c : N) : list N :=
  if (c =? 304)%N then [105%N; 775%N] else [toLowerCode c].

(** The code points with the property Case_Ignorable (Unicode 14.0), as
    ranges. *)
Definition caseIgnorable : list (N * N) :=
  [
    (39, 39); (46, 46); (58, 58); (94, 94); (96, 96); (168, 168); (173, 173);
    (175, 175); (180, 180); (183, 184); (688, 879); (884, 885); (890, 890);
    (900, 901); (903, 903); (1155, 1161); (1369, 1369); (1375, 1375);
    (1425, 1469); (1471, 1471); (1473, 1474); (1476, 1477); (1479, 1479);
    (1524, 1524); (1536, 1541); (1552, 1562); (1564, 1564); (1600, 1600);
    (1611, 1631); (1648, 1648); (1750, 1757); (1759, 1768); (1770, 1773);
    (1807, 1807); (1809, 1809); (1840, 1866); (1958, 1968); (2027, 2037);
    (2042, 2042); (2045, 2045); (2070, 2093); (2137, 2139); (2184, 2184);
    (2192, 2193); (2200, 2207); (2249, 2306); (2362, 2362); (2364, 2364);
    (2369, 2376); (2381, 2381); (2385, 2391); (2402, 2403); (2417, 2417);
    (2433, 2433); (2492, 2492); (2497, 2500); (2509, 2509); (2530, 2531);
    (2558, 2558); (2561, 2562); (2620, 2620); (2625, 2626); (2631, 2632);
    (2635, 2637); (2641, 2641); (2672, 2673); (2677, 2677); (2689, 2690);
    (2748, 2748); (2753, 2757); (2759, 2760); (2765, 2765); (2786, 2787);
    (2810, 2815); (2817, 2817); (2876, 2876); (2879, 2879); (2881, 2884);
    (2893, 2893); (2901, 2902); (2914, 2915); (2946, 2946); (3008, 3008);
    (3021, 3021); (3072, 3072); (3076, 3076); (3132, 3132); (3134, 3136);
    (3142, 3144); (3146, 3149); (3157, 3158); (3170, 3171); (3201, 3201);
    (3260, 3260); (3263, 3263); (3270, 3270); (3276, 3277); (3298, 3299);
    (3328, 3329); (3387, 3388); (3393, 3396); (3405, 3405); (3426, 3427);
    (3457, 3457); (3530, 3530); (3538, 3540); (3542, 3542); (3633, 3633);
    (3636, 3642); (3654, 3662); (3761, 3761); (3764, 3772); (3782, 3782);
    (3784, 3789); (3864, 3865); (3893, 3893); (3895, 3895); (3897, 3897);
    (3953, 3966); (3968, 3972); (3974, 3975); (3981, 3991); (3993, 4028);
    (4038, 4038); (4141, 4144); (4146, 4151); (4153, 4154); (4157, 4158);
    (4184, 4185); (4190, 4192); (4209, 4212); (4226, 4226); (4229, 4230);
    (4237, 4237); (4253, 4253); (4348, 4348); (4957, 4959); (5906, 5908);
    (5938, 5939); (5970, 5971); (6002, 6003); (6068, 6069); (6071, 6077);
    (6086, 6086); (6089, 6099); (6103, 6103); (6109, 6109); (6155, 6159);
    (6211, 6211); (6277, 6278); (6313, 6313); (6432, 6434); (6439, 6440);
    (6450, 6450); (6457, 6459); (6679, 6680); (6683, 6683); (6742, 6742);
    (6744, 6750); (6752, 6752); (6754, 6754); (6757, 6764); (6771, 6780);
    (6783, 6783); (6823, 6823); (6832, 6862); (6912, 6915); (6964, 6964);
    (6966, 6970); (6972, 6972); (6978, 6978); (7019, 7027); (7040, 7041);
    (7074, 7077); (7080, 7081); (7083, 7085); (7142, 7142); (7144, 7145);
    (7149, 7149); (7151, 7153); (7212, 7219); (7222, 7223); (7288, 7293);
    (7376, 7378); (7380, 7392); (7394, 7400); (7405, 7405); (7412, 7412);
    (7416, 7417); (7468, 7530); (7544, 7544); (7579, 7679); (8125, 8125);
    (8127, 8129); (8141, 8143); (8157, 8159); (8173, 8175); (8189, 8190);
    (8203, 8207); (8216, 8217); (8228, 8228); (8231, 8231); (8234, 8238);
    (8288, 8292); (8294, 8303); (8305, 8305); (8319, 8319); (8336, 8348);
    (8400, 8432); (11388, 11389); (11503, 11505); (11631, 11631);
    (11647, 11647); (11744, 11775); (11823, 11823); (12293, 12293);
    (12330, 12333); (12337, 12341); (12347, 12347); (12441, 12446);
    (12540, 12542); (40981, 40981); (42232, 42237); (42508, 42508);
    (42607, 42610); (42612, 42621); (42623, 42623); (42652, 42655);
    (42736, 42737); (42752, 42785); (42864, 42864); (42888, 42890);
    (42994, 42996); (43000, 43001); (43010, 43010); (43014, 43014);
    (43019, 43019); (43045, 43046); (43052, 43052); (43204, 43205);
    (43232, 43249); (43263, 43263); (43302, 43309); (43335, 43345);
    (43392, 43394); (43443, 43443); (43446, 43449); (43452, 43453);
    (43471, 43471); (43493, 43494); (43561, 43566); (43569, 43570);
    (43573, 43574); (43587, 43587); (43596, 43596); (43632, 43632);
    (43644, 43644); (43696, 43696); (43698, 43700); (43703, 43704);
    (43710, 43711); (43713, 43713); (43741, 43741); (43756, 43757);
    (43763, 43764); (43766, 43766); (43867, 43871); (43881, 43883);
    (44005, 44005); (44008, 44008); (44013, 44013); (64286, 64286);
    (64434, 64450); (65024, 65039); (65043, 65043); (65056, 65071);
    (65106, 65106); (65109, 65109); (65279, 65279); (65287, 65287);
    (65294, 65294); (65306, 65306); (65342, 65342); (65344, 65344);
    (65392, 65392); (65438, 65439); (65507, 65507); (65529, 65531);
    (66045, 66045); (66272, 66272); (66422, 66426); (67456, 67461);
    (67463, 67504); (67506, 67514); (68097, 68099); (68101, 68102);
    (68108, 68111); (68152, 68154); (68159, 68159); (68325, 68326);
    (68900, 68903); (69291, 69292); (69446, 69456); (69506, 69509);
    (69633, 69633); (69688, 69702); (69744, 69744); (69747, 69748);
    (69759, 69761); (69811, 69814); (69817, 69818); (69821, 69821);
    (69826, 69826); (69837, 69837); (69888, 69890); (69927, 69931);
    (69933, 69940); (70003, 70003); (70016, 70017); (70070, 70078);
    (70089, 70092); (70095, 70095); (70191, 70193); (70196, 70196);
    (70198, 70199); (70206, 70206); (70367, 70367); (70371, 70378);
    (70400, 70401); (70459, 70460); (70464, 70464); (70502, 70508);
    (70512, 70516); (70712, 70719); (70722, 70724); (70726, 70726);
    (70750, 70750); (70835, 70840); (70842, 70842); (70847, 70848);
    (70850, 70851); (71090, 71093); (71100, 71101); (71103, 71104);
    (71132, 71133); (71219, 71226); (71229, 71229); (71231, 71232);
    (71339, 71339); (71341, 71341); (71344, 71349); (71351, 71351);
    (71453, 71455); (71458, 71461); (71463, 71467); (71727, 71735);
    (71737, 71738); (71995, 71996); (71998, 71998); (72003, 72003);
    (72148, 72151); (72154, 72155); (72160, 72160); (72193, 72202);
    (72243, 72248); (72251, 72254); (72263, 72263); (72273, 72278);
    (72281, 72283); (72330, 72342); (72344, 72345); (72752, 72758);
    (72760, 72765); (72767, 72767); (72850, 72871); (72874, 72880);
    (72882, 72883); (72885, 72886); (73009, 73014); (73018, 73018);
    (73020, 73021); (73023, 73029); (73031, 73031); (73104, 73105);
    (73109, 73109); (73111, 73111); (73459, 73460); (78896, 78904);
    (92912, 92916); (92976, 92982); (92992, 92995); (94031, 94031);
    (94095, 94111); (94176, 94177); (94179, 94180); (110576, 110579);
    (110581, 110587); (110589, 110590); (113821, 113822); (113824, 113827);
    (118528, 118573); (118576, 118598); (119143, 119145); (119155, 119170);
    (119173, 119179); (119210, 119213); (119362, 119364); (121344, 121398);
    (121403, 121452); (121461, 121461); (121476, 121476); (121499, 121503);
    (121505, 121519); (122880, 122886); (122888, 122904); (122907, 122913);
    (122915, 122916); (122918, 122922); (123184, 123197); (123566, 123566);
    (123628, 123631); (125136, 125142); (125252, 125259); (127995, 127999);
    (917505, 917505); (917536, 917631); (917760, 917999)
  ]%N.

(** The code points with the property Cased that are not Case_Ignorable. *)
Definition casedLetters : list (N * N) :=
  [
    (65, 90); (97, 122); (170, 170); (181, 181); (186, 186); (192, 214);
    (216, 246); (248, 442); (444, 447); (452, 659); (661, 687); (880, 883);
    (886, 887); (891, 893); (895, 895); (902, 902); (904, 906); (908, 908);
    (910, 929); (931, 1013); (1015, 1153); (1162, 1327); (1329, 1366);
    (1376, 1416); (4256, 4293); (4295, 4295); (4301, 4301); (4304, 4346);
    (4349, 4351); (5024, 5109); (5112, 5117); (7296, 7304); (7312, 7354);
    (7357, 7359); (7424, 7467); (7531, 7543); (7545, 7578); (7680, 7957);
    (7960, 7965); (7968, 8005); (8008, 8013); (8016, 8023); (8025, 8025);
    (8027, 8027); (8029, 8029); (8031, 8061); (8064, 8116); (8118, 8124);
    (8126, 8126); (8130, 8132); (8134, 8140); (8144, 8147); (8150, 8155);
    (8160, 8172); (8178, 8180); (8182, 8188); (8450, 8450); (8455, 8455);
    (8458, 8467); (8469, 8469); (8473, 8477); (8484, 8484); (8486, 8486);
    (8488, 8488); (8490, 8493); (8495, 8500); (8505, 8505); (8508, 8511);
    (8517, 8521); (8526, 8526); (8544, 8575); (8579, 8580); (9398, 9449);
    (11264, 11387); (11390, 11492); (11499, 11502); (11506, 11507);
    (11520, 11557); (11559, 11559); (11565, 11565); (42560, 42605);
    (42624, 42651); (42786, 42863); (42865, 42887); (42891, 42894);
    (42896, 42954); (42960, 42961); (42963, 42963); (42965, 42969);
    (42997, 42998); (43002, 43002); (43824, 43866); (43872, 43880);
    (43888, 43967); (64256, 64262); (64275, 64279); (65313, 65338);
    (65345, 65370); (66560, 66639); (66736, 66771); (66776, 66811);
    (66928, 66938); (66940, 66954); (66956, 66962); (66964, 66965);
    (66967, 66977); (66979, 66993); (66995, 67001); (67003, 67004);
    (68736, 68786); (68800, 68850); (71840, 71903); (93760, 93823);
    (119808, 119892); (119894, 119964); (119966, 119967); (119970, 119970);
    (119973, 119974); (119977, 119980); (119982, 119993); (119995, 119995);
    (119997, 120003); (120005, 120069); (120071, 120074); (120077, 120084);
    (120086, 120092); (120094, 120121); (120123, 120126); (120128, 120132);
    (120134, 120134); (120138, 120144); (120146, 120485); (120488, 120512);
    (120514, 120538); (120540, 120570); (120572, 120596); (120598, 120628);
    (120630, 120654); (120656, 120686); (120688, 120712); (120714, 120744);
    (120746, 120770); (120772, 120779); (122624, 122633); (122635, 122654);
    (125184, 125251); (127280, 127305); (127312, 127337); (127344, 127369)
  ]%N.

Definition inRange (c : N) (r : N * N) : bool :=
  ((fst r <=? c) && (c <=? snd r))%N.

Definition isCaseIgnorable (c : N) : bool := existsb (inRange c) caseIgnorable.
Definition isCasedLetter (c : N) : bool := existsb (inRange c) casedLetters.

(** The first code point of [s] that is not case-ignorable is a cased
    letter. *)
Fixpoint casedNext (s : list N) : bool :=
  match s with
  | [] => false
  | c :: rest => if isCaseIgnorable c then casedNext rest else isCasedLetter c
  end.

(** The condition Final_Sigma: a cased letter comes before, and none after,
    case-ignorable code points apart.  [before] holds the code points
    before the sigma, the nearest first. *)
Definition finalSigma (before after : list N) : bool :=
  casedNext before && negb (casedNext after).

(** [s.toLowerCase()], from the code point that follows [before].  The
    capital sigma (U+03A3) becomes the final small sigma at the end of a
    word and the medial one elsewhere. *)
Fixpoint lowerFrom (before s : list N) : list N :=
  match s with
  | [] => []
  | c :: rest =>
    (if (c =? 931)%N
     then [if finalSigma before rest then 962%N else 963%N]
     else lowerOf c)
    ++ lowerFrom (c :: before) rest
  end.

Definition toLowerCase (s : list N) : list N := lowerFrom [] s.

(** The letters a-z that carry diacritics: each with the code points whose
    canonical decomposition (NFD) is that letter followed by combining
    marks. *)
Definition baseLetters : list (N * list N) :=
  [
    (97, [224; 225; 226; 227; 228; 229; 257; 259; 261; 462; 479; 481; 507;
          513; 515; 551; 7681; 7841; 7843; 7845; 7847; 7849; 7851; 7853;
          7855; 7857; 7859; 7861; 7863]);
    (98, [7683; 7685; 7687]);
    (99, [231; 263; 265; 267; 269; 7689]);
    (100, [271; 7691; 7693; 7695; 7697; 7699]);
    (101, [232; 233; 234; 235; 275; 277; 279; 281; 283; 517; 519; 553; 7701;
          7703; 7705; 7707; 7709; 7865; 7867; 7869; 7871; 7873; 7875; 7877;
          7879]);
    (102, [7711]);
    (103, [285; 287; 289; 291; 487; 501; 7713]);
    (104, [293; 543; 7715; 7717; 7719; 7721; 7723; 7830]);
    (105, [236; 237; 238; 239; 297; 299; 301; 303; 464; 521; 523; 7725; 7727;
          7881; 7883]);
    (106, [309; 496]);
    (107, [311; 489; 7729; 7731; 7733]);
    (108, [314; 316; 318; 7735; 7737; 7739; 7741]);
    (109, [7743; 7745; 7747]);
    (110, [241; 324; 326; 328; 505; 7749; 7751; 7753; 7755]);
    (111, [242; 243; 244; 245; 246; 333; 335; 337; 417; 466; 491; 493; 525;
          527; 555; 557; 559; 561; 7757; 7759; 7761; 7763; 7885; 7887; 7889;
          7891; 7893; 7895; 7897; 7899; 7901; 7903; 7905; 7907]);
    (112, [7765; 7767]);
    (114, [341; 343; 345; 529; 531; 7769; 7771; 7773; 7775]);
    (115, [347; 349; 351; 353; 537; 7777; 7779; 7781; 7783; 7785]);
    (116, [355; 357; 539; 7787; 7789; 7791; 7793; 7831]);
    (117, [249; 250; 251; 252; 361; 363; 365; 367; 369; 371; 432; 468; 470;
          472; 474; 476; 533; 535; 7795; 7797; 7799; 7801; 7803; 7909; 7911;
          7913; 7915; 7917; 7919; 7921]);
    (118, [7805; 7807]);
    (119, [373; 7809; 7811; 7813; 7815; 7817; 7832]);
    (120, [7819; 7821]);
    (121, [253; 255; 375; 563; 7823; 7833; 7923; 7925; 7927; 7929]);
    (122, [378; 380; 382; 7825; 7827; 7829])
  ]%N.

(** What is left of one lower-case code point after
    [.normalize("NFD")] followed by the removal of U+0300..U+036F and of
    everything outside a-z:
    a letter a-z stays, a letter with diacritics leaves its base letter,
    anything else (combining marks included) disappears. *)
Definition stripCode (c : N) : list N :=
  if isLowerAZ c then [c]
  else if (c <? 128)%N then []
  else
    match find (fun r => existsb (N.eqb c) (snd r)) baseLetters with
    | Some (base, _) => [base]
    | None => []
    end.

(** [s.toLowerCase().normalize("NFD")] with both [replace] calls. *)
Definition normalizeLetters (s : list N) : list N :=
  flat_map stripCode (toLowerCase s).

Definition codesEqb (a b : list N) : bool :=
  bool_decide (a = b).

Fixpoint isPrefixOf (p s : list N) : bool :=
  match p, s with
  | [], _ => true
  | _ :: _, [] => false
  | x :: p', y :: s' => (x =? y)%N && isPrefixOf p' s'
  end.

(** [s.includes(p)] *)
Fixpoint includes (s p : list N) : bool :=
  isPrefixOf p s ||
  match s with
  | [] => false
  | _ :: s' => includes s' p
  end.

(** First match of [/\b(\d{1,2})\b/], scanning from the left; [prev] is the
    code point before the current position. *)
Fixpoint matchNumber (prev : option N) (s : list N) : option (list N) :=
  match s with
  | [] => None
  | c :: rest =>
    if isDigit c && negb (match prev with Some p => isWord p | None => false end)
    then
      match rest with
      | [] => Some [c]
      | d :: rest2 =>
        if isDigit d && negb (match rest2 with e :: _ => isWord e | [] => false end)
        then Some [c; d]
        else if negb (isWord d) then Some [c]
        else matchNumber (Some c) rest
      end
    else matchNumber (Some c) rest
  end.

(** [s.padStart(2, '0')] *)
Definition padStart2 (s : list N) : list N :=
  match s with
  | [] => [48%N; 48%N]
  | [c] => [48%N; c]
  | _ => s
  end.

(** [n.toString()] for a non-negative integer. *)
Definition natToString (n : nat) : string := NilZero.string_of_uint (Nat.to_uint n).

(** [n.toString().padStart(2, '0')] *)
Definition pad2 (n : nat) : string :=
  let s := natToString n in
  if (String.length s <? 2)%nat then ("0" ++ s)%string else s.

End JsText.

(** ** JavaScript numbers and arrays *)

Module JsNum.

#[local] Open Scope float_scope.

(** A counter or an array length as a Number. *)
Definition ofNat (n : nat) : float := PrimFloat.of_uint63 (Uint63.of_Z (Z.of_nat n)).

(** An integer Number (exact below 2^53). *)
Definition ofZ (z : Z) : float :=
  match z with
  | Z0 => 0
  | Zpos _ => PrimFloat.of_uint63 (Uint63.of_Z z)
  | Zneg p => - PrimFloat.of_uint63 (Uint63.of_Z (Zpos p))
  end.

Definition max2 (a b : float) : float :=
  if PrimFloat.is_nan a || PrimFloat.is_nan b then nan
  else if a <? b then b
  else if b <? a then a
  else match PrimFloat.classify a with NZero => b | _ => a end.

(** [Math.max(...l)] *)
Definition Math_max (l : list float) : float := fold_left max2 l neg_infinity.

End JsNum.

Module JsArray.

Section Sort.
Context {A : Type}.
(** [after a b] holds when [comparefn(a, b) > 0]: [a] belongs after [b]. *)
Variable after : A -> A -> bool.

Fixpoint insertSorted (a : A) (l : list A) : list A :=
  match l with
  | [] => [a]
  | b :: l' => if after a b then b :: insertSorted a l' else a :: l
  end.

(** [Array.prototype.sort(comparefn)]: a stable sort. *)
Definition sort (l : list A) : list A := fold_right insertSorted [] l.
End Sort.

(** [l.slice(-n)] for a positive [n] *)
Definition sliceLast {A} (n : nat) (l : list A) : list A :=
  skipn (length l - n) l.

(** [l.slice(0, n)] *)
Definition sliceFirst {A} (n : nat) (l : list A) : list A := firstn n l.

(** [l.map((x, index) => f(x, index))], indices counted from [i]. *)
Fixpoint mapi_from {A B} (f : A -> nat -> B) (i : nat) (l : list A) : list B :=
  match l with
  | [] => []
  | x :: l' => f x i :: mapi_from f (S i) l'
  end.

Definition mapi {A B} (f : A -> nat -> B) (l : list A) : list B := mapi_from f 0 l.

(** [l[l.length - 1]], [undefined] on the empty array. *)
Definition lastElem {A} (l : list A) : option A :=
  match rev l with
  | [] => None
  | x :: _ => Some x
  end.

End JsArray.

(** ** types.ts *)

Module Types.

Inductive LotteryId := GUACHARO | LOTTO_ACTIVO.

Record Animal := {
  id : string;
  name : string;
  number : string;
  emoji : string
}.

Record DrawResult := {
  hour : string;
  label : string;
  animal : option Animal;
  isCompleted : bool;
  isNext : bool
}.

(** The text of a lottery identifier inside a storage key. *)
Definition lotteryKey (l : LotteryId) : string :=
  match l with
  | GUACHARO => "GUACHARO"
  | LOTTO_ACTIVO => "LOTTO_ACTIVO"
  end.

End Types.

Abbreviation Animal := Types.Animal.
Abbreviation LotteryId := Types.LotteryId.

(** The table of [RealResultsService.findAnimalByNumber]
    (realResultsService.ts, lines 283-321), keys and records as written. *)
Definition animalMap : list (string * Animal) :=
  [
    ("00", {| Types.id := "00"; Types.number := "00"; Types.name := "Delfín"; Types.emoji := "🐬" |});
    ("01", {| Types.id := "01"; Types.number := "01"; Types.name := "Carnero"; Types.emoji := "🐏" |});
    ("02", {| Types.id := "02"; Types.number := "02"; Types.name := "Toro"; Types.emoji := "🐂" |});
    ("03", {| Types.id := "03"; Types.number := "03"; Types.name := "Ciempiés"; Types.emoji := "🐛" |});
    ("04", {| Types.id := "04"; Types.number := "04"; Types.name := "Alacrán"; Types.emoji := "🦂" |});
    ("05", {| Types.id := "05"; Types.number := "05"; Types.name := "León"; Types.emoji := "🦁" |});
    ("06", {| Types.id := "06"; Types.number := "06"; Types.name := "Rana"; Types.emoji := "🐸" |});
    ("07", {| Types.id := "07"; Types.number := "07"; Types.name := "Perico"; Types.emoji := "🦜" |});
    ("08", {| Types.id := "08"; Types.number := "08"; Types.name := "Ratón"; Types.emoji := "🐭" |});
    ("09", {| Types.id := "09"; Types.number := "09"; Types.name := "Águila"; Types.emoji := "🦅" |});
    ("10", {| Types.id := "10"; Types.number := "10"; Types.name := "Tigre"; Types.emoji := "🐅" |});
    ("11", {| Types.id := "11"; Types.number := "11"; Types.name := "Gato"; Types.emoji := "🐱" |});
    ("12", {| Types.id := "12"; Types.number := "12"; Types.name := "Caballo"; Types.emoji := "🐴" |});
    ("13", {| Types.id := "13"; Types.number := "13"; Types.name := "Mono"; Types.emoji := "🐵" |});
    ("14", {| Types.id := "14"; Types.number := "14"; Types.name := "Paloma"; Types.emoji := "🕊️" |});
    ("15", {| Types.id := "15"; Types.number := "15"; Types.name := "Zorro"; Types.emoji := "🦊" |});
    ("16", {| Types.id := "16"; Types.number := "16"; Types.name := "Oso"; Types.emoji := "🐻" |});
    ("17", {| Types.id := "17"; Types.number := "17"; Types.name := "Pavo"; Types.emoji := "🦃" |});
    ("18", {| Types.id := "18"; Types.number := "18"; Types.name := "Burro"; Types.emoji := "🫏" |});
    ("19", {| Types.id := "19"; Types.number := "19"; Types.name := "Chivo"; Types.emoji := "🐐" |});
    ("20", {| Types.id := "20"; Types.number := "20"; Types.name := "Cochino"; Types.emoji := "🐷" |});
    ("21", {| Types.id := "21"; Types.number := "21"; Types.name := "Gallo"; Types.emoji := "🐓" |});
    ("22", {| Types.id := "22"; Types.number := "22"; Types.name := "Camello"; Types.emoji := "🐪" |});
    ("23", {| Types.id := "23"; Types.number := "23"; Types.name := "Cebra"; Types.emoji := "🦓" |});
    ("24", {| Types.id := "24"; Types.number := "24"; Types.name := "Iguana"; Types.emoji := "🦎" |});
    ("25", {| Types.id := "25"; Types.number := "25"; Types.name := "Gallina"; Types.emoji := "🐔" |});
    ("26", {| Types.id := "26"; Types.number := "26"; Types.name := "Vaca"; Types.emoji := "🐄" |});
    ("27", {| Types.id := "27"; Types.number := "27"; Types.name := "Perro"; Types.emoji := "🐶" |});
    ("28", {| Types.id := "28"; Types.number := "28"; Types.name := "Zamuro"; Types.emoji := "🦅" |});
    ("29", {| Types.id := "29"; Types.number := "29"; Types.name := "Elefante"; Types.emoji := "🐘" |});
    ("30", {| Types.id := "30"; Types.number := "30"; Types.name := "Caimán"; Types.emoji := "🐊" |});
    ("31", {| Types.id := "31"; Types.number := "31"; Types.name := "Lapa"; Types.emoji := "🦜" |});
    ("32", {| Types.id := "32"; Types.number := "32"; Types.name := "Ardilla"; Types.emoji := "🐿️" |});
    ("33", {| Types.id := "33"; Types.number := "33"; Types.name := "Pescado"; Types.emoji := "🐟" |});
    ("34", {| Types.id := "34"; Types.number := "34"; Types.name := "Venado"; Types.emoji := "🦌" |});
    ("35", {| Types.id := "35"; Types.number := "35"; Types.name := "Jirafa"; Types.emoji := "🦒" |});
    ("36", {| Types.id := "36"; Types.number := "36"; Types.name := "Culebra"; Types.emoji := "🐍" |})
  ].

(** Modelled from the spec: [constants.ts], which exports the catalogue
    [ANIMALS], is not among the sources.  The spec fixes 37 entries with the
    unique two-digit codes "00".."36"; the names and icons are taken from
    [animalMap], the copy of the catalogue that realResultsService.ts keeps
    ("esto deberia venir de constants.ts"), in the order of the codes. *)
Definition ANIMALS : list Animal := map snd animalMap.

(** ** services/lotovenService.ts *)

Module LotoVen.
Import JsText.

(** One row of the matrix of [levenshteinDistance]: [prev] is the row above
    from column [j-1] on, [left] the entry just written at column [j-1]. *)
Fixpoint levRow (c2 : N) (str1 : list N) (prev : list nat) (left : nat) : list nat :=
  match str1, prev with
  | c1 :: str1', diag :: ((up :: _) as prev') =>
    let v := if (c2 =? c1)%N then diag
             else Nat.min (Nat.min (diag + 1) (left + 1)) (up + 1) in
    v :: levRow c2 str1' prev' v
  | _, _ => []
  end.

Definition levStep (row : list nat) (c2 : N) (str1 : list N) : list nat :=
  let first := S (hd 0 row) in
  first :: levRow c2 str1 row first.

Definition levenshteinDistance (str1 str2 : list N) : nat :=
  List.last (fold_left (fun row c2 => levStep row c2 str1) str2 (seq 0 (S (length str1)))) 0.

(** State of the similarity loop: [bestMatch] and [bestScore]. *)
Definition similarityStep (normalizedInput : list N)
    (st : option Animal * float) (animal : Animal) : option Animal * float :=
  let normalizedName := normalizeLetters (codes (Types.name animal)) in
  let distance := levenshteinDistance normalizedInput normalizedName in
  let maxLength := Nat.max (length normalizedInput) (length normalizedName) in
  let similarity := (1 - JsNum.ofNat distance / JsNum.ofNat maxLength)%float in
  if (0.7 <? similarity)%float && (JsNum.ofNat distance <? snd st)%float
  then (Some animal, JsNum.ofNat distance)
  else st.

Definition findAnimalByNameOrNumber (input : string) : option Animal :=
  let cleanInput := trim (codes input) in
  match cleanInput with
  | [] => None
  | _ =>
    let byNumber :=
      match matchNumber None cleanInput with
      | Some digits =>
        let num := padStart2 digits in
        find (fun a => codesEqb (codes (Types.number a)) num || codesEqb (codes (Types.id a)) num)
             ANIMALS
      | None => None
      end in
    match byNumber with
    | Some a => Some a
    | None =>
      match find (fun a => codesEqb (toLowerCase (codes (Types.name a)))
                                    (toLowerCase cleanInput)) ANIMALS with
      | Some a => Some a
      | None =>
        let normalizedInput := normalizeLetters cleanInput in
        if (length normalizedInput <? 2)%nat then None
        else
          match find (fun a => codesEqb (normalizeLetters (codes (Types.name a)))
                                        normalizedInput) ANIMALS with
          | Some a => Some a
          | None =>
            match find (fun a =>
                          let normalizedName := normalizeLetters (codes (Types.name a)) in
                          includes normalizedName normalizedInput
                          || includes normalizedInput normalizedName) ANIMALS with
            | Some a => Some a
            | None =>
              fst (fold_left (similarityStep normalizedInput) ANIMALS
                             (None, infinity))
            end
          end
      end
    end
  end.

(** *** parseHTML

    The regular-expression engine is outside the model: [parseHTML] is
    given what it yields on the page section, namely the successive
    matches of [pattern] with their two captured groups (the time already
    split into its digits and its AM/PM mark), and the draws that
    [aggressiveHTMLParse] returns for the same section. *)

Record RawMatch := {
  animalInfo : string;   (* match[1] *)
  hours12 : nat;         (* the digits before the colon in match[2] *)
  minutes : nat;         (* the digits after the colon in match[2] *)
  isPM : bool            (* /PM/i.test(match[2]) *)
}.

(** The [Partial<DrawResult>] objects the extractor builds: it always sets
    exactly these three fields. *)
Record Draw := {
  hour : string;
  animal : Animal;
  isCompleted : bool
}.

Definition normalizedHour (m : RawMatch) : string :=
  let h := hours12 m in
  let h := if isPM m && negb (h =? 12)%nat then h + 12 else h in
  let h := if negb (isPM m) && (h =? 12)%nat then 0 else h in
  (pad2 h ++ ":" ++ pad2 (minutes m))%string.

Definition isDuplicate (draws : list Draw) (h : string) (a : Animal) : bool :=
  existsb (fun d => String.eqb (hour d) h
                    && String.eqb (Types.id (animal d)) (Types.id a)) draws.

(** One turn of the [while] loop over the matches of [pattern]. *)
Definition primaryStep (draws : list Draw) (m : RawMatch) : list Draw :=
  match findAnimalByNameOrNumber (animalInfo m) with
  | None => draws
  | Some a =>
    if isDuplicate draws (normalizedHour m) a then draws
    else draws ++ [{| hour := normalizedHour m; animal := a; isCompleted := true |}]
  end.

Fixpoint findIndex_from {A} (p : A -> bool) (i : nat) (l : list A) : option nat :=
  match l with
  | [] => None
  | x :: l' => if p x then Some i else findIndex_from p (S i) l'
  end.

(** [l.findIndex(p)], [None] standing for -1. *)
Definition findIndex {A} (p : A -> bool) (l : list A) : option nat :=
  findIndex_from p 0 l.

Fixpoint filteri_from {A} (p : A -> nat -> bool) (i : nat) (l : list A) : list A :=
  match l with
  | [] => []
  | x :: l' => if p x i then x :: filteri_from p (S i) l' else filteri_from p (S i) l'
  end.

(** [self.filter((draw, index, self) =>
      index === self.findIndex(d => d.hour === draw.hour))] *)
Definition firstPerHour (self : list Draw) : list Draw :=
  filteri_from
    (fun draw index =>
       bool_decide (findIndex (fun d => String.eqb (hour d) (hour draw)) self
                    = Some index))
    0 self.

(** The array [draws] when the final filter is reached: the yield of the
    loop (at most 30 matches), or else that of the broader search. *)
Definition collectDraws (matches : list RawMatch) (broadResults : list Draw)
  : list Draw :=
  let draws := fold_left primaryStep (firstn 30 matches) [] in
  if (length draws =? 0)%nat then draws ++ broadResults else draws.

Section ParseHTML.
(** [a.localeCompare(b)] of the host, as the sign of its result. *)
Variable localeCompare : string -> string -> Z.

Definition hourAfter (a b : Draw) : bool :=
  (0 <? localeCompare (hour a) (hour b))%Z.

Definition parseHTML (matches : list RawMatch) (broadResults : list Draw)
  : list Draw * list string :=
  let draws := collectDraws matches broadResults in
  let uniqueDraws := JsArray.sort hourAfter (firstPerHour draws) in
  (uniqueDraws,
   [("LotoVen (" ++ natToString (length uniqueDraws) ++ " results)")%string]).
End ParseHTML.

End LotoVen.

(** ** services/loteriaDehoyService.ts *)

Module LoteriaDehoy.

(** The objects built by [convertirAFormatoApp]; [timestamp] is the
    instant its ISO text denotes, in epoch milliseconds. *)
Record AppItem := {
  id : string;
  date : string;
  time : string;
  lotteryType : string;
  animalNumber : string;
  animalName : string;
  source : string;
  verified : bool;
  timestamp : Z
}.

End LoteriaDehoy.

(** ** services/realResultsService.ts *)

Module RealResults.

Inductive Source := FromLotoVen | FromLoteriaDehoy | FromManual.

Record RealHistoryEntry := {
  date : string;
  hour : string;
  animal : Animal;
  animalData : Animal;
  number : string;
  source : Source;
  timestamp : Z
}.

Record RealResultsResponse := {
  success : bool;
  draws : list Types.DrawResult;
  history : list RealHistoryEntry;
  sources : list string;
  lastUpdate : string;
  totalResults : nat
}.

(** What [localStorage] holds under a key: the JSON text of a history
    array, the ISO text of an instant, or any other text (which either
    fails to parse or does not parse to an array). *)
Inductive Item :=
| HistoryJSON (entries : list RealHistoryEntry)
| DateText (ms : Z)
| OtherText (text : string).

(** The wall clock read during one call: [Date.now()], its
    [toISOString()], and the date part of the instant four hours earlier
    (the Venezuelan calendar day). *)
Record Clock := {
  now : Z;
  nowISO : string;
  venezuelaDate : string
}.

Definition HISTORY_CACHE_KEY : string := "real_history_persistent_v1".

Definition historyKey (lotteryId : LotteryId) : string :=
  (HISTORY_CACHE_KEY ++ "_" ++ Types.lotteryKey lotteryId)%string.

Definition massiveLoadKey (lotteryId : LotteryId) : string :=
  ("massive_load_" ++ Types.lotteryKey lotteryId)%string.

Definition getPersistentHistory (ls : gmap string Item) (lotteryId : LotteryId)
  : list RealHistoryEntry :=
  match ls !! historyKey lotteryId with
  | Some (HistoryJSON entries) => entries
  | _ => []
  end.

(** [localStorage.setItem] is taken to succeed (no quota error). *)
Definition savePersistentHistory (ls : gmap string Item) (lotteryId : LotteryId)
    (entries : list RealHistoryEntry) : gmap string Item :=
  <[historyKey lotteryId := HistoryJSON entries]> ls.

(** The names of the properties that [animalMap], like every object, inherits
    from [Object.prototype]. *)
Definition inheritedKeys : list string :=
  [ "constructor"; "__defineGetter__"; "__defineSetter__"; "hasOwnProperty";
    "__lookupGetter__"; "__lookupSetter__"; "isPrototypeOf";
    "propertyIsEnumerable"; "toString"; "valueOf"; "__proto__";
    "toLocaleString" ].

(** What [animalMap[name]] is for such a name: a function (for [__proto__]
    the prototype object), which is truthy and is no animal.  It has none of
    the fields of an [Animal], and [JSON.stringify] writes nothing of it;
    the empty text stands for the fields it lacks. *)
Definition inheritedMember : Animal :=
  {| Types.id := ""; Types.number := ""; Types.name := ""; Types.emoji := "" |}.

(** [animalMap[number] || null]: the entry of the table under an own key,
    the inherited member under the name of one, [null] otherwise. *)
Definition findAnimalByNumber (num : string) : option Animal :=
  match find (fun kv => String.eqb (fst kv) num) animalMap with
  | Some kv => Some (snd kv)
  | None =>
    if existsb (String.eqb num) inheritedKeys then Some inheritedMember else None
  end.

(** The predicate given to [persistentHistory.find] by the live merge. *)
Definition sameDraw (todayStr : string) (drawHour : string) (a : Animal)
    (h : RealHistoryEntry) : bool :=
  String.eqb (date h) todayStr
  && String.eqb (hour h) drawHour
  && String.eqb (Types.id (animal h)) (Types.id a).

(** The body of [todayResults.draws.forEach], on the pair
    ([persistentHistory], [newEntriesAdded]). *)
Definition mergeDraw (todayStr : string) (clock : Clock)
    (st : list RealHistoryEntry * nat) (draw : Types.DrawResult)
  : list RealHistoryEntry * nat :=
  let '(persistentHistory, newEntriesAdded) := st in
  match Types.animal draw with
  | Some a =>
    if String.eqb (Types.hour draw) "" then st
    else
      match find (sameDraw todayStr (Types.hour draw) a) persistentHistory with
      | Some _ => st
      | None =>
        ({| date := todayStr;
            hour := Types.hour draw;
            animal := a;
            animalData := a;
            number := Types.number a;
            source := FromLotoVen;
            timestamp := now clock |} :: persistentHistory,
         S newEntriesAdded)
      end
  | None => st
  end.

Definition mergeDraws (todayStr : string) (clock : Clock)
    (persistentHistory : list RealHistoryEntry) (draws : list Types.DrawResult)
  : list RealHistoryEntry * nat :=
  fold_left (mergeDraw todayStr clock) draws (persistentHistory, 0).

(** The predicate given to [existingHistory.find] by the bulk load. *)
Definition sameItem (item : LoteriaDehoy.AppItem) (h : RealHistoryEntry) : bool :=
  String.eqb (date h) (LoteriaDehoy.date item)
  && String.eqb (hour h) (LoteriaDehoy.time item)
  && String.eqb (number h) (LoteriaDehoy.animalNumber item).

Record LoadCount := {
  existingHistory : list RealHistoryEntry;
  loaded : nat;
  duplicates : nat;
  errors : nat
}.

Definition requestedType (lotteryId : LotteryId) : string :=
  match lotteryId with
  | Types.LOTTO_ACTIVO => "lotto-activo"
  | Types.GUACHARO => "guacharo-activo"
  end.

(** The body of [for (const item of convertedData)]. *)
Definition loadItem (lotteryId : LotteryId) (st : LoadCount)
    (item : LoteriaDehoy.AppItem) : LoadCount :=
  if negb (String.eqb (LoteriaDehoy.lotteryType item) (requestedType lotteryId))
  then st
  else
    match find (sameItem item) (existingHistory st) with
    | Some _ =>
      {| existingHistory := existingHistory st; loaded := loaded st;
         duplicates := S (duplicates st); errors := errors st |}
    | None =>
      match findAnimalByNumber (LoteriaDehoy.animalNumber item) with
      | None =>
        {| existingHistory := existingHistory st; loaded := loaded st;
           duplicates := duplicates st; errors := S (errors st) |}
      | Some a =>
        {| existingHistory :=
             existingHistory st ++
             [{| date := LoteriaDehoy.date item;
                 hour := LoteriaDehoy.time item;
                 animal := a;
                 animalData := a;
                 number := LoteriaDehoy.animalNumber item;
                 source := FromLoteriaDehoy;
                 timestamp := LoteriaDehoy.timestamp item |}];
           loaded := S (loaded st);
           duplicates := duplicates st;
           errors := errors st |}
      end
    end.

Record LoadResult := {
  lr_success : bool;
  lr_loaded : nat;
  lr_duplicates : nat;
  lr_errors : nat
}.

Section WithLocale.
(** [a.localeCompare(b)] of the host, as the sign of its result. *)
Variable localeCompare : string -> string -> Z.

(** The comparator of both history sorts: most recent first. *)
Definition compareEntries (a b : RealHistoryEntry) : Z :=
  let dateCompare := localeCompare (date b) (date a) in
  if (dateCompare =? 0)%Z then localeCompare (hour b) (hour a) else dateCompare.

Definition entryAfter (a b : RealHistoryEntry) : bool :=
  (0 <? compareEntries a b)%Z.

(** [getHistoricalResults], from the point where [getTodayResults] has
    answered with [todayDraws] and [todaySources]. *)
Definition getHistoricalResults (ls : gmap string Item) (lotteryId : LotteryId)
    (clock : Clock) (todayDraws : list Types.DrawResult)
    (todaySources : list string)
  : gmap string Item * RealResultsResponse :=
  let persistentHistory := getPersistentHistory ls lotteryId in
  let todayStr := venezuelaDate clock in
  let '(persistentHistory, newEntriesAdded) :=
    mergeDraws todayStr clock persistentHistory todayDraws in
  let ls := if (0 <? newEntriesAdded)%nat
            then savePersistentHistory ls lotteryId persistentHistory
            else ls in
  let sorted := JsArray.sort entryAfter persistentHistory in
  (ls,
   {| success := true;
      draws := todayDraws;
      history := sorted;
      sources := todaySources;
      lastUpdate := nowISO clock;
      totalResults := length sorted |}).

(** [loadMassiveHistoricalData], from the point where the scraper has
    answered and [convertirAFormatoApp] has produced [convertedData]. *)
Definition loadMassiveHistoricalData (ls : gmap string Item)
    (lotteryId : LotteryId) (clock : Clock)
    (convertedData : list LoteriaDehoy.AppItem)
  : gmap string Item * LoadResult :=
  let recently :=
    match ls !! massiveLoadKey lotteryId with
    | Some (DateText lastDate) => (now clock - lastDate <? 7 * 86400000)%Z
    | _ => false
    end in
  if recently
  then (ls, {| lr_success := true; lr_loaded := 0; lr_duplicates := 0; lr_errors := 0 |})
  else if (length convertedData =? 0)%nat
  then (ls, {| lr_success := false; lr_loaded := 0; lr_duplicates := 0; lr_errors := 0 |})
  else
    let st := fold_left (loadItem lotteryId) convertedData
                {| existingHistory := getPersistentHistory ls lotteryId;
                   loaded := 0; duplicates := 0; errors := 0 |} in
    let sorted := JsArray.sort entryAfter (existingHistory st) in
    let ls := savePersistentHistory ls lotteryId sorted in
    let ls := <[massiveLoadKey lotteryId := DateText (now clock)]> ls in
    (ls, {| lr_success := true; lr_loaded := loaded st;
            lr_duplicates := duplicates st; lr_errors := errors st |}).
End WithLocale.

Definition sameSlot (d h : string) (e : RealHistoryEntry) : bool :=
  String.eqb (date e) d && String.eqb (hour e) h.

Definition addManualResult (ls : gmap string Item) (lotteryId : LotteryId)
    (d h : string) (a : Animal) (clock : Clock) : gmap string Item * bool :=
  let history := getPersistentHistory ls lotteryId in
  match find (sameSlot d h) history with
  | Some _ => (ls, false)
  | None =>
    let newEntry := {| date := d; hour := h; animal := a; animalData := a;
                       number := Types.number a; source := FromManual;
                       timestamp := now clock |} in
    (savePersistentHistory ls lotteryId (newEntry :: history), true)
  end.

End RealResults.

(** ** services/statisticalAnalysisService.ts *)

Module Statistical.

Module HistoricalResult.
Record t := {
  date : string;
  hour : option string;
  animal : Animal;
  animalNumber : string;
  animalName : string
}.
End HistoricalResult.

Module FrequencyAnalysis.
Record t := {
  animalId : string;
  animal : Animal;
  totalAppearances : nat;
  totalFrequency : float;
  recentAppearances5 : nat;
  recentAppearances10 : nat;
  recentAppearances20 : nat;
  recentFrequency5 : float;
  recentFrequency10 : float;
  recentFrequency20 : float;
  daysSinceLastAppearance : Z;
  lastAppearanceDate : option string;
  isHot : bool;
  isCold : bool
}.
End FrequencyAnalysis.

Inductive Category := hot | warm | cold | frozen.
Inductive Confidence := alta | media | baja.

Module PredictionScore.
Record t := {
  animalId : string;
  animal : Animal;
  score : float;
  rank : nat;
  frequencyTotal : float;
  frequencyRecent : float;
  daysSinceLastAppearance : Z;
  category : Category;
  explanation : string;
  confidence : Confidence
}.
End PredictionScore.

Record Weights := {
  recentFrequency : float;
  totalFrequency : float;
  daysSinceAppearance : float
}.

(** [Partial<typeof DEFAULT_WEIGHTS>] *)
Record PartialWeights := {
  recentFrequency_opt : option float;
  totalFrequency_opt : option float;
  daysSinceAppearance_opt : option float
}.

Record AnalysisWindow := {
  recent5 : nat;
  recent10 : nat;
  recent20 : nat
}.

Record StatisticalPrediction := {
  lotteryId : LotteryId;
  analysisDate : string;
  totalResults : nat;
  analysisWindow : AnalysisWindow;
  top5 : list PredictionScore.t;
  top10 : list PredictionScore.t;
  hotAnimals : list PredictionScore.t;
  coldAnimals : list PredictionScore.t;
  allAnimals : list PredictionScore.t;
  weights : Weights;
  disclaimer : string
}.

Definition DEFAULT_WEIGHTS : Weights :=
  {| recentFrequency := 0.5; totalFrequency := 0.3; daysSinceAppearance := 0.2 |}.

Definition DISCLAIMER : string :=
  "Esta app muestra análisis estadístico basado en resultados históricos. No garantiza premios ni resultados futuros. La lotería es un proceso aleatorio.".

(** [{ ...DEFAULT_WEIGHTS, ...customWeights }] *)
Definition mergeWeights (customWeights : option PartialWeights) : Weights :=
  match customWeights with
  | None => DEFAULT_WEIGHTS
  | Some c =>
    {| recentFrequency := default (recentFrequency DEFAULT_WEIGHTS) (recentFrequency_opt c);
       totalFrequency := default (totalFrequency DEFAULT_WEIGHTS) (totalFrequency_opt c);
       daysSinceAppearance :=
         default (daysSinceAppearance DEFAULT_WEIGHTS) (daysSinceAppearance_opt c) |}
  end.

(** [r.animal.id === animal.id] *)
Definition isAnimal (a : Animal) (r : HistoricalResult.t) : bool :=
  String.eqb (Types.id (HistoricalResult.animal r)) (Types.id a).

(** [total > 0 ? (count / total) * 100 : 0] *)
Definition percentage (count total : nat) : float :=
  if (0 <? total)%nat then (JsNum.ofNat count / JsNum.ofNat total * 100)%float
  else 0%float.

Definition MS_PER_DAY : Z := 1000 * 60 * 60 * 24.

Definition generateExplanation (analysis : FrequencyAnalysis.t) (score : float) : string :=
  let explanations :=
    (if (15 <? FrequencyAnalysis.recentFrequency10 analysis)%float
     then ["tendencia reciente alta"]
     else if (FrequencyAnalysis.recentFrequency10 analysis <? 5)%float
     then ["tendencia reciente baja"] else [])
    ++
    (if (30 <? FrequencyAnalysis.daysSinceLastAppearance analysis)%Z
     then ["mucho tiempo sin salir"]
     else if (FrequencyAnalysis.daysSinceLastAppearance analysis <? 7)%Z
     then ["salió recientemente"] else [])
    ++
    (if (4 <? FrequencyAnalysis.totalFrequency analysis)%float
     then ["frecuencia histórica alta"]
     else if (FrequencyAnalysis.totalFrequency analysis <? 2)%float
     then ["frecuencia histórica baja"] else []) in
  match explanations with
  | [] => "comportamiento promedio según análisis histórico"
  | _ => String.concat ", " explanations
  end.

Definition determineConfidence (analysis : FrequencyAnalysis.t) (score : float)
  : Confidence :=
  if (70 <? score)%float && (10 <? FrequencyAnalysis.totalAppearances analysis)%nat
  then alta
  else if (40 <? score)%float && (5 <? FrequencyAnalysis.totalAppearances analysis)%nat
  then media
  else baja.

Definition calculatePredictionScores (frequencyAnalysis : list FrequencyAnalysis.t)
    (weights : Weights) : list PredictionScore.t :=
  let maxRecentFreq :=
    JsNum.Math_max (map FrequencyAnalysis.recentFrequency10 frequencyAnalysis) in
  let maxTotalFreq :=
    JsNum.Math_max (map FrequencyAnalysis.totalFrequency frequencyAnalysis) in
  let maxDaysSince :=
    JsNum.Math_max
      (map (fun f => JsNum.ofZ (FrequencyAnalysis.daysSinceLastAppearance f))
           frequencyAnalysis) in
  map (fun analysis =>
    let normalizedRecentFreq :=
      if (0 <? maxRecentFreq)%float
      then (FrequencyAnalysis.recentFrequency10 analysis / maxRecentFreq)%float
      else 0%float in
    let normalizedTotalFreq :=
      if (0 <? maxTotalFreq)%float
      then (FrequencyAnalysis.totalFrequency analysis / maxTotalFreq)%float
      else 0%float in
    let normalizedDaysSince :=
      if (0 <? maxDaysSince)%float
      then (JsNum.ofZ (FrequencyAnalysis.daysSinceLastAppearance analysis)
            / maxDaysSince)%float
      else 0%float in
    let score :=
      ((normalizedRecentFreq * recentFrequency weights
        + normalizedTotalFreq * totalFrequency weights
        + normalizedDaysSince * daysSinceAppearance weights) * 100)%float in
    {| PredictionScore.animalId := FrequencyAnalysis.animalId analysis;
       PredictionScore.animal := FrequencyAnalysis.animal analysis;
       PredictionScore.score := score;
       PredictionScore.rank := 0;
       PredictionScore.frequencyTotal := FrequencyAnalysis.totalFrequency analysis;
       PredictionScore.frequencyRecent := FrequencyAnalysis.recentFrequency10 analysis;
       PredictionScore.daysSinceLastAppearance :=
         FrequencyAnalysis.daysSinceLastAppearance analysis;
       PredictionScore.category := warm;
       PredictionScore.explanation := generateExplanation analysis score;
       PredictionScore.confidence := determineConfidence analysis score |})
    frequencyAnalysis.

(** [(a, b) => b.score - a.score] is positive. *)
Definition scoreAfter (a b : PredictionScore.t) : bool :=
  (0 <? PredictionScore.score b - PredictionScore.score a)%float.

Definition categoryOfRank (rank : nat) : Category :=
  if (rank <=? 5)%nat then hot
  else if (rank <=? 15)%nat then warm
  else if (rank <=? 25)%nat then cold
  else frozen.

Definition withRank (s : PredictionScore.t) (index : nat) : PredictionScore.t :=
  let rank := index + 1 in
  {| PredictionScore.animalId := PredictionScore.animalId s;
     PredictionScore.animal := PredictionScore.animal s;
     PredictionScore.score := PredictionScore.score s;
     PredictionScore.rank := rank;
     PredictionScore.frequencyTotal := PredictionScore.frequencyTotal s;
     PredictionScore.frequencyRecent := PredictionScore.frequencyRecent s;
     PredictionScore.daysSinceLastAppearance :=
       PredictionScore.daysSinceLastAppearance s;
     PredictionScore.category := categoryOfRank rank;
     PredictionScore.explanation := PredictionScore.explanation s;
     PredictionScore.confidence := PredictionScore.confidence s |}.

Definition categorizeAnimals (scores : list PredictionScore.t)
  : list PredictionScore.t :=
  let sortedScores := JsArray.sort scoreAfter scores in
  JsArray.mapi withRank sortedScores.

Section WithClock.
(** [today.getTime()] of the [new Date()] taken by the analysis, the date
    part of its [toISOString()], and [new Date(s).getTime()] for the
    date strings of the history. *)
Variable today : Z.
Variable todayISODate : string.
Variable getTime : string -> Z.

Definition analyzeAnimal (results : list HistoricalResult.t) (a : Animal)
  : FrequencyAnalysis.t :=
  let totalResults := length results in
  let animalResults := List.filter (isAnimal a) results in
  let totalAppearances := length animalResults in
  let totalFrequency := percentage totalAppearances totalResults in
  let recent5 := JsArray.sliceLast 5 results in
  let recent10 := JsArray.sliceLast 10 results in
  let recent20 := JsArray.sliceLast 20 results in
  let recentAppearances5 := length (List.filter (isAnimal a) recent5) in
  let recentAppearances10 := length (List.filter (isAnimal a) recent10) in
  let recentAppearances20 := length (List.filter (isAnimal a) recent20) in
  let recentFrequency5 := percentage recentAppearances5 (length recent5) in
  let recentFrequency10 := percentage recentAppearances10 (length recent10) in
  let recentFrequency20 := percentage recentAppearances20 (length recent20) in
  let lastResult := JsArray.lastElem animalResults in
  let lastAppearanceDate := option_map HistoricalResult.date lastResult in
  let daysSinceLastAppearance :=
    match lastResult with
    | Some r => ((today - getTime (HistoricalResult.date r)) / MS_PER_DAY)%Z
    | None => 999%Z
    end in
  let avgFrequency := (100 / JsNum.ofNat (length ANIMALS))%float in
  {| FrequencyAnalysis.animalId := Types.id a;
     FrequencyAnalysis.animal := a;
     FrequencyAnalysis.totalAppearances := totalAppearances;
     FrequencyAnalysis.totalFrequency := totalFrequency;
     FrequencyAnalysis.recentAppearances5 := recentAppearances5;
     FrequencyAnalysis.recentAppearances10 := recentAppearances10;
     FrequencyAnalysis.recentAppearances20 := recentAppearances20;
     FrequencyAnalysis.recentFrequency5 := recentFrequency5;
     FrequencyAnalysis.recentFrequency10 := recentFrequency10;
     FrequencyAnalysis.recentFrequency20 := recentFrequency20;
     FrequencyAnalysis.daysSinceLastAppearance := daysSinceLastAppearance;
     FrequencyAnalysis.lastAppearanceDate := lastAppearanceDate;
     FrequencyAnalysis.isHot := (avgFrequency * 1.5 <? recentFrequency10)%float;
     FrequencyAnalysis.isCold := (recentFrequency10 <? avgFrequency * 0.5)%float |}.

Definition calculateFrequencyAnalysis (results : list HistoricalResult.t)
  : list FrequencyAnalysis.t :=
  map (analyzeAnimal results) ANIMALS.

Definition isCategory (c : Category) (s : PredictionScore.t) : bool :=
  match PredictionScore.category s, c with
  | hot, hot | warm, warm | cold, cold | frozen, frozen => true
  | _, _ => false
  end.

Definition analyzeHistoricalData (lotteryId : LotteryId)
    (historicalResults : list HistoricalResult.t)
    (customWeights : option PartialWeights) : StatisticalPrediction :=
  let weights := mergeWeights customWeights in
  let frequencyAnalysis := calculateFrequencyAnalysis historicalResults in
  let scoredAnimals := calculatePredictionScores frequencyAnalysis weights in
  let categorizedAnimals := categorizeAnimals scoredAnimals in
  {| lotteryId := lotteryId;
     analysisDate := todayISODate;
     totalResults := length historicalResults;
     analysisWindow :=
       {| recent5 := Nat.min 5 (length historicalResults);
          recent10 := Nat.min 10 (length historicalResults);
          recent20 := Nat.min 20 (length historicalResults) |};
     top5 := JsArray.sliceFirst 5 categorizedAnimals;
     top10 := JsArray.sliceFirst 10 categorizedAnimals;
     hotAnimals := List.filter (isCategory hot) categorizedAnimals;
     coldAnimals :=
       List.filter (fun s => isCategory cold s || isCategory frozen s) categorizedAnimals;
     allAnimals := categorizedAnimals;
     weights := weights;
     disclaimer := DISCLAIMER |}.
End WithClock.

End Statistical.

(** ** services/predictionService.ts *)

Module Prediction.

(** [getHistoricalData], from the answer of
    [RealResultsService.getHistoricalResults] on; [None] is the thrown
    error. *)
Definition getHistoricalData (realResults : RealResults.RealResultsResponse)
    (maxResults : option nat) : option (list Statistical.HistoricalResult.t) :=
  if negb (RealResults.success realResults)
     || (length (RealResults.history realResults) =? 0)%nat
  then None
  else
    let history := RealResults.history realResults in
    let history :=
      match maxResults with
      | Some n => if (0 <? n)%nat then JsArray.sliceFirst n history else history
      | None => history
      end in
    Some (map (fun h =>
                 {| Statistical.HistoricalResult.date := RealResults.date h;
                    Statistical.HistoricalResult.hour := Some (RealResults.hour h);
                    Statistical.HistoricalResult.animal := RealResults.animal h;
                    Statistical.HistoricalResult.animalNumber :=
                      Types.number (RealResults.animal h);
                    Statistical.HistoricalResult.animalName :=
                      Types.name (RealResults.animal h) |})
              history).

End Prediction.

(** ** Host instances and sample data

    The services take two things from the host: the collation behind
    [localeCompare] and the parser behind [new Date(s)].  The instances
    below are what both amount to on the strings the pipeline stores, ISO
    dates ("YYYY-MM-DD") and 24-hour times ("HH:MM"). *)

Module Host.

(** Comparison by code units: on strings of digits with their separators
    at the same places, every collation orders this way. *)
Definition codeUnitCompare (a b : string) : Z :=
  match String.compare a b with
  | Lt => (-1)%Z
  | Eq => 0%Z
  | Gt => 1%Z
  end.

(** Days from 1970-01-01 to the civil date [y]-[m]-[d]. *)
Definition daysFromCivil (y m d : Z) : Z :=
  let y := if (m <=? 2)%Z then (y - 1)%Z else y in
  let era := (y / 400)%Z in
  let yoe := (y - era * 400)%Z in
  let mp := if (2 <? m)%Z then (m - 3)%Z else (m + 9)%Z in
  let doy := ((153 * mp + 2) / 5 + d - 1)%Z in
  let doe := (yoe * 365 + yoe / 4 - yoe / 100 + doy)%Z in
  (era * 146097 + doe - 719468)%Z.

Definition digit (c : N) : Z := Z.of_N c - 48.

(** [new Date(s).getTime()] for a date-only ISO string, which JavaScript
    reads as midnight UTC; other strings are not used below. *)
Definition utcMidnight (s : string) : Z :=
  match JsText.codes s with
  | [y1; y2; y3; y4; _; m1; m2; _; d1; d2] =>
    (86400000 *
     daysFromCivil (1000 * digit y1 + 100 * digit y2 + 10 * digit y3 + digit y4)
                   (10 * digit m1 + digit m2)
                   (10 * digit d1 + digit d2))%Z
  | _ => 0%Z
  end.

End Host.

Module Samples.

Definition unknownAnimal : Animal :=
  {| Types.id := "99"; Types.number := "99"; Types.name := "Dragón"; Types.emoji := "" |}.

Definition carnero : Animal :=
  {| Types.id := "01"; Types.number := "01"; Types.name := "Carnero"; Types.emoji := "🐏" |}.

Definition leon : Animal :=
  {| Types.id := "05"; Types.number := "05"; Types.name := "León"; Types.emoji := "🦁" |}.

Definition rana : Animal :=
  {| Types.id := "06"; Types.number := "06"; Types.name := "Rana"; Types.emoji := "🐸" |}.

Definition entry (d h : string) (a : Animal) : RealResults.RealHistoryEntry :=
  {| RealResults.date := d; RealResults.hour := h;
     RealResults.animal := a; RealResults.animalData := a;
     RealResults.number := Types.number a;
     RealResults.source := RealResults.FromLotoVen;
     RealResults.timestamp := 0 |}.

Definition result (d h : string) (a : Animal) : Statistical.HistoricalResult.t :=
  {| Statistical.HistoricalResult.date := d;
     Statistical.HistoricalResult.hour := Some h;
     Statistical.HistoricalResult.animal := a;
     Statistical.HistoricalResult.animalNumber := Types.number a;
     Statistical.HistoricalResult.animalName := Types.name a |}.

Definition draw (h : string) (a : Animal) : Types.DrawResult :=
  {| Types.hour := h; Types.label := h; Types.animal := Some a;
     Types.isCompleted := true; Types.isNext := false |}.

(** A clock reading on 2024-01-10, 12:00 UTC. *)
Definition clock : RealResults.Clock :=
  {| RealResults.now := Host.utcMidnight "2024-01-10" + 43200000;
     RealResults.nowISO := "2024-01-10T12:00:00.000Z";
     RealResults.venezuelaDate := "2024-01-10" |}.

(** Six stored draws on six days: Carnero on the oldest day, León on the
    five days after it. *)
Definition sixDays : list RealResults.RealHistoryEntry :=
  [ entry "2024-01-01" "09:00" carnero;
    entry "2024-01-02" "09:00" leon;
    entry "2024-01-03" "09:00" leon;
    entry "2024-01-04" "09:00" leon;
    entry "2024-01-05" "09:00" leon;
    entry "2024-01-06" "09:00" leon ].

(** Two stored draws of León, four days apart. *)
Definition twoLeons : list RealResults.RealHistoryEntry :=
  [ entry "2024-01-01" "09:00" leon;
    entry "2024-01-05" "09:00" leon ].

Definition store (entries : list RealResults.RealHistoryEntry)
  : gmap string RealResults.Item :=
  {[ RealResults.historyKey Types.GUACHARO := RealResults.HistoryJSON entries ]}.

(** What the analyzer is handed for a store: the answer of
    [getHistoricalResults] (no draw today) through [getHistoricalData]. *)
Definition delivered (entries : list RealResults.RealHistoryEntry)
  : list Statistical.HistoricalResult.t :=
  default []
    (Prediction.getHistoricalData
       (snd (RealResults.getHistoricalResults Host.codeUnitCompare
               (store entries) Types.GUACHARO clock [] []))
       None).

(** The order on records the Historical Store promises: [a] is at least as
    recent as [b] by (date, hour). *)
Definition notOlder (a b : Statistical.HistoricalResult.t) : bool :=
  let d := Host.codeUnitCompare (Statistical.HistoricalResult.date a)
                                (Statistical.HistoricalResult.date b) in
  (0 <? d)%Z
  || ((d =? 0)%Z
      && (0 <=? Host.codeUnitCompare
                 (default "" (Statistical.HistoricalResult.hour a))
                 (default "" (Statistical.HistoricalResult.hour b)))%Z).

Fixpoint sortedDescending (l : list Statistical.HistoricalResult.t) : bool :=
  match l with
  | [] => true
  | a :: l' => forallb (notOlder a) l' && sortedDescending l'
  end.

End Samples.

(** ** Reference values for the analysis of an empty history *)

Module EmptyHistory.
Import Statistical.



End EmptyHistory.

(** ** The frequency sum *)

Module FrequencySum.
Import Statistical.

(** The sum of totalAppearances over the analyzer's output. *)
Definition totalOfAppearances (frequencies : list FrequencyAnalysis.t) : nat :=
  list_sum (map FrequencyAnalysis.totalAppearances frequencies).

(** Every record of the history holds an animal whose id is in the
    catalogue. *)
Definition overCatalogue (results : list HistoricalResult.t) : Prop :=
  Forall (fun r => In (Types.id (HistoricalResult.animal r)) (map Types.id ANIMALS))
         results.

(** 1 when [a] is the animal with id [x], else 0. *)
Definition hit (x : string) (a : Animal) : nat :=
  if String.eqb x (Types.id a) then 1 else 0.

End FrequencySum.

(** ** Reading the Historical Store *)

Module Store.
Import RealResults.

(** Some stored record matches on (date, hour, entity id). *)
Definition recorded (d h : string) (a : Animal) (entries : list RealHistoryEntry) : Prop :=
  exists e, In e entries /\ date e = d /\ hour e = h /\ Types.id (animal e) = Types.id a.

(** Some stored record occupies the slot (date, hour). *)
Definition occupied (d h : string) (entries : list RealHistoryEntry) : Prop :=
  exists e, In e entries /\ date e = d /\ hour e = h.

(** The record the live merge inserts for a draw. *)
Definition liveEntry (todayStr : string) (clock : Clock) (drawHour : string) (a : Animal)
  : RealHistoryEntry :=
  {| date := todayStr; hour := drawHour; animal := a; animalData := a;
     number := Types.number a; source := FromLotoVen; timestamp := now clock |}.

(** The record a manual correction inserts. *)
Definition manualEntry (d h : string) (a : Animal) (clock : Clock) : RealHistoryEntry :=
  {| date := d; hour := h; animal := a; animalData := a;
     number := Types.number a; source := FromManual; timestamp := now clock |}.

(** The record the bulk load appends for an item resolved to [a]. *)
Definition bulkEntry (item : LoteriaDehoy.AppItem) (a : Animal) : RealHistoryEntry :=
  {| date := LoteriaDehoy.date item; hour := LoteriaDehoy.time item;
     animal := a; animalData := a; number := LoteriaDehoy.animalNumber item;
     source := FromLoteriaDehoy; timestamp := LoteriaDehoy.timestamp item |}.

(** A bulk-load item resolved to [a], as the draw the live merge would be
    handed for it. *)
Definition asDraw (item : LoteriaDehoy.AppItem) (a : Animal) : Types.DrawResult :=
  {| Types.hour := LoteriaDehoy.time item;
     Types.label := LoteriaDehoy.time item;
     Types.animal := Some a;
     Types.isCompleted := true;
     Types.isNext := false |}.

(** Every stored record keeps, as its number, the id of its animal. *)
Definition numbersAreIds (entries : list RealHistoryEntry) : Prop :=
  Forall (fun e => number e = Types.id (animal e)) entries.

End Store.

(** ** Reading the extractor's result *)

Module Extractor.
Import LotoVen.

(** [d] is the first of the collected draws that has its hour. *)
Definition firstAtItsHour (collected : list Draw) (d : Draw) : Prop :=
  find (fun x => String.eqb (hour x) (hour d)) collected = Some d.

(** Ascending by hour: every draw is before all the later ones in the
    order of the host's [localeCompare]. *)
Definition ascendingByHour (localeCompare : string -> string -> Z) (draws : list Draw)
  : Prop :=
  StronglySorted (fun a b => (localeCompare (hour a) (hour b) <= 0)%Z) draws.

Definition sameHour (h : string) (d : Draw) : bool := String.eqb (hour d) h.

(** The filter of [firstPerHour], told by what has been seen so far. *)
Fixpoint keepFresh (seen l : list Draw) : list Draw :=
  match l with
  | [] => []
  | x :: l' =>
    if existsb (sameHour (hour x)) seen
    then keepFresh (seen ++ [x]) l'
    else x :: keepFresh (seen ++ [x]) l'
  end.

(** A page whose pattern matches León and Rana at 9:00 AM and then entity
    "05" at 8:30 AM. *)
Definition samplePage : list RawMatch :=
  [ {| animalInfo := "León"; hours12 := 9; minutes := 0; isPM := false |};
    {| animalInfo := " Rana "; hours12 := 9; minutes := 0; isPM := false |};
    {| animalInfo := "05"; hours12 := 8; minutes := 30; isPM := false |} ].

End Extractor.

(** ** Keys of the Historical Store *)

Module StoreKeys.
Import RealResults.

(** The key of the live merge: (date, hour, entity id). *)
Definition entryKey (e : RealHistoryEntry) : string * string * string :=
  (date e, hour e, Types.id (animal e)).

(** The key of the bulk load: (date, hour, number). *)
Definition bulkKey (e : RealHistoryEntry) : string * string * string :=
  (date e, hour e, number e).

(** The slot of a record: (date, hour). *)
Definition slot (e : RealHistoryEntry) : string * string := (date e, hour e).

(** A record the live merge builds from a draw of the batch. *)
Definition fromBatch (clock : Clock) (todayDraws : list Types.DrawResult)
    (e : RealHistoryEntry) : Prop :=
  exists draw a,
    In draw todayDraws /\ Types.animal draw = Some a /\ Types.hour draw <> ""
    /\ e = Store.liveEntry (venezuelaDate clock) clock (Types.hour draw) a.

(** The items of the bulk data that belong to the requested lottery. *)
Definition requested (lotteryId : LotteryId) (convertedData : list LoteriaDehoy.AppItem)
  : list LoteriaDehoy.AppItem :=
  List.filter (fun item => String.eqb (LoteriaDehoy.lotteryType item)
                                      (requestedType lotteryId))
              convertedData.

(** The state in which the bulk loop starts. *)
Definition startLoad (entries : list RealHistoryEntry) : LoadCount :=
  {| existingHistory := entries; loaded := 0; duplicates := 0; errors := 0 |}.

(** A record the bulk load builds from an item of the data. *)
Definition fromData (lotteryId : LotteryId) (convertedData : list LoteriaDehoy.AppItem)
    (e : RealHistoryEntry) : Prop :=
  exists item a,
    In item (requested lotteryId convertedData)
    /\ findAnimalByNumber (LoteriaDehoy.animalNumber item) = Some a
    /\ e = Store.bulkEntry item a.

End StoreKeys.

(** ** Order of the returned history *)

Module StoreOrder.
Import RealResults.

(** A host collation is consistent: [a] sorts after [b] exactly when [b]
    sorts before [a], and "not after" is transitive. *)
Definition consistent (localeCompare : string -> string -> Z) : Prop :=
  (forall a b, 0 < localeCompare a b <-> localeCompare b a < 0)%Z
  /\ (forall a b c, localeCompare a b <= 0 -> localeCompare b c <= 0 ->
                    localeCompare a c <= 0)%Z.

(** Every record is at least as recent, by (date, hour), as all the records
    after it. *)
Definition mostRecentFirst (localeCompare : string -> string -> Z)
    (entries : list RealHistoryEntry) : Prop :=
  StronglySorted (fun a b => (compareEntries localeCompare a b <= 0)%Z) entries.

End StoreOrder.

(** ** Running the bulk load *)

Module BulkLoad.
Import RealResults.

(** No bulk load is on record for the lottery in the seven days before the
    clock's instant, so the load goes ahead. *)
Definition due (ls : gmap string Item) (lotteryId : LotteryId) (clock : Clock) : Prop :=
  forall lastDate, ls !! massiveLoadKey lotteryId = Some (DateText lastDate) ->
                   (7 * 86400000 <= now clock - lastDate)%Z.

(** The answer of a load that does nothing. *)
Definition nothingLoaded (ok : bool) : LoadResult :=
  {| lr_success := ok; lr_loaded := 0; lr_duplicates := 0; lr_errors := 0 |}.

(** A store whose last bulk load for Guácharo dates from 2024-01-01. *)
Definition loadedOnNewYear : gmap string Item :=
  <[massiveLoadKey Types.GUACHARO := DateText (Host.utcMidnight "2024-01-01")]>
    (Samples.store Samples.twoLeons).

Definition item (d t lottery num : string) : LoteriaDehoy.AppItem :=
  {| LoteriaDehoy.id := (lottery ++ "-" ++ d ++ "-" ++ t)%string;
     LoteriaDehoy.date := d;
     LoteriaDehoy.time := t;
     LoteriaDehoy.lotteryType := lottery;
     LoteriaDehoy.animalNumber := num;
     LoteriaDehoy.animalName := "";
     LoteriaDehoy.source := "loteriadehoy.com";
     LoteriaDehoy.verified := true;
     LoteriaDehoy.timestamp := 0 |}.

(** Scraped rows: one already stored, one new, one repeated, one with an
    unknown number, one of the other lottery. *)
Definition sampleData : list LoteriaDehoy.AppItem :=
  [ item "2024-01-05" "09:00" "guacharo-activo" "05";
    item "2024-01-04" "10:00" "guacharo-activo" "06";
    item "2024-01-04" "10:00" "guacharo-activo" "06";
    item "2024-01-04" "11:00" "guacharo-activo" "77";
    item "2024-01-04" "12:00" "lotto-activo" "01" ].

End BulkLoad.

(** ** services/realResultsService.ts: getHistoryStats *)

Module HistoryStats.
Import RealResults.

(** ['Never'], or the ISO text of an instant given in epoch milliseconds. *)
Inductive LastUpdate := Never | At (ms : Z).

Record DateRange := {
  from : string;
  to : string
}.

Record Stats := {
  totalEntries : nat;
  dateRange : DateRange;
  sources : list Source;
  lastUpdate : LastUpdate
}.

(** The default order of [Array.prototype.sort()] on strings, by code
    units (for the ASCII dates of the store, the order of their bytes). *)
Definition codeUnitAfter (a b : string) : bool :=
  match String.compare a b with
  | Gt => true
  | _ => false
  end.

Definition sourceEqb (a b : Source) : bool :=
  match a, b with
  | FromLotoVen, FromLotoVen | FromLoteriaDehoy, FromLoteriaDehoy
  | FromManual, FromManual => true
  | _, _ => false
  end.

(** [[...new Set(l)]]: the first occurrences, in order. *)
Definition distinct (l : list Source) : list Source :=
  fold_left (fun set s => if existsb (sourceEqb s) set then set else set ++ [s]) l [].

(** [(latest, current) => current.timestamp > latest.timestamp ? current : latest] *)
Definition later (latest current : RealHistoryEntry) : RealHistoryEntry :=
  if (timestamp latest <? timestamp current)%Z then current else latest.

Definition getHistoryStats (ls : gmap string Item) (lotteryId : LotteryId) : Stats :=
  match getPersistentHistory ls lotteryId with
  | [] =>
    {| totalEntries := 0;
       dateRange := {| from := "N/A"; to := "N/A" |};
       sources := [];
       lastUpdate := Never |}
  | first :: rest =>
    let history := first :: rest in
    let dates := JsArray.sort codeUnitAfter (map date history) in
    let lastEntry := fold_left later rest first in
    {| totalEntries := length history;
       dateRange := {| from := hd "" dates; to := List.last dates "" |};
       sources := distinct (map source history);
       lastUpdate := At (timestamp lastEntry) |}
  end.

(** [a] is not after [b] in the order of the code units. *)
Definition notAfter (a b : string) : Prop := String.compare a b <> Gt.

End HistoryStats.

(** ** Reading the windows of the analyzer *)

Module Windows.
Import Statistical.

(** The sum over the analyzer's output of one of its counters. *)
Definition sumOf (counter : FrequencyAnalysis.t -> nat)
    (frequencies : list FrequencyAnalysis.t) : nat :=
  list_sum (map counter frequencies).

(** The scored animals that [analyzeHistoricalData] hands to
    [categorizeAnimals]. *)
Definition scoresOf (today : Z) (getTime : string -> Z)
    (results : list HistoricalResult.t) (customWeights : option PartialWeights)
  : list PredictionScore.t :=
  calculatePredictionScores (calculateFrequencyAnalysis today getTime results)
                            (mergeWeights customWeights).

End Windows.

(** ** Spellings of the catalogue names *)

Module Spellings.
Import JsText.

(** The text of a list of Basic Latin code points. *)
Definition ofCodes (cs : list N) : string :=
  string_of_list_ascii (map ascii_of_N cs).

(** The name of an animal in lower case without diacritics, and in upper
    case without diacritics. *)
Definition plainName (a : Animal) : string :=
  ofCodes (normalizeLetters (codes (Types.name a))).

Definition shoutedName (a : Animal) : string :=
  ofCodes (map (fun c => (c - 32)%N) (normalizeLetters (codes (Types.name a)))).

(** The word class of the code point before a position, if any. *)
Definition wordBefore (prev : option N) : bool :=
  match prev with
  | Some p => isWord p
  | None => false
  end.

(** What [toLowerCode] must preserve for the number pattern to match alike. *)
Definition lowerKeeps (x : N) : bool :=
  Bool.eqb (isWord (toLowerCode x)) (isWord x)
  && Bool.eqb (isDigit (toLowerCode x)) (isDigit x)
  && (if isDigit x then (toLowerCode x =? x)%N else true).

(** Neither the Kelvin sign (U+212A) nor the capital I with a dot (U+0130):
    the two code points beyond Basic Latin whose lower case holds a word
    character of Basic Latin. *)
Definition plainCase (x : N) : bool := negb ((x =? 8490) || (x =? 304))%N.

(** A run of lower-case mappings that begins beyond Basic Latin and leads
    beyond it, or else is the run of the Kelvin sign. *)
Definition runKeeps (r : N * N * N * N) : bool :=
  let '(first, last, _, target) := r in
  ((128 <=? first) && ((128 <=? target) || ((first =? 8490) && (last =? 8490))))%N.

(** A text given by its UTF-8 bytes. *)
Definition ofBytes (bs : list N) : string :=
  string_of_list_ascii (map ascii_of_N bs).

(** The Kelvin sign before a 5; a 5 before the capital I with a dot; a 5
    before the lower case of that letter, i and U+0307. *)
Definition kelvin5 : string := ofBytes [226; 132; 170; 53]%N.
Definition five_dotted : string := ofBytes [53; 196; 176]%N.
Definition five_small_dotted : string := ofBytes [53; 105; 204; 135]%N.

End Spellings.

(** ** Readings of the results page *)

Module Page.
Import JsText LotoVen.

(** The match gives an animal: its first group resolves. *)
Definition resolves (m : RawMatch) : bool :=
  match findAnimalByNameOrNumber (animalInfo m) with
  | Some _ => true
  | None => false
  end.

(** [d] is read from one of the first 30 matches of the pattern. *)
Definition readFrom (matches : list RawMatch) (d : Draw) : Prop :=
  exists m, In m (firstn 30 matches)
            /\ findAnimalByNameOrNumber (animalInfo m) = Some (animal d)
            /\ hour d = normalizedHour m
            /\ isCompleted d = true.

(** A reading of a 12-hour clock. *)
Definition clockReading (m : RawMatch) : Prop :=
  1 <= hours12 m <= 12 /\ minutes m <= 59.

(** The minute of the day that a reading of a 12-hour clock denotes. *)
Definition minuteOfDay (m : RawMatch) : nat :=
  (hours12 m mod 12 + (if isPM m then 12 else 0)) * 60 + minutes m.

(** Comparison of [pad2] texts against comparison of the numbers. *)
Definition pad2Ordered (x y : nat) : bool :=
  match String.compare (pad2 x) (pad2 y), Nat.compare x y with
  | Lt, Lt | Eq, Eq | Gt, Gt => true
  | _, _ => false
  end.

Definition halfPastNoon : RawMatch :=
  {| animalInfo := "05"; hours12 := 12; minutes := 30; isPM := true |}.

Definition halfPastMidnight : RawMatch :=
  {| animalInfo := "05"; hours12 := 12; minutes := 30; isPM := false |}.

End Page.

(** ** services/lotovenService.ts: the broader search *)

Module BroadSearch.
Import LotoVen.

(** *** aggressiveHTMLParse

    The regular expressions are outside the model.  The function is given
    what they yield: for every hour text found in the page, its two parts
    around the colon and the index at which [hourRegex.exec(html)] finds it;
    and the array [[...animalMatches, ...numberMatches]] of the places where
    a name or a number of the catalogue stands. *)

Record HourMatch := {
  hText : string;                 (* hourStr.split(':')[0] *)
  mText : string;                 (* hourStr.split(':')[1] *)
  hourPosition : option nat       (* hourMatch.index; None when exec gives null *)
}.

Record Candidate := {
  position : nat;
  candidate : Animal
}.

(** [Math.abs(position - hourPosition)] *)
Definition distanceTo (hourPos : nat) (c : Candidate) : nat :=
  if (position c <? hourPos)%nat then hourPos - position c else position c - hourPos.

(** One turn of the loop over the candidates; the state is [closestAnimal]
    with [closestDistance], [None] standing for [Infinity]. *)
Definition closestStep (hourPos : nat) (st : option Animal * option nat)
    (c : Candidate) : option Animal * option nat :=
  let distance := distanceTo hourPos c in
  if (distance <? 200)%nat
     && match snd st with
        | None => true
        | Some closestDistance => (distance <? closestDistance)%nat
        end
  then (Some (candidate c), Some distance)
  else st.

(** [h.padStart(2, '0')] *)
Definition padStart (h : string) : string :=
  match String.length h with
  | 0 => "00"
  | 1 => ("0" ++ h)%string
  | _ => h
  end.

Definition hourTaken (normalizedHour : string) (d : Draw) : bool :=
  String.eqb (hour d) normalizedHour.

(** One turn of [hourMatches.forEach]. *)
Definition hourStep (candidates : list Candidate) (draws : list Draw)
    (hm : HourMatch) : list Draw :=
  match hourPosition hm with
  | None => draws
  | Some hourPos =>
    match fst (fold_left (closestStep hourPos) candidates (None, None)) with
    | None => draws
    | Some closestAnimal =>
      let normalizedHour := (padStart (hText hm) ++ ":" ++ mText hm)%string in
      if existsb (hourTaken normalizedHour) draws then draws
      else draws ++ [{| hour := normalizedHour; animal := closestAnimal;
                        isCompleted := true |}]
    end
  end.

Definition aggressiveHTMLParse (hourMatches : list HourMatch)
    (candidates : list Candidate) : list Draw :=
  fold_left (hourStep candidates) hourMatches [].

(** [c] is the first of the nearest candidates around [hourPos], and is
    nearer than 200. *)
Definition firstNearest (hourPos : nat) (candidates : list Candidate)
    (c : Candidate) : Prop :=
  exists before after,
    candidates = before ++ c :: after
    /\ distanceTo hourPos c < 200
    /\ (forall c', In c' before -> distanceTo hourPos c < distanceTo hourPos c')
    /\ (forall c', In c' after -> distanceTo hourPos c <= distanceTo hourPos c').

(** [d] is the draw that the hour match [hm] gives. *)
Definition drawnAt (candidates : list Candidate) (hm : HourMatch) (d : Draw) : Prop :=
  exists hourPos c,
    hourPosition hm = Some hourPos
    /\ firstNearest hourPos candidates c
    /\ animal d = candidate c
    /\ hour d = (padStart (hText hm) ++ ":" ++ mText hm)%string
    /\ isCompleted d = true.

(** The state of the nearest-candidate loop after the candidates [seen]. *)
Definition closestAfter (hourPos : nat) (seen : list Candidate)
    (st : option Animal * option nat) : Prop :=
  (st = (None, None) /\ forall c, In c seen -> 200 <= distanceTo hourPos c)
  \/ exists before c after,
       seen = before ++ c :: after
       /\ st = (Some (candidate c), Some (distanceTo hourPos c))
       /\ distanceTo hourPos c < 200
       /\ (forall c', In c' before -> distanceTo hourPos c < distanceTo hourPos c')
       /\ (forall c', In c' after -> distanceTo hourPos c <= distanceTo hourPos c').

(** A section that reads Rana at index 20, the hour 9:00 at index 100 and
    León at index 150.  The names give two candidates, in the order of the
    catalogue; the digits 00 of the hour are the number of Delfín and give a
    third, at index 102. *)
Definition sampleHours : list HourMatch :=
  [ {| hText := "9"; mText := "00"; hourPosition := Some 100 |} ].

Definition delfin : Animal :=
  {| Types.id := "00"; Types.number := "00"; Types.name := "Delfín"; Types.emoji := "🐬" |}.

Definition sampleCandidates : list Candidate :=
  [ {| position := 150; candidate := Samples.leon |};
    {| position := 20; candidate := Samples.rana |};
    {| position := 102; candidate := delfin |} ].

End BroadSearch.

(** ** services/lotteryService.ts: the schedule of the day *)

Module Lottery.
Import JsText.

Definition DRAW_HOURS : list string :=
  [ "09:00"; "10:00"; "11:00"; "12:00"; "13:00"; "14:00";
    "15:00"; "16:00"; "17:00"; "18:00"; "19:00" ].

(** The fields of a [Partial<DrawResult>] that the schedule reads; [None]
    stands for a missing field. *)
Record PartialDraw := {
  hour : option string;
  animal : option Animal
}.

(** [s.split(sep)] for a separator of one character. *)
Fixpoint split (sep : ascii) (s : string) : list string :=
  match s with
  | EmptyString => [EmptyString]
  | String c s' =>
    if Ascii.eqb c sep then EmptyString :: split sep s'
    else match split sep s' with
         | p :: ps => String c p :: ps
         | [] => [String c EmptyString]
         end
  end.

(** [Number(s)] for a text of decimal digits, the only ones the table of
    draw hours gives. *)
Definition Number (s : string) : nat :=
  fold_left (fun n c => 10 * n + (nat_of_ascii c - 48)) (list_ascii_of_string s) 0.

(** [const [h, m] = hourStr.split(':').map(Number)] *)
Definition hoursOf (hourStr : string) : nat :=
  nth 0 (map Number (split ":" hourStr)) 0.

Definition minutesOf (hourStr : string) : nat :=
  nth 1 (map Number (split ":" hourStr)) 0.

(** [realResults.find(r => r.hour === hourStr)] *)
Definition resultAt (realResults : list PartialDraw) (hourStr : string)
  : option PartialDraw :=
  find (fun r => match hour r with
                 | Some h => String.eqb h hourStr
                 | None => false
                 end) realResults.

Definition truthy {A} (o : option A) : bool :=
  match o with
  | Some _ => true
  | None => false
  end.

(** The predicate given to [DRAW_HOURS.findIndex]. *)
Definition upcoming (currentTotalMinutes : nat) (realResults : list PartialDraw)
    (hS : string) : bool :=
  let drawMinutes := hoursOf hS * 60 + minutesOf hS in
  (currentTotalMinutes <? drawMinutes)%nat && negb (truthy (resultAt realResults hS)).

(** [DRAW_HOURS.indexOf(hourStr)], [None] standing for -1. *)
Definition indexOf (hourStr : string) (l : list string) : option nat :=
  LotoVen.findIndex (fun x => String.eqb x hourStr) l.

Definition labelOf (h : nat) : string :=
  if (12 <=? h)%nat
  then (if (h =? 12)%nat then "12:00 PM" else natToString (h - 12) ++ ":00 PM")%string
  else (natToString h ++ ":00 AM")%string.

(** [currentTotalMinutes] is [getHours() * 60 + getMinutes()] of the clock
    set back four hours. *)
Definition getDrawSchedule (currentTotalMinutes : nat)
    (realResults : list PartialDraw) : list Types.DrawResult :=
  map (fun hourStr =>
         let h := hoursOf hourStr in
         let m := minutesOf hourStr in
         let drawTotalMinutes := h * 60 + m in
         let realMatch := resultAt realResults hourStr in
         let isCompleted :=
           truthy realMatch || (drawTotalMinutes + 10 <=? currentTotalMinutes)%nat in
         let isNext :=
           negb isCompleted
           && bool_decide (LotoVen.findIndex (upcoming currentTotalMinutes realResults)
                                             DRAW_HOURS
                           = indexOf hourStr DRAW_HOURS) in
         {| Types.hour := hourStr;
            Types.label := labelOf h;
            Types.animal := match realMatch with
                            | Some r => animal r
                            | None => None
                            end;
            Types.isCompleted := isCompleted;
            Types.isNext := isNext |})
      DRAW_HOURS.

(** The minute of the day of a draw of the schedule. *)
Definition drawMinutes (d : Types.DrawResult) : nat :=
  hoursOf (Types.hour d) * 60 + minutesOf (Types.hour d).

End Lottery.

(** ** services/loteriaDehoyService.ts: conversion and saving *)

Module Scraper.
Import LoteriaDehoy.

(** The rows read from the history pages. *)
Record HistoricalResult := {
  loteria : string;
  fecha : string;
  hora : string;
  animal : string;
  numero : string
}.

(** One turn of [resultados.map] in [convertirAFormatoApp]; [now] is the
    instant of [new Date()] in that turn. *)
Definition convertir (now : Z) (resultado : HistoricalResult) : AppItem :=
  let lotteryType :=
    if String.eqb (loteria resultado) "Lotto Activo"
    then "lotto-activo" else "guacharo-activo" in
  let fechaParts := Lottery.split "/" (fecha resultado) in
  let fechaISO :=
    match fechaParts with
    | [dia; mes; anio] =>
      (anio ++ "-" ++ BroadSearch.padStart mes ++ "-" ++ BroadSearch.padStart dia)%string
    | _ => fecha resultado
    end in
  {| id := (lotteryType ++ "-" ++ fechaISO ++ "-" ++ hora resultado)%string;
     date := fechaISO;
     time := hora resultado;
     lotteryType := lotteryType;
     animalNumber := numero resultado;
     animalName := animal resultado;
     source := "loteriadehoy.com";
     verified := true;
     timestamp := now |}.

(** [clock i] is the instant at which the row of index [i] is converted. *)
Definition convertirAFormatoApp (clock : nat -> Z) (resultados : list HistoricalResult)
  : list AppItem :=
  JsArray.mapi (fun resultado i => convertir (clock i) resultado) resultados.

(** What [localStorage] holds under ['historical-results']: nothing, a text
    that [JSON.parse] or the spread refuses, or an array of items. *)
Inductive Stored :=
| Missing
| Malformed
| Items (items : list AppItem).

Record Storage := {
  historicalResults : Stored;              (* 'historical-results' *)
  lastHistoricalUpdate : option Z          (* 'last-historical-update' *)
}.

Definition sameId (item x : AppItem) : bool := String.eqb (id x) (id item).

(** [todosCombinados.filter((item, index, arr) =>
      arr.findIndex(x => x.id === item.id) === index)] *)
Definition unique (arr : list AppItem) : list AppItem :=
  LotoVen.filteri_from
    (fun item index => bool_decide (LotoVen.findIndex (sameId item) arr = Some index))
    0 arr.

(** [savedAt] is the instant of the [new Date()] written as the last
    update.  An exception leaves the storage as it is. *)
Definition guardarResultados (st : Storage) (clock : nat -> Z) (savedAt : Z)
    (resultados : list HistoricalResult) : Storage :=
  let datosApp := convertirAFormatoApp clock resultados in
  match match historicalResults st with
        | Missing => Some []
        | Malformed => None
        | Items items => Some items
        end with
  | None => st
  | Some datosExistentes =>
    let todosCombinados := datosExistentes ++ datosApp in
    let unicos := unique todosCombinados in
    {| historicalResults := Items unicos;
       lastHistoricalUpdate := Some savedAt |}
  end.

(** The filter of [unique], told by what has been seen so far. *)
Fixpoint keepNew (seen l : list AppItem) : list AppItem :=
  match l with
  | [] => []
  | x :: l' =>
    if existsb (sameId x) seen
    then keepNew (seen ++ [x]) l'
    else x :: keepNew (seen ++ [x]) l'
  end.

(** The items held by the storage. *)
Definition itemsOf (st : Storage) : list AppItem :=
  match historicalResults st with
  | Items items => items
  | _ => []
  end.

(** Two rows of the same draw of Lotto Activo, and one of Guácharo. *)
Definition rows : list HistoricalResult :=
  [ {| loteria := "Lotto Activo"; fecha := "5/1/2026"; hora := "09:00";
       animal := "León"; numero := "05" |};
    {| loteria := "Lotto Activo"; fecha := "05/01/2026"; hora := "09:00";
       animal := "Rana"; numero := "33" |};
    {| loteria := "Guácharo Activo"; fecha := "5/1/2026"; hora := "09:00";
       animal := "Rana"; numero := "33" |} ].

Definition emptyStorage : Storage :=
  {| historicalResults := Missing; lastHistoricalUpdate := None |}.

End Scraper.

(** ** services/lotteryService.ts: the hot and cold analysis *)

Module Engine.

(** The fields of a history record that the analysis reads; [None] stands
    for a missing field. *)
Record Entry := {
  animalData : option Animal;
  number : option string
}.

(** [h.animalData?.id || h.number] *)
Definition idOf (h : Entry) : option string :=
  match animalData h with
  | Some a => if String.eqb (Types.id a) "" then number h else Some (Types.id a)
  | None => number h
  end.

(** [(h.animalData?.id || h.number) === animalId] *)
Definition isOf (animalId : string) (h : Entry) : bool :=
  match idOf h with
  | Some s => String.eqb s animalId
  | None => false
  end.

(** The history that the constructor keeps. *)
Definition kept (history : list Entry) : list Entry := JsArray.sliceFirst 200 history.

Record HotCold := {
  isHot : bool;
  streak : nat;
  lastSeen : nat
}.

(** The loop that counts the current streak: it stops at the first record
    of the animal. *)
Fixpoint streakLoop (animalId : string) (history : list Entry) : nat :=
  match history with
  | [] => 0
  | h :: rest => if isOf animalId h then 0 else S (streakLoop animalId rest)
  end.

(** The places of the animal: the records of the history with their index,
    filtered. *)
Definition positionsOf (animalId : string) (history : list Entry)
  : list (Entry * nat) :=
  List.filter (fun p => isOf animalId (fst p))
              (JsArray.mapi (fun h i => (h, i)) history).

(** The places of the animal when the indices are counted from [i]. *)
Definition placesFrom (animalId : string) (i : nat) (l : list Entry)
  : list (Entry * nat) :=
  List.filter (fun p => isOf animalId (fst p))
              (JsArray.mapi_from (fun h k => (h, k)) i l).

(** The body of [this.animals.forEach] in [calculateHotColdAnalysis]. *)
Definition hotCold (history : list Entry) (animal : Animal) : HotCold :=
  let positions := positionsOf (Types.id animal) history in
  let lastSeen :=
    match positions with
    | p :: _ => snd p
    | [] => length history
    end in
  let recentAppearances := length (List.filter (fun p => (snd p <? 20)%nat) positions) in
  let isHot := (3 <=? recentAppearances)%nat in
  let streak := streakLoop (Types.id animal) history in
  {| isHot := isHot; streak := streak; lastSeen := lastSeen |}.

(** The record [analysis], as its assignments in their order. *)
Definition calculateHotColdAnalysis (history : list Entry) : list (string * HotCold) :=
  map (fun animal => (Types.id animal, hotCold history animal)) ANIMALS.

End Engine.

(** ** The same batch on the next day *)

Module Midnight.
Import RealResults.

(** A batch with a draw that comes twice. *)
Definition batch : list Types.DrawResult :=
  [ Samples.draw "09:00" Samples.rana; Samples.draw "10:00" Samples.leon;
    Samples.draw "09:00" Samples.rana ].

(** A clock reading on 2024-01-11, 04:30 UTC: half past midnight of
    2024-01-11 in Venezuela, sixteen and a half hours after
    [Samples.clock]. *)
Definition afterMidnight : Clock :=
  {| now := Host.utcMidnight "2024-01-11" + 16200000;
     nowISO := "2024-01-11T04:30:00.000Z";
     venezuelaDate := "2024-01-11" |}.

End Midnight.

(** ** The bulk load told by the key of the live merge *)

Module Backfill.
Import RealResults.

(** The entity that a candidate of the bulk load names: its number is the
    id of the entity. *)
Definition candidate (item : LoteriaDehoy.AppItem) : Animal :=
  {| Types.id := LoteriaDehoy.animalNumber item;
     Types.number := LoteriaDehoy.animalNumber item;
     Types.name := LoteriaDehoy.animalName item;
     Types.emoji := "" |}.

(** The live merge would skip the candidate: its own predicate finds a
    record that matches on (date, hour, entity id). *)
Definition liveSkips (item : LoteriaDehoy.AppItem) (entries : list RealHistoryEntry)
  : bool :=
  existsb (sameDraw (LoteriaDehoy.date item) (LoteriaDehoy.time item) (candidate item))
          entries.

(** A turn of the bulk loop in which the duplicates are told by the key of
    the live merge. *)
Definition loadItemByLiveKey (lotteryId : LotteryId) (st : LoadCount)
    (item : LoteriaDehoy.AppItem) : LoadCount :=
  if negb (String.eqb (LoteriaDehoy.lotteryType item) (requestedType lotteryId))
  then st
  else if liveSkips item (existingHistory st)
  then {| existingHistory := existingHistory st; loaded := loaded st;
          duplicates := S (duplicates st); errors := errors st |}
  else
    match findAnimalByNumber (LoteriaDehoy.animalNumber item) with
    | None =>
      {| existingHistory := existingHistory st; loaded := loaded st;
         duplicates := duplicates st; errors := S (errors st) |}
    | Some a =>
      {| existingHistory := existingHistory st ++ [Store.bulkEntry item a];
         loaded := S (loaded st);
         duplicates := duplicates st;
         errors := errors st |}
    end.

(** The state of the bulk loop when it reaches the candidate that follows
    the items [before]. *)
Definition reached (lotteryId : LotteryId) (entries : list RealHistoryEntry)
    (before : list LoteriaDehoy.AppItem) : LoadCount :=
  fold_left (loadItem lotteryId) before (StoreKeys.startLoad entries).

(** Rows whose numbers are names of inherited members. *)
Definition inheritedRows : list LoteriaDehoy.AppItem :=
  [ BulkLoad.item "2024-01-04" "10:00" "guacharo-activo" "constructor";
    BulkLoad.item "2024-01-04" "10:00" "guacharo-activo" "toString" ].

End Backfill.

(** * Properties *)

(** ** Arrays: sort, indexed map, slices *)

Module JsArrayFacts.
Import JsArray.

Section SortFacts.
Context {A : Type} (after : A -> A -> bool).

Lemma insertSorted_perm (a : A) (l : list A) :
  Permutation (insertSorted after a l) (a :: l).
Proof.
  induction l as [|b l IH]; simpl; [reflexivity|].
  destruct (after a b); [|reflexivity].
  rewrite IH. apply perm_swap.
Qed.

Lemma sort_perm (l : list A) : Permutation (sort after l) l.
Proof.
  induction l as [|a l IH]; simpl; [reflexivity|].
  rewrite insertSorted_perm. now apply perm_skip.
Qed.

Lemma sort_length (l : list A) : length (sort after l) = length l.
Proof. apply Permutation_length, sort_perm. Qed.


Section Sorted.
Variable le : A -> A -> Prop.
Hypothesis not_after_le : forall a b, after a b = false -> le a b.
Hypothesis after_le : forall a b, after a b = true -> le b a.

Lemma insertSorted_hd (a c : A) (l : list A) :
  le c a -> HdRel le c l -> HdRel le c (insertSorted after a l).
Proof.
  intros Hca Hl. destruct l as [|b l]; simpl.
  - now constructor.
  - destruct (after a b); constructor; [now inversion Hl | exact Hca].
Qed.

Lemma insertSorted_sorted (a : A) (l : list A) :
  Sorted le l -> Sorted le (insertSorted after a l).
Proof.
  induction 1 as [|b l Hs IH Hb]; simpl.
  - repeat constructor.
  - destruct (after a b) eqn:E.
    + constructor; [exact IH|]. apply insertSorted_hd; auto.
    + constructor; [now constructor|]. constructor. auto.
Qed.

Lemma sort_sorted (l : list A) : Sorted le (sort after l).
Proof.
  induction l as [|a l IH]; simpl; [constructor|].
  now apply insertSorted_sorted.
Qed.
End Sorted.
End SortFacts.

Lemma mapi_from_length {A B} (f : A -> nat -> B) (i : nat) (l : list A) :
  length (mapi_from f i l) = length l.
Proof. revert i; induction l; intros; simpl; auto. Qed.

Lemma map_mapi_from {A B C} (g : B -> C) (f : A -> nat -> B) (i : nat) (l : list A) :
  map g (mapi_from f i l) = mapi_from (fun x k => g (f x k)) i l.
Proof. revert i; induction l as [|x l IH]; intros; simpl; [|rewrite IH]; auto. Qed.

Lemma mapi_from_index {A} (i : nat) (l : list A) :
  mapi_from (fun _ k => k + 1) i l = seq (S i) (length l).
Proof.
  revert i; induction l as [|x l IH]; intros; simpl; [reflexivity|].
  rewrite IH. f_equal. lia.
Qed.

Lemma mapi_from_noindex {A B} (g : A -> B) (i : nat) (l : list A) :
  mapi_from (fun x _ => g x) i l = map g l.
Proof. revert i; induction l as [|x l IH]; intros; simpl; [|rewrite IH]; auto. Qed.

Lemma mapi_from_Forall {A B} (P : B -> Prop) (f : A -> nat -> B) (i : nat) (l : list A) :
  (forall x k, P (f x k)) -> Forall P (mapi_from f i l).
Proof.
  intros H. revert i; induction l; intros; simpl; constructor; auto.
Qed.

End JsArrayFacts.

(** ** Numbers *)

Module JsNumFacts.

#[local] Open Scope float_scope.


End JsNumFacts.

(** ** Scoring engine: ranks and categories *)

Module ScoringFacts.
Import Statistical.

Lemma categorize_rank (scores : list PredictionScore.t) :
  map PredictionScore.rank (categorizeAnimals scores) = seq 1 (length scores).
Proof.
  unfold categorizeAnimals, JsArray.mapi.
  rewrite JsArrayFacts.map_mapi_from. cbn [withRank PredictionScore.rank].
  rewrite JsArrayFacts.mapi_from_index.
  now rewrite JsArrayFacts.sort_length.
Qed.

Lemma categorize_ids (scores : list PredictionScore.t) :
  Permutation (map PredictionScore.animalId (categorizeAnimals scores))
              (map PredictionScore.animalId scores).
Proof.
  unfold categorizeAnimals, JsArray.mapi.
  rewrite JsArrayFacts.map_mapi_from. cbn [withRank PredictionScore.animalId].
  rewrite JsArrayFacts.mapi_from_noindex.
  apply Permutation_map, JsArrayFacts.sort_perm.
Qed.

Lemma categorize_category (scores : list PredictionScore.t) :
  Forall (fun s => PredictionScore.category s = categoryOfRank (PredictionScore.rank s))
         (categorizeAnimals scores).
Proof.
  unfold categorizeAnimals, JsArray.mapi.
  apply JsArrayFacts.mapi_from_Forall. reflexivity.
Qed.

Lemma categoryOfRank_spec (rank : nat) :
  categoryOfRank rank =
    if decide (rank <= 5) then hot
    else if decide (rank <= 15) then warm
    else if decide (rank <= 25) then cold
    else frozen.
Proof.
  unfold categoryOfRank.
  repeat (case_decide; [ rewrite (proj2 (Nat.leb_le _ _)) by assumption; reflexivity
                       | rewrite (proj2 (Nat.leb_gt _ _)) by lia ]).
  reflexivity.
Qed.

(** C6. Scoring any [N] entities gives the ranks 1, 2, ..., N, one per
    entity and in this order along the result, over the same entities; the
    category of each is determined by its rank alone: hot up to rank 5,
    warm up to 15, cold up to 25, frozen above (so rank 1 is hot and rank
    37 is frozen). *)
Theorem ranks_dense_and_categories_by_rank (scores : list PredictionScore.t) :
  map PredictionScore.rank (categorizeAnimals scores) = seq 1 (length scores)
  /\ Permutation (map PredictionScore.animalId (categorizeAnimals scores))
                 (map PredictionScore.animalId scores)
  /\ Forall (fun s => PredictionScore.category s
                      = categoryOfRank (PredictionScore.rank s))
            (categorizeAnimals scores)
  /\ (forall rank : nat,
        categoryOfRank rank =
          if decide (rank <= 5) then hot
          else if decide (rank <= 15) then warm
          else if decide (rank <= 25) then cold
          else frozen)
  /\ categoryOfRank 1 = hot
  /\ categoryOfRank 37 = frozen.
Proof.
  split; [apply categorize_rank|].
  split; [apply categorize_ids|].
  split; [apply categorize_category|].
  split; [apply categoryOfRank_spec|].
  split; reflexivity.
Qed.

End ScoringFacts.

(** ** Analysis of an empty history *)

Module EmptyHistoryFacts.
Import Statistical EmptyHistory.

Section Empty.
Variable today : Z.
Variable todayISODate : string.
Variable getTime : string -> Z.








End Empty.



End EmptyHistoryFacts.

(** ** Entity resolver *)

Module ResolverFacts.

Lemma catalogue_size : length ANIMALS = 37.
Proof. reflexivity. Qed.

Lemma catalogue_ids_unique : List.NoDup (map Types.id ANIMALS).
Proof. apply NoDup_ListNoDup, (bool_decide_unpack _). vm_compute. exact I. Qed.

(** C8. The resolver is a function of its token and the fixed catalogue.
    Resolving "05" yields the catalogue entity whose code is "05" (León), by
    [findAnimalByNameOrNumber] and by [findAnimalByNumber] alike; so does
    resolving each of "León", "leon" and "LEÓN"; and every catalogue code
    resolves to its own entity. *)
Theorem resolver_is_deterministic :
  In Samples.leon ANIMALS
  /\ Types.number Samples.leon = "05"
  /\ LotoVen.findAnimalByNameOrNumber "05" = Some Samples.leon
  /\ RealResults.findAnimalByNumber "05" = Some Samples.leon
  /\ LotoVen.findAnimalByNameOrNumber "León" = Some Samples.leon
  /\ LotoVen.findAnimalByNameOrNumber "leon" = Some Samples.leon
  /\ LotoVen.findAnimalByNameOrNumber "LEÓN" = Some Samples.leon
  /\ Forall (fun a => LotoVen.findAnimalByNameOrNumber (Types.number a) = Some a
                      /\ RealResults.findAnimalByNumber (Types.number a) = Some a)
            ANIMALS.
Proof.
  split. { unfold ANIMALS, animalMap; simpl. do 5 right. now left. }
  do 6 (split; [vm_compute; reflexivity|]).
  unfold ANIMALS, animalMap. cbn [map snd].
  repeat (constructor; [split; vm_compute; reflexivity|]).
  constructor.
Qed.

End ResolverFacts.

(** ** Frequency analyzer: the sum of the appearances *)

Module FrequencySumFacts.
Import Statistical FrequencySum.

Lemma sum_zero {A} (l : list A) : list_sum (map (fun _ => 0) l) = 0.
Proof. induction l; simpl; auto. Qed.

Lemma sum_plus {A} (f g : A -> nat) (l : list A) :
  list_sum (map (fun a => f a + g a) l) = list_sum (map f l) + list_sum (map g l).
Proof. induction l as [|a l IH]; simpl; [reflexivity|]. rewrite IH. lia. Qed.

Lemma hits_none (x : string) (cat : list Animal) :
  ~ In x (map Types.id cat) -> list_sum (map (hit x) cat) = 0.
Proof.
  induction cat as [|a cat IH]; simpl; [reflexivity|]. intros H.
  unfold hit at 1. destruct (String.eqb_spec x (Types.id a)) as [->|_].
  - exfalso. apply H. now left.
  - apply IH. intros Hin. apply H. now right.
Qed.

Lemma hits_once (x : string) (cat : list Animal) :
  List.NoDup (map Types.id cat) -> In x (map Types.id cat) ->
  list_sum (map (hit x) cat) = 1.
Proof.
  induction cat as [|a cat IH]; simpl; [tauto|]. intros Hnd Hin.
  inversion Hnd as [|? ? Hfresh Hnd']; subst.
  unfold hit at 1. destruct (String.eqb_spec x (Types.id a)) as [->|Hne].
  - now rewrite hits_none.
  - destruct Hin as [Heq|Hin]; [congruence|]. now apply IH.
Qed.

Lemma appearances_cons (cat : list Animal) (r : HistoricalResult.t)
    (results : list HistoricalResult.t) :
  list_sum (map (fun a => length (List.filter (isAnimal a) (r :: results))) cat)
  = list_sum (map (hit (Types.id (HistoricalResult.animal r))) cat)
    + list_sum (map (fun a => length (List.filter (isAnimal a) results)) cat).
Proof.
  rewrite <- sum_plus. f_equal. apply map_ext. intros a.
  unfold hit, isAnimal. cbn [List.filter].
  destruct (String.eqb _ _); reflexivity.
Qed.

Lemma appearances_sum (cat : list Animal) (results : list HistoricalResult.t) :
  List.NoDup (map Types.id cat) ->
  Forall (fun r => In (Types.id (HistoricalResult.animal r)) (map Types.id cat)) results ->
  list_sum (map (fun a => length (List.filter (isAnimal a) results)) cat) = length results.
Proof.
  intros Hnd. induction 1 as [|r results Hr _ IH].
  - apply sum_zero.
  - rewrite appearances_cons, IH, (hits_once _ cat Hnd Hr). reflexivity.
Qed.

(** C7 (as the code has it). For a history all of whose records hold
    catalogue animals, the sum over the catalogue of totalAppearances is the
    length of the history. *)
Theorem appearances_sum_to_length (today : Z) (getTime : string -> Z)
    (results : list HistoricalResult.t) :
  overCatalogue results ->
  totalOfAppearances (calculateFrequencyAnalysis today getTime results)
  = length results.
Proof.
  intros H. unfold totalOfAppearances, calculateFrequencyAnalysis.
  rewrite map_map. cbn [analyzeAnimal FrequencyAnalysis.totalAppearances].
  apply appearances_sum; [apply ResolverFacts.catalogue_ids_unique | exact H].
Qed.

Lemma appearances_sum_to_length_witness :
  overCatalogue (Samples.delivered Samples.sixDays)
  /\ totalOfAppearances
       (calculateFrequencyAnalysis (RealResults.now Samples.clock) Host.utcMidnight
          (Samples.delivered Samples.sixDays))
     = length (Samples.delivered Samples.sixDays).
Proof.
  assert (H : overCatalogue (Samples.delivered Samples.sixDays)).
  { vm_compute. repeat (constructor; [tauto|]). constructor. }
  split; [exact H|].
  exact (appearances_sum_to_length _ _ _ H).
Defined.

(** C7 (as the spec words it) fails: a record whose animal is not in the
    catalogue is counted for no entity. *)
Lemma appearances_sum_misses_unknown_animal :
  totalOfAppearances
    (calculateFrequencyAnalysis 0 Host.utcMidnight
       [Samples.result "2024-01-01" "09:00" Samples.unknownAnimal])
  <> length [Samples.result "2024-01-01" "09:00" Samples.unknownAnimal].
Proof. vm_compute. discriminate. Qed.

End FrequencySumFacts.

(** ** Frequency analyzer: the recent windows and the last appearance *)

Module WindowFacts.
Import Statistical.

(** C1. On the history the store delivers for six daily draws (sorted most
    recent first), the analyzer's window of 5 is made of the five oldest
    records: León, drawn on each of the five most recent days, is counted 4
    times (80%) and not 5 times (100%). *)
Theorem recent_window_takes_oldest_records :
  let history := Samples.delivered Samples.sixDays in
  let analysis :=
    analyzeAnimal (RealResults.now Samples.clock) Host.utcMidnight history Samples.leon in
  In analysis
     (calculateFrequencyAnalysis (RealResults.now Samples.clock) Host.utcMidnight history)
  /\ Samples.sortedDescending history = true
  /\ map HistoricalResult.date history
     = ["2024-01-06"; "2024-01-05"; "2024-01-04"; "2024-01-03"; "2024-01-02"; "2024-01-01"]
  /\ map HistoricalResult.date (JsArray.sliceLast 5 history)
     = ["2024-01-05"; "2024-01-04"; "2024-01-03"; "2024-01-02"; "2024-01-01"]
  /\ FrequencyAnalysis.recentAppearances5 analysis = 4
  /\ FrequencyAnalysis.recentFrequency5 analysis = 80%float
  /\ length (List.filter (isAnimal Samples.leon) (JsArray.sliceFirst 5 history)) = 5.
Proof.
  cbv zeta. split.
  { unfold calculateFrequencyAnalysis. apply in_map.
    unfold ANIMALS, animalMap; simpl. do 5 right. now left. }
  repeat split; vm_compute; reflexivity.
Qed.

(** C2. On the history the store delivers for two draws of León, on
    2024-01-01 and 2024-01-05, analysed on 2024-01-10, the analyzer's
    lastAppearanceDate is "2024-01-01" and its daysSinceLastAppearance is 9:
    those of the oldest matching record, where the most recent one gives
    "2024-01-05" and 5. *)
Theorem last_appearance_takes_oldest_match :
  let history := Samples.delivered Samples.twoLeons in
  let analysis :=
    analyzeAnimal (RealResults.now Samples.clock) Host.utcMidnight history Samples.leon in
  In analysis
     (calculateFrequencyAnalysis (RealResults.now Samples.clock) Host.utcMidnight history)
  /\ Samples.sortedDescending history = true
  /\ map HistoricalResult.date history = ["2024-01-05"; "2024-01-01"]
  /\ FrequencyAnalysis.lastAppearanceDate analysis = Some "2024-01-01"
  /\ FrequencyAnalysis.daysSinceLastAppearance analysis = 9%Z
  /\ ((RealResults.now Samples.clock - Host.utcMidnight "2024-01-05") / MS_PER_DAY = 5)%Z.
Proof.
  cbv zeta. split.
  { unfold calculateFrequencyAnalysis. apply in_map.
    unfold ANIMALS, animalMap; simpl. do 5 right. now left. }
  repeat split; vm_compute; reflexivity.
Qed.

(** What the analyzer computes on any history: each window is the suffix
    of [w] records, and the last appearance is the last matching record. *)
Lemma recent_windows_are_suffixes (today : Z) (getTime : string -> Z)
    (results : list HistoricalResult.t) (a : Animal) :
  let analysis := analyzeAnimal today getTime results a in
  let count w := length (List.filter (isAnimal a) (skipn (length results - w) results)) in
  FrequencyAnalysis.recentAppearances5 analysis = count 5
  /\ FrequencyAnalysis.recentAppearances10 analysis = count 10
  /\ FrequencyAnalysis.recentAppearances20 analysis = count 20.
Proof. repeat split. Qed.

Lemma last_appearance_is_last_match (today : Z) (getTime : string -> Z)
    (results : list HistoricalResult.t) (a : Animal)
    (earlier : list HistoricalResult.t) (r : HistoricalResult.t) :
  List.filter (isAnimal a) results = earlier ++ [r] ->
  let analysis := analyzeAnimal today getTime results a in
  FrequencyAnalysis.lastAppearanceDate analysis = Some (HistoricalResult.date r)
  /\ FrequencyAnalysis.daysSinceLastAppearance analysis
     = ((today - getTime (HistoricalResult.date r)) / MS_PER_DAY)%Z.
Proof.
  intros H. cbn [analyzeAnimal FrequencyAnalysis.daysSinceLastAppearance
                 FrequencyAnalysis.lastAppearanceDate].
  rewrite H. unfold JsArray.lastElem. rewrite rev_unit. split; reflexivity.
Qed.

(** An animal absent from the history gets the sentinel 999 and no date,
    whatever the order of the records. *)
Lemma never_appeared (today : Z) (getTime : string -> Z)
    (results : list HistoricalResult.t) (a : Animal) :
  List.filter (isAnimal a) results = [] ->
  FrequencyAnalysis.daysSinceLastAppearance (analyzeAnimal today getTime results a) = 999%Z
  /\ FrequencyAnalysis.lastAppearanceDate (analyzeAnimal today getTime results a) = None.
Proof.
  intros H. cbn [analyzeAnimal FrequencyAnalysis.daysSinceLastAppearance
                 FrequencyAnalysis.lastAppearanceDate].
  rewrite H. split; reflexivity.
Qed.

End WindowFacts.

(** ** Historical Store: merge, manual entry, bulk load *)

Module StoreFacts.
Import RealResults Store.

Lemma find_existsb {A} (p : A -> bool) (l : list A) :
  find p l = None <-> existsb p l = false.
Proof.
  induction l as [|x l IH]; simpl; [tauto|].
  destruct (p x); simpl; [split; discriminate | exact IH].
Qed.

Lemma find_existsb_some {A} (p : A -> bool) (l : list A) :
  existsb p l = true -> exists x, find p l = Some x.
Proof.
  intros H. destruct (find p l) as [x|] eqn:E; [now exists x|].
  apply find_existsb in E. congruence.
Qed.

Lemma sameDraw_recorded (d h : string) (a : Animal) (entries : list RealHistoryEntry) :
  existsb (sameDraw d h a) entries = true <-> recorded d h a entries.
Proof.
  unfold recorded. rewrite existsb_exists. split; intros [e [He H]]; exists e.
  - unfold sameDraw in H. apply andb_prop in H as [H H3]. apply andb_prop in H as [H1 H2].
    apply String.eqb_eq in H1, H2, H3. auto.
  - destruct H as (H1 & H2 & H3). split; [exact He|].
    unfold sameDraw. rewrite H1, H2, H3, !String.eqb_refl. reflexivity.
Qed.

Lemma sameSlot_occupied (d h : string) (entries : list RealHistoryEntry) :
  existsb (sameSlot d h) entries = true <-> occupied d h entries.
Proof.
  unfold occupied. rewrite existsb_exists. split; intros [e [He H]]; exists e.
  - unfold sameSlot in H. apply andb_prop in H as [H1 H2].
    apply String.eqb_eq in H1, H2. auto.
  - destruct H as (H1 & H2). split; [exact He|].
    unfold sameSlot. rewrite H1, H2, !String.eqb_refl. reflexivity.
Qed.

(** *** One step of the live merge *)

Lemma mergeDraw_known (todayStr : string) (clock : Clock)
    (entries : list RealHistoryEntry) (n : nat) (draw : Types.DrawResult) (a : Animal) :
  Types.animal draw = Some a ->
  existsb (sameDraw todayStr (Types.hour draw) a) entries = true ->
  mergeDraw todayStr clock (entries, n) draw = (entries, n).
Proof.
  intros Ha H. unfold mergeDraw. rewrite Ha.
  destruct (String.eqb _ ""); [reflexivity|].
  destruct (find_existsb_some _ _ H) as [x ->]. reflexivity.
Qed.

Lemma mergeDraw_new (todayStr : string) (clock : Clock)
    (entries : list RealHistoryEntry) (n : nat) (draw : Types.DrawResult) (a : Animal) :
  Types.animal draw = Some a ->
  Types.hour draw <> "" ->
  existsb (sameDraw todayStr (Types.hour draw) a) entries = false ->
  mergeDraw todayStr clock (entries, n) draw
  = (liveEntry todayStr clock (Types.hour draw) a :: entries, S n).
Proof.
  intros Ha Hh H. unfold mergeDraw. rewrite Ha.
  destruct (String.eqb_spec (Types.hour draw) ""); [contradiction|].
  apply find_existsb in H. rewrite H. reflexivity.
Qed.

(** A step leaves the state alone or puts one record in front. *)
Lemma mergeDraw_cases (todayStr : string) (clock : Clock)
    (st : list RealHistoryEntry * nat) (draw : Types.DrawResult) :
  mergeDraw todayStr clock st draw = st
  \/ exists e, mergeDraw todayStr clock st draw = (e :: fst st, S (snd st)).
Proof.
  destruct st as [entries n]. unfold mergeDraw.
  destruct (Types.animal draw) as [a|]; [|now left].
  destruct (String.eqb _ ""); [now left|].
  destruct (find _ entries); [now left|]. right. eexists. reflexivity.
Qed.

Lemma mergeDraw_keeps (p : RealHistoryEntry -> bool) (todayStr : string) (clock : Clock)
    (st : list RealHistoryEntry * nat) (draw : Types.DrawResult) :
  existsb p (fst st) = true ->
  existsb p (fst (mergeDraw todayStr clock st draw)) = true.
Proof.
  intros H. destruct (mergeDraw_cases todayStr clock st draw) as [->|[e ->]];
    [exact H|]. simpl. rewrite H. apply orb_true_r.
Qed.

Lemma mergeDraw_covers (todayStr : string) (clock : Clock)
    (st : list RealHistoryEntry * nat) (draw : Types.DrawResult) (a : Animal) :
  Types.animal draw = Some a ->
  Types.hour draw <> "" ->
  existsb (sameDraw todayStr (Types.hour draw) a)
          (fst (mergeDraw todayStr clock st draw)) = true.
Proof.
  intros Ha Hh. destruct st as [entries n].
  destruct (existsb (sameDraw todayStr (Types.hour draw) a) entries) eqn:E.
  - rewrite (mergeDraw_known _ _ _ _ _ _ Ha E). exact E.
  - rewrite (mergeDraw_new _ _ _ _ _ _ Ha Hh E). simpl.
    unfold sameDraw at 1, liveEntry; simpl. now rewrite !String.eqb_refl.
Qed.

(** *** The whole batch *)

Lemma fold_keeps (p : RealHistoryEntry -> bool) (todayStr : string) (clock : Clock)
    (draws : list Types.DrawResult) (st : list RealHistoryEntry * nat) :
  existsb p (fst st) = true ->
  existsb p (fst (fold_left (mergeDraw todayStr clock) draws st)) = true.
Proof.
  revert st. induction draws as [|d draws IH]; intros st H; cbn [fold_left]; [exact H|].
  apply IH. now apply mergeDraw_keeps.
Qed.

Lemma fold_covers (todayStr : string) (clock : Clock)
    (draws : list Types.DrawResult) (st : list RealHistoryEntry * nat)
    (draw : Types.DrawResult) (a : Animal) :
  In draw draws ->
  Types.animal draw = Some a ->
  Types.hour draw <> "" ->
  existsb (sameDraw todayStr (Types.hour draw) a)
          (fst (fold_left (mergeDraw todayStr clock) draws st)) = true.
Proof.
  revert st. induction draws as [|d draws IH]; intros st Hin Ha Hh; [inversion Hin|].
  cbn [fold_left]. destruct Hin as [->|Hin].
  - apply fold_keeps. now apply mergeDraw_covers.
  - now apply IH.
Qed.

(** A batch whose every draw is already recorded changes nothing. *)
Lemma fold_noop (todayStr : string) (clock : Clock)
    (draws : list Types.DrawResult) (entries : list RealHistoryEntry) (n : nat) :
  (forall draw a, In draw draws -> Types.animal draw = Some a ->
                  Types.hour draw <> "" ->
                  existsb (sameDraw todayStr (Types.hour draw) a) entries = true) ->
  fold_left (mergeDraw todayStr clock) draws (entries, n) = (entries, n).
Proof.
  induction draws as [|d draws IH]; intros H; cbn [fold_left]; [reflexivity|].
  assert (Hd : mergeDraw todayStr clock (entries, n) d = (entries, n)).
  { destruct (Types.animal d) as [a|] eqn:Ha.
    - destruct (String.eqb_spec (Types.hour d) "") as [He|Hne].
      + unfold mergeDraw. rewrite Ha, He. reflexivity.
      + apply (mergeDraw_known _ _ _ _ _ a Ha). apply H; auto. now left.
    - unfold mergeDraw. now rewrite Ha. }
  rewrite Hd. apply IH. intros draw a Hin. apply H. now right.
Qed.

(** The counter moves exactly when a record is inserted. *)
Lemma fold_count (todayStr : string) (clock : Clock)
    (draws : list Types.DrawResult) (st : list RealHistoryEntry * nat) :
  snd st <= snd (fold_left (mergeDraw todayStr clock) draws st)
  /\ (snd (fold_left (mergeDraw todayStr clock) draws st) = snd st ->
      fst (fold_left (mergeDraw todayStr clock) draws st) = fst st).
Proof.
  revert st. induction draws as [|d draws IH]; intros st; cbn [fold_left]; [auto|].
  destruct (IH (mergeDraw todayStr clock st d)) as [Hle Heq].
  destruct (mergeDraw_cases todayStr clock st d) as [E|[e E]]; rewrite E in *.
  - auto.
  - simpl in *. split; [lia|]. intros; lia.
Qed.

Lemma mergeDraws_again (todayStr : string) (clock1 clock2 : Clock)
    (entries : list RealHistoryEntry) (draws : list Types.DrawResult) :
  mergeDraws todayStr clock2 (fst (mergeDraws todayStr clock1 entries draws)) draws
  = (fst (mergeDraws todayStr clock1 entries draws), 0).
Proof.
  unfold mergeDraws at 1. apply fold_noop. intros draw a Hin Ha Hh.
  unfold mergeDraws. now apply fold_covers.
Qed.

Lemma getPersistentHistory_save (ls : gmap string Item) (lotteryId : LotteryId)
    (entries : list RealHistoryEntry) :
  getPersistentHistory (savePersistentHistory ls lotteryId entries) lotteryId = entries.
Proof.
  unfold getPersistentHistory, savePersistentHistory.
  now rewrite lookup_insert_eq.
Qed.

Section Merge.
Variable localeCompare : string -> string -> Z.

(** After [getHistoricalResults] the persisted history is the merged one. *)
Lemma persisted_after_merge (ls : gmap string Item) (lotteryId : LotteryId)
    (clock : Clock) (todayDraws : list Types.DrawResult) (todaySources : list string) :
  getPersistentHistory
    (fst (getHistoricalResults localeCompare ls lotteryId clock todayDraws todaySources))
    lotteryId
  = fst (mergeDraws (venezuelaDate clock) clock (getPersistentHistory ls lotteryId)
           todayDraws).
Proof.
  unfold getHistoricalResults.
  destruct (mergeDraws _ _ _ _) as [merged added] eqn:E. simpl.
  destruct added as [|k]; simpl.
  - pose proof (fold_count (venezuelaDate clock) clock todayDraws
                  (getPersistentHistory ls lotteryId, 0)) as [_ H].
    unfold mergeDraws in E. rewrite E in H. simpl in H. now rewrite H.
  - apply getPersistentHistory_save.
Qed.

Lemma returned_after_merge (ls : gmap string Item) (lotteryId : LotteryId)
    (clock : Clock) (todayDraws : list Types.DrawResult) (todaySources : list string) :
  history (snd (getHistoricalResults localeCompare ls lotteryId clock
                  todayDraws todaySources))
  = JsArray.sort (entryAfter localeCompare)
      (fst (mergeDraws (venezuelaDate clock) clock (getPersistentHistory ls lotteryId)
              todayDraws)).
Proof.
  unfold getHistoricalResults.
  destruct (mergeDraws _ _ _ _) as [merged added]. reflexivity.
Qed.

Lemma totalResults_history (ls : gmap string Item) (lotteryId : LotteryId)
    (clock : Clock) (todayDraws : list Types.DrawResult) (todaySources : list string) :
  totalResults (snd (getHistoricalResults localeCompare ls lotteryId clock
                       todayDraws todaySources))
  = length (history (snd (getHistoricalResults localeCompare ls lotteryId clock
                            todayDraws todaySources))).
Proof.
  unfold getHistoricalResults.
  destruct (mergeDraws _ _ _ _) as [merged added]. reflexivity.
Qed.

Lemma second_merge_saves_nothing (ls : gmap string Item) (lotteryId : LotteryId)
    (clock : Clock) (todayDraws : list Types.DrawResult) (todaySources : list string) :
  snd (mergeDraws (venezuelaDate clock) clock (getPersistentHistory ls lotteryId)
         todayDraws) = 0 ->
  fst (getHistoricalResults localeCompare ls lotteryId clock todayDraws todaySources)
  = ls.
Proof.
  unfold getHistoricalResults.
  destruct (mergeDraws _ _ _ _) as [merged added]. simpl. now intros ->.
Qed.

End Merge.

End StoreFacts.

Module HistoricalStore.
Import RealResults Store StoreFacts.

(** C4. Merging the same batch of draws a second time on the same day adds
    no entry: the counter of new entries is 0, nothing is saved, and the
    persisted and the returned history (hence its length) are what they were
    after the first merge.  In each step, a draw that carries an animal and
    an hour is skipped exactly when a stored record matches it on (date,
    hour, entity id), and is otherwise inserted in front. *)
Theorem merge_twice_adds_nothing (localeCompare : string -> string -> Z)
    (ls : gmap string Item) (lotteryId : LotteryId) (clock1 clock2 : Clock)
    (todayDraws : list Types.DrawResult) (sources1 sources2 : list string) :
  venezuelaDate clock2 = venezuelaDate clock1 ->
  let first :=
    getHistoricalResults localeCompare ls lotteryId clock1 todayDraws sources1 in
  let second :=
    getHistoricalResults localeCompare (fst first) lotteryId clock2 todayDraws sources2 in
  snd (mergeDraws (venezuelaDate clock2) clock2
         (getPersistentHistory (fst first) lotteryId) todayDraws) = 0
  /\ fst second = fst first
  /\ getPersistentHistory (fst second) lotteryId
     = getPersistentHistory (fst first) lotteryId
  /\ history (snd second) = history (snd first)
  /\ totalResults (snd second) = totalResults (snd first)
  /\ (forall (entries : list RealHistoryEntry) (n : nat) (draw : Types.DrawResult)
             (a : Animal) (todayStr : string) (clock : Clock),
        Types.animal draw = Some a ->
        Types.hour draw <> "" ->
        (mergeDraw todayStr clock (entries, n) draw = (entries, n)
         <-> recorded todayStr (Types.hour draw) a entries)
        /\ (~ recorded todayStr (Types.hour draw) a entries ->
            mergeDraw todayStr clock (entries, n) draw
            = (liveEntry todayStr clock (Types.hour draw) a :: entries, S n))).
Proof.
  intros Hday first second.
  assert (Hagain :
    mergeDraws (venezuelaDate clock2) clock2
      (getPersistentHistory (fst first) lotteryId) todayDraws
    = (getPersistentHistory (fst first) lotteryId, 0)).
  { subst first. rewrite persisted_after_merge, Hday. apply mergeDraws_again. }
  assert (Hsame : fst second = fst first).
  { subst second. apply second_merge_saves_nothing. now rewrite Hagain. }
  assert (Hhist : history (snd second) = history (snd first)).
  { subst second. rewrite returned_after_merge, Hagain. cbn [fst].
    subst first. now rewrite persisted_after_merge, returned_after_merge. }
  split; [now rewrite Hagain|].
  split; [exact Hsame|].
  split; [now rewrite Hsame|].
  split; [exact Hhist|].
  split.
  { subst second. rewrite totalResults_history, Hhist.
    subst first. now rewrite totalResults_history. }
  intros entries n draw a todayStr clock Ha Hh.
  destruct (existsb (sameDraw todayStr (Types.hour draw) a) entries) eqn:E.
  - pose proof (proj1 (sameDraw_recorded _ _ _ _) E) as Hrec.
    split; [|tauto]. split; [intros _; exact Hrec|intros _].
    now apply mergeDraw_known with (a := a).
  - assert (Hnot : ~ recorded todayStr (Types.hour draw) a entries).
    { intros Hrec. apply sameDraw_recorded in Hrec. congruence. }
    rewrite (mergeDraw_new _ _ _ _ _ _ Ha Hh E).
    split; [|reflexivity]. split; [|tauto].
    intros Heq. apply (f_equal snd) in Heq. simpl in Heq. lia.
Qed.

Lemma merge_twice_adds_nothing_witness :
  let ls := Samples.store Samples.twoLeons in
  let todayDraws := [Samples.draw "09:00" Samples.rana; Samples.draw "10:00" Samples.leon;
                     Samples.draw "09:00" Samples.rana] in
  let first :=
    getHistoricalResults Host.codeUnitCompare ls Types.GUACHARO Samples.clock
      todayDraws ["LotoVen (2 results)"] in
  let second :=
    getHistoricalResults Host.codeUnitCompare (fst first) Types.GUACHARO Samples.clock
      todayDraws ["LotoVen (2 results) (cached)"] in
  length (getPersistentHistory (fst first) Types.GUACHARO) = 4
  /\ fst second = fst first
  /\ history (snd second) = history (snd first).
Proof.
  cbv zeta.
  pose proof (merge_twice_adds_nothing Host.codeUnitCompare
                (Samples.store Samples.twoLeons) Types.GUACHARO
                Samples.clock Samples.clock
                [Samples.draw "09:00" Samples.rana; Samples.draw "10:00" Samples.leon;
                 Samples.draw "09:00" Samples.rana]
                ["LotoVen (2 results)"] ["LotoVen (2 results) (cached)"]
                eq_refl) as H.
  cbv zeta in H. destruct H as (_ & H2 & _ & H4 & _).
  split; [vm_compute; reflexivity|]. split; [exact H2 | exact H4].
Defined.

(** C4, as first stated.  The draws of a batch carry no date: the merge
    dates them by the clock.  The same batch merged again after midnight in
    Venezuela is therefore inserted again, under the new date: the counter
    of new entries is 2, not 0, and the history grows from 4 to 6
    records. *)
Lemma merge_again_after_midnight_adds_again :
  let ls := Samples.store Samples.twoLeons in
  let first :=
    getHistoricalResults Host.codeUnitCompare ls Types.GUACHARO Samples.clock
      Midnight.batch ["LotoVen (2 results)"] in
  let second :=
    getHistoricalResults Host.codeUnitCompare (fst first) Types.GUACHARO
      Midnight.afterMidnight Midnight.batch ["LotoVen (2 results)"] in
  length (getPersistentHistory (fst first) Types.GUACHARO) = 4
  /\ snd (mergeDraws (venezuelaDate Midnight.afterMidnight) Midnight.afterMidnight
            (getPersistentHistory (fst first) Types.GUACHARO) Midnight.batch) = 2
  /\ length (getPersistentHistory (fst second) Types.GUACHARO) = 6
  /\ totalResults (snd second) = 6
  /\ fst second <> fst first.
Proof.
  cbv zeta. repeat split; try (vm_compute; reflexivity).
  intros H.
  apply (f_equal (fun st => length (getPersistentHistory st Types.GUACHARO))) in H.
  vm_compute in H. discriminate.
Qed.

(** C5. [addManualResult] returns true exactly when no stored record of the
    lottery has the same (date, hour), whatever animal such a record holds;
    then the new record is put in front of the persisted history.  When the
    slot is taken it returns false and the storage is left as it was. *)
Theorem manual_entry_is_exclusive_per_slot (ls : gmap string Item)
    (lotteryId : LotteryId) (d h : string) (a : Animal) (clock : Clock) :
  let stored := getPersistentHistory ls lotteryId in
  let outcome := addManualResult ls lotteryId d h a clock in
  (snd outcome = true <-> ~ occupied d h stored)
  /\ (snd outcome = true ->
      getPersistentHistory (fst outcome) lotteryId = manualEntry d h a clock :: stored)
  /\ (occupied d h stored -> snd outcome = false /\ fst outcome = ls).
Proof.
  cbv zeta. unfold addManualResult.
  destruct (existsb (sameSlot d h) (getPersistentHistory ls lotteryId)) eqn:E.
  - pose proof (proj1 (sameSlot_occupied _ _ _) E) as Hocc.
    destruct (find_existsb_some _ _ E) as [x ->]. simpl.
    split; [split; [discriminate | tauto]|]. split; [discriminate | auto].
  - assert (Hfree : ~ occupied d h (getPersistentHistory ls lotteryId)).
    { intros Hocc. apply sameSlot_occupied in Hocc. congruence. }
    apply find_existsb in E. rewrite E. simpl.
    split; [tauto|]. split; [|tauto].
    intros _. apply getPersistentHistory_save.
Qed.

Lemma animalMap_keys_are_ids :
  Forall (fun kv : string * Animal => Types.id (snd kv) = fst kv) animalMap.
Proof. unfold animalMap. repeat constructor. Qed.

Lemma sameItem_sameDraw (item : LoteriaDehoy.AppItem) (a : Animal)
    (entries : list RealHistoryEntry) :
  numbersAreIds entries ->
  Types.id a = LoteriaDehoy.animalNumber item ->
  existsb (sameItem item) entries
  = existsb (sameDraw (LoteriaDehoy.date item) (LoteriaDehoy.time item) a) entries.
Proof.
  intros Hnum Ha.
  induction Hnum as [|e entries He _ IH]; simpl; [reflexivity|].
  rewrite IH. f_equal. unfold sameItem, sameDraw. now rewrite He, Ha.
Qed.

(** One turn of the bulk loop against one step of the live merge, for a
    candidate of the requested lottery and an entity [a] with the
    candidate's number as its id. *)
Lemma loadItem_like_mergeDraw (lotteryId : LotteryId) (st : LoadCount)
    (item : LoteriaDehoy.AppItem) (a : Animal) (clock : Clock) (n : nat) :
  numbersAreIds (existingHistory st) ->
  LoteriaDehoy.lotteryType item = requestedType lotteryId ->
  Types.id a = LoteriaDehoy.animalNumber item ->
  let bulk := loadItem lotteryId st item in
  (duplicates bulk = S (duplicates st)
   <-> recorded (LoteriaDehoy.date item) (LoteriaDehoy.time item) a (existingHistory st))
  /\ (duplicates bulk = S (duplicates st) ->
      existingHistory bulk = existingHistory st /\ loaded bulk = loaded st
      /\ errors bulk = errors st)
  /\ (LoteriaDehoy.time item <> "" ->
      (duplicates bulk = S (duplicates st)
       <-> mergeDraw (LoteriaDehoy.date item) clock (existingHistory st, n)
                     (asDraw item a)
           = (existingHistory st, n))).
Proof.
  intros Hnum Htype Ha. cbv zeta.
  pose proof (sameItem_sameDraw item a _ Hnum Ha) as Hkey.
  unfold loadItem. rewrite Htype, String.eqb_refl. cbn [negb].
  destruct (existsb (sameDraw (LoteriaDehoy.date item) (LoteriaDehoy.time item) a)
                    (existingHistory st)) eqn:E.
  - destruct (find_existsb_some _ _ Hkey) as [x ->].
    cbn [duplicates existingHistory loaded errors].
    pose proof (proj1 (sameDraw_recorded _ _ _ _) E) as Hrec.
    split; [tauto|]. split; [auto|]. intros _.
    split; [intros _|reflexivity]. now apply mergeDraw_known with (a := a).
  - assert (Hnot : ~ recorded (LoteriaDehoy.date item) (LoteriaDehoy.time item) a
                             (existingHistory st)).
    { intros Hrec. apply sameDraw_recorded in Hrec. congruence. }
    rewrite (proj2 (find_existsb _ _) Hkey).
    assert (Hd : duplicates
                   match findAnimalByNumber (LoteriaDehoy.animalNumber item) with
                   | Some a0 =>
                     {| existingHistory :=
                          existingHistory st ++
                          [{| date := LoteriaDehoy.date item;
                              hour := LoteriaDehoy.time item;
                              animal := a0; animalData := a0;
                              number := LoteriaDehoy.animalNumber item;
                              source := FromLoteriaDehoy;
                              timestamp := LoteriaDehoy.timestamp item |}];
                        loaded := S (loaded st);
                        duplicates := duplicates st;
                        errors := errors st |}
                   | None =>
                     {| existingHistory := existingHistory st; loaded := loaded st;
                        duplicates := duplicates st; errors := S (errors st) |}
                   end = duplicates st).
    { now destruct (findAnimalByNumber (LoteriaDehoy.animalNumber item)). }
    rewrite Hd.
    split; [split; [intros H; lia | tauto]|].
    split; [intros H; lia|]. intros Htime.
    rewrite (mergeDraw_new _ _ _ _ (asDraw item a) a eq_refl Htime E).
    split; [intros H; lia|]. intros H. apply (f_equal snd) in H. simpl in H. lia.
Qed.

End HistoricalStore.

(** ** HTML extractor: one draw per hour, ascending *)

Module ExtractorFacts.
Import LotoVen Extractor.

Lemma findIndex_from_app {A} (p : A -> bool) (i : nat) (pre rest : list A) :
  existsb p pre = false ->
  findIndex_from p i (pre ++ rest) = findIndex_from p (i + length pre) rest.
Proof.
  revert i. induction pre as [|x pre IH]; intros i H; simpl.
  - now rewrite Nat.add_0_r.
  - simpl in H. apply orb_false_elim in H as [Hx Hpre]. rewrite Hx.
    rewrite IH by assumption. f_equal. lia.
Qed.

Lemma findIndex_from_bound {A} (p : A -> bool) (i : nat) (pre rest : list A) :
  existsb p pre = true ->
  exists k, findIndex_from p i (pre ++ rest) = Some k /\ k < i + length pre.
Proof.
  revert i. induction pre as [|x pre IH]; intros i H; simpl in *; [discriminate|].
  destruct (p x).
  - exists i. split; [reflexivity | lia].
  - destruct (IH (S i) H) as [k [Hk Hlt]]. exists k. split; [exact Hk | lia].
Qed.

Lemma findIndex_here {A} (p : A -> bool) (pre : list A) (x : A) (post : list A) :
  p x = true ->
  bool_decide (findIndex p (pre ++ x :: post) = Some (length pre))
  = negb (existsb p pre).
Proof.
  intros Hx. unfold findIndex. destruct (existsb p pre) eqn:E; simpl.
  - destruct (findIndex_from_bound p 0 pre (x :: post) E) as [k [Hk Hlt]].
    rewrite Hk. apply bool_decide_eq_false. intros [= ->]. lia.
  - rewrite findIndex_from_app by assumption. simpl. rewrite Hx.
    now apply bool_decide_eq_true.
Qed.

Lemma filteri_keepFresh (self pre suf : list Draw) :
  self = pre ++ suf ->
  filteri_from
    (fun draw index =>
       bool_decide (findIndex (fun d => String.eqb (hour d) (hour draw)) self
                    = Some index))
    (length pre) suf
  = keepFresh pre suf.
Proof.
  revert pre. induction suf as [|x suf IH]; intros pre Hself; simpl; [reflexivity|].
  assert (Hnext : self = (pre ++ [x]) ++ suf) by now rewrite <- app_assoc.
  specialize (IH (pre ++ [x]) Hnext).
  rewrite length_app, Nat.add_1_r in IH. rewrite IH.
  rewrite Hself.
  rewrite (findIndex_here (fun d => String.eqb (hour d) (hour x)) pre x suf)
    by apply String.eqb_refl.
  fold (sameHour (hour x)). now destruct (existsb (sameHour (hour x)) pre).
Qed.

Lemma firstPerHour_keepFresh (self : list Draw) :
  firstPerHour self = keepFresh [] self.
Proof. unfold firstPerHour. now apply (filteri_keepFresh self []). Qed.

Lemma existsb_snoc (h : string) (seen : list Draw) (x : Draw) :
  existsb (sameHour h) (seen ++ [x]) = existsb (sameHour h) seen || sameHour h x.
Proof. rewrite existsb_app. simpl. now rewrite orb_false_r. Qed.

Lemma keepFresh_In (seen l : list Draw) (d : Draw) :
  In d (keepFresh seen l)
  <-> existsb (sameHour (hour d)) seen = false /\ find (sameHour (hour d)) l = Some d.
Proof.
  revert seen. induction l as [|x l IH]; intros seen; simpl.
  - split; [tauto | intros [_ H]; discriminate].
  - unfold sameHour at 3. destruct (String.eqb_spec (hour x) (hour d)) as [Hh|Hh].
    + rewrite Hh. destruct (existsb (sameHour (hour d)) seen) eqn:E.
      * rewrite IH, existsb_snoc, E. simpl. split; intros [H _]; discriminate.
      * simpl. rewrite IH, existsb_snoc, E. unfold sameHour at 1.
        rewrite Hh, String.eqb_refl. simpl. split.
        -- intros [->|[H _]]; [auto | discriminate].
        -- intros [_ [= ->]]. now left.
    + assert (Hx : sameHour (hour d) x = false).
      { unfold sameHour. now apply String.eqb_neq. }
      destruct (existsb (sameHour (hour x)) seen); simpl;
        rewrite IH, existsb_snoc, Hx, orb_false_r; [tauto|].
      split; [intros [->|H]; [congruence | exact H] | now right].
Qed.

Lemma keepFresh_NoDup (seen l : list Draw) :
  List.NoDup (map hour (keepFresh seen l)).
Proof.
  revert seen. induction l as [|x l IH]; intros seen; simpl; [constructor|].
  destruct (existsb (sameHour (hour x)) seen); [apply IH|].
  simpl. constructor; [|apply IH].
  intros Hin. apply in_map_iff in Hin as [d [Hd Hin]].
  apply keepFresh_In in Hin as [Hseen _].
  rewrite existsb_snoc in Hseen. apply orb_false_elim in Hseen as [_ Hx].
  unfold sameHour in Hx. apply String.eqb_neq in Hx. congruence.
Qed.

(** C10. Whatever the page yields, the draws returned by [parseHTML] hold
    no hour twice: a draw is returned exactly when it is the first collected
    draw with its hour (a second animal at the same hour is dropped); and
    they are in ascending order of their hour strings, each before all the
    later ones in the order of the host's [localeCompare] (a consistent
    comparator: it does not put both [a] after [b] and [b] after [a], and its
    "not after" is transitive). *)
Theorem parsed_draws_one_per_hour_ascending
    (localeCompare : string -> string -> Z)
    (matches : list RawMatch) (broadResults : list Draw) :
  (forall a b : string, (0 < localeCompare a b -> localeCompare b a <= 0)%Z) ->
  (forall a b c : string,
      (localeCompare a b <= 0 -> localeCompare b c <= 0 -> localeCompare a c <= 0)%Z) ->
  let draws := fst (parseHTML localeCompare matches broadResults) in
  List.NoDup (map hour draws)
  /\ (forall d, In d draws <-> firstAtItsHour (collectDraws matches broadResults) d)
  /\ ascendingByHour localeCompare draws.
Proof.
  intros Hanti Htrans. cbv zeta. unfold parseHTML. cbn [fst].
  set (collected := collectDraws matches broadResults).
  pose proof (JsArrayFacts.sort_perm (hourAfter localeCompare) (firstPerHour collected))
    as Hperm.
  split; [|split].
  - apply (Permutation_NoDup (Permutation_sym (Permutation_map hour Hperm))).
    rewrite firstPerHour_keepFresh. apply keepFresh_NoDup.
  - intros d. unfold firstAtItsHour. split.
    + intros Hin. apply (Permutation_in _ Hperm) in Hin.
      rewrite firstPerHour_keepFresh in Hin. now apply keepFresh_In in Hin as [_ H].
    + intros Hfind. apply (Permutation_in _ (Permutation_sym Hperm)).
      rewrite firstPerHour_keepFresh. apply keepFresh_In. split; [reflexivity|exact Hfind].
  - apply Sorted_StronglySorted.
    + intros a b c Hab Hbc. exact (Htrans _ _ _ Hab Hbc).
    + apply JsArrayFacts.sort_sorted.
      * intros a b H. unfold hourAfter in H. apply Z.ltb_ge in H. exact H.
      * intros a b H. unfold hourAfter in H. apply Z.ltb_lt in H. now apply Hanti.
Qed.

Lemma codeUnitCompare_antisym (a b : string) :
  (0 < Host.codeUnitCompare a b -> Host.codeUnitCompare b a <= 0)%Z.
Proof.
  unfold Host.codeUnitCompare. rewrite (String.compare_antisym a b).
  destruct (String.compare b a); simpl; lia.
Qed.

Lemma compare_not_Gt_trans (s t u : string) :
  String.compare s t <> Gt -> String.compare t u <> Gt -> String.compare s u <> Gt.
Proof.
  revert t u. induction s as [|a s IH]; intros [|b t] [|c u]; simpl;
    try congruence.
  unfold Ascii.compare.
  destruct (N.compare_spec (N_of_ascii a) (N_of_ascii b)),
           (N.compare_spec (N_of_ascii b) (N_of_ascii c)),
           (N.compare_spec (N_of_ascii a) (N_of_ascii c));
    try congruence; try lia.
  apply IH.
Qed.

Lemma codeUnitCompare_trans (a b c : string) :
  (Host.codeUnitCompare a b <= 0 -> Host.codeUnitCompare b c <= 0 ->
   Host.codeUnitCompare a c <= 0)%Z.
Proof.
  unfold Host.codeUnitCompare. intros Hab Hbc.
  pose proof (compare_not_Gt_trans a b c) as H.
  destruct (String.compare a b), (String.compare b c), (String.compare a c);
    try lia; exfalso; apply H; congruence.
Qed.

Lemma parsed_draws_one_per_hour_ascending_witness :
  (forall a b : string,
      (0 < Host.codeUnitCompare a b -> Host.codeUnitCompare b a <= 0)%Z)
  /\ (forall a b c : string,
        (Host.codeUnitCompare a b <= 0 -> Host.codeUnitCompare b c <= 0 ->
         Host.codeUnitCompare a c <= 0)%Z)
  /\ map (fun d => (hour d, Types.name (animal d)))
         (fst (parseHTML Host.codeUnitCompare samplePage []))
     = [("08:30", "León"); ("09:00", "León")]
  /\ List.NoDup (map hour (fst (parseHTML Host.codeUnitCompare samplePage [])))
  /\ ascendingByHour Host.codeUnitCompare
       (fst (parseHTML Host.codeUnitCompare samplePage [])).
Proof.
  split; [exact codeUnitCompare_antisym|].
  split; [exact codeUnitCompare_trans|].
  split; [vm_compute; reflexivity|].
  pose proof (parsed_draws_one_per_hour_ascending Host.codeUnitCompare samplePage []
                codeUnitCompare_antisym codeUnitCompare_trans) as H.
  cbv zeta in H. destruct H as (H1 & _ & H3). split; [exact H1 | exact H3].
Defined.

End ExtractorFacts.

(** * Further properties of the modelled code *)

(** ** Historical Store: what a merge keeps, adds and never does *)

Module MergeInvariants.
Import RealResults Store StoreFacts StoreKeys.

Lemma mergeDraw_shape (todayStr : string) (clock : Clock)
    (st : list RealHistoryEntry * nat) (draw : Types.DrawResult) :
  mergeDraw todayStr clock st draw = st
  \/ exists a,
       Types.animal draw = Some a /\ Types.hour draw <> ""
       /\ existsb (sameDraw todayStr (Types.hour draw) a) (fst st) = false
       /\ mergeDraw todayStr clock st draw
          = (liveEntry todayStr clock (Types.hour draw) a :: fst st, S (snd st)).
Proof.
  destruct st as [entries n]. unfold mergeDraw.
  destruct (Types.animal draw) as [a|]; [|now left].
  destruct (String.eqb_spec (Types.hour draw) ""); [now left|].
  destruct (find _ entries) eqn:E; [now left|].
  right. exists a. repeat split; auto. now apply find_existsb.
Qed.

Lemma fold_appends (clock : Clock) (draws : list Types.DrawResult)
    (st : list RealHistoryEntry * nat) :
  exists added,
    fst (fold_left (mergeDraw (venezuelaDate clock) clock) draws st) = added ++ fst st
    /\ snd (fold_left (mergeDraw (venezuelaDate clock) clock) draws st)
       = snd st + length added
    /\ length added <= length draws
    /\ Forall (fromBatch clock draws) added.
Proof.
  revert st. induction draws as [|d draws IH]; intros st; cbn [fold_left].
  - exists []. repeat split; auto; simpl; lia.
  - destruct (IH (mergeDraw (venezuelaDate clock) clock st d))
      as (added & Hf & Hs & Hl & Hall).
    assert (Hall' : Forall (fromBatch clock (d :: draws)) added).
    { eapply List.Forall_impl; [|exact Hall].
      intros e (draw & a & Hin & H). exists draw, a. split; [now right | exact H]. }
    destruct (mergeDraw_shape (venezuelaDate clock) clock st d)
      as [E|(a & Ha & Hh & _ & E)]; rewrite E in *.
    + exists added. repeat split; auto; simpl; lia.
    + exists (added ++ [liveEntry (venezuelaDate clock) clock (Types.hour d) a]).
      cbn [fst snd] in *. rewrite <- app_assoc, length_app. simpl.
      repeat split; [exact Hf | lia | lia |].
      apply Forall_app. split; [exact Hall'|]. constructor; [|constructor].
      exists d, a. repeat split; auto. now left.
Qed.

Lemma merge_prepends (localeCompare : string -> string -> Z)
    (ls : gmap string Item) (lotteryId : LotteryId) (clock : Clock)
    (todayDraws : list Types.DrawResult) (todaySources : list string) :
  exists added,
    getPersistentHistory
      (fst (getHistoricalResults localeCompare ls lotteryId clock todayDraws todaySources))
      lotteryId
    = added ++ getPersistentHistory ls lotteryId.
Proof.
  rewrite persisted_after_merge. unfold mergeDraws.
  destruct (fold_appends clock todayDraws (getPersistentHistory ls lotteryId, 0))
    as (added & Hf & _).
  exists added. cbn [fst snd] in *. exact Hf.
Qed.

(** X1. A merge is append-only: the persisted history afterwards is the one
    before with new records in front of it; there are as many new records
    as the counter of new entries says, at most one per draw of the batch,
    and each is built from a draw of the batch that carries an animal and an
    hour (dated today, tagged LotoVen). *)
Theorem merge_is_append_only (localeCompare : string -> string -> Z)
    (ls : gmap string Item) (lotteryId : LotteryId) (clock : Clock)
    (todayDraws : list Types.DrawResult) (todaySources : list string) :
  exists added,
    getPersistentHistory
      (fst (getHistoricalResults localeCompare ls lotteryId clock todayDraws todaySources))
      lotteryId
    = added ++ getPersistentHistory ls lotteryId
    /\ length added
       = snd (mergeDraws (venezuelaDate clock) clock
                (getPersistentHistory ls lotteryId) todayDraws)
    /\ length added <= length todayDraws
    /\ Forall (fromBatch clock todayDraws) added
    /\ Forall (fun e => date e = venezuelaDate clock /\ source e = FromLotoVen) added.
Proof.
  rewrite persisted_after_merge. unfold mergeDraws.
  destruct (fold_appends clock todayDraws (getPersistentHistory ls lotteryId, 0))
    as (added & Hf & Hs & Hl & Hall).
  exists added. cbn [fst snd] in *. repeat split; auto.
  eapply List.Forall_impl; [|exact Hall].
  intros e (draw & a & _ & _ & _ & ->). split; reflexivity.
Qed.

Lemma not_recorded_fresh_key (d h : string) (a : Animal)
    (entries : list RealHistoryEntry) :
  existsb (sameDraw d h a) entries = false ->
  ~ In (d, h, Types.id a) (map entryKey entries).
Proof.
  intros H Hin. apply in_map_iff in Hin as (e & Hk & He).
  assert (existsb (sameDraw d h a) entries = true); [|congruence].
  apply sameDraw_recorded. exists e. unfold entryKey in Hk.
  injection Hk as H1 H2 H3. auto.
Qed.

Lemma fold_keeps_keys_unique (todayStr : string) (clock : Clock)
    (draws : list Types.DrawResult) (st : list RealHistoryEntry * nat) :
  List.NoDup (map entryKey (fst st)) ->
  List.NoDup (map entryKey (fst (fold_left (mergeDraw todayStr clock) draws st))).
Proof.
  revert st. induction draws as [|d draws IH]; intros st H; cbn [fold_left]; [exact H|].
  apply IH.
  destruct (mergeDraw_shape todayStr clock st d) as [->|(a & _ & _ & Hnew & ->)];
    [exact H|].
  cbn [fst map]. constructor; [|exact H].
  now apply not_recorded_fresh_key.
Qed.

(** X2. A merge keeps the keys of the history unique: if no two stored
    records share (date, hour, entity id), no two do afterwards, in the
    persisted history and in the returned one. *)
Theorem merge_keeps_keys_unique (localeCompare : string -> string -> Z)
    (ls : gmap string Item) (lotteryId : LotteryId) (clock : Clock)
    (todayDraws : list Types.DrawResult) (todaySources : list string) :
  List.NoDup (map entryKey (getPersistentHistory ls lotteryId)) ->
  let outcome :=
    getHistoricalResults localeCompare ls lotteryId clock todayDraws todaySources in
  List.NoDup (map entryKey (getPersistentHistory (fst outcome) lotteryId))
  /\ List.NoDup (map entryKey (history (snd outcome))).
Proof.
  intros H. cbv zeta.
  assert (Hp : List.NoDup (map entryKey
                 (fst (mergeDraws (venezuelaDate clock) clock
                         (getPersistentHistory ls lotteryId) todayDraws)))).
  { unfold mergeDraws. now apply fold_keeps_keys_unique. }
  split.
  - now rewrite persisted_after_merge.
  - rewrite returned_after_merge.
    eapply Permutation_NoDup; [|exact Hp].
    apply Permutation_map, Permutation_sym, JsArrayFacts.sort_perm.
Qed.

Lemma merge_keeps_keys_unique_witness :
  let outcome :=
    getHistoricalResults Host.codeUnitCompare (Samples.store Samples.twoLeons)
      Types.GUACHARO Samples.clock
      [Samples.draw "09:00" Samples.rana; Samples.draw "09:00" Samples.leon;
       Samples.draw "09:00" Samples.rana]
      ["LotoVen (2 results)"] in
  length (history (snd outcome)) = 4
  /\ List.NoDup (map entryKey (history (snd outcome))).
Proof.
  cbv zeta. split; [vm_compute; reflexivity|].
  refine (proj2 (merge_keeps_keys_unique Host.codeUnitCompare
                   (Samples.store Samples.twoLeons) Types.GUACHARO Samples.clock
                   [Samples.draw "09:00" Samples.rana; Samples.draw "09:00" Samples.leon;
                    Samples.draw "09:00" Samples.rana]
                   ["LotoVen (2 results)"] _)).
  apply NoDup_ListNoDup, (bool_decide_unpack _). vm_compute. exact I.
Defined.

Lemma recorded_app (d h : string) (a : Animal) (added old : list RealHistoryEntry) :
  recorded d h a old -> recorded d h a (added ++ old).
Proof.
  intros (e & He & H). exists e. split; [|exact H]. apply in_or_app. now right.
Qed.

(** X3. A merge loses nothing and records the whole batch: every (date,
    hour, entity) recorded before is recorded afterwards, and every draw of
    the batch that carries an animal and an hour is recorded under today's
    date.  So two different animals drawn at the same hour both end up in
    the history: the automatic merge does not treat the slot as taken. *)
Theorem merge_records_every_draw (localeCompare : string -> string -> Z)
    (ls : gmap string Item) (lotteryId : LotteryId) (clock : Clock)
    (todayDraws : list Types.DrawResult) (todaySources : list string) :
  let after :=
    getPersistentHistory
      (fst (getHistoricalResults localeCompare ls lotteryId clock todayDraws todaySources))
      lotteryId in
  (forall d h a, recorded d h a (getPersistentHistory ls lotteryId) ->
                 recorded d h a after)
  /\ (forall draw a, In draw todayDraws -> Types.animal draw = Some a ->
                     Types.hour draw <> "" ->
                     recorded (venezuelaDate clock) (Types.hour draw) a after)
  /\ (forall draw1 draw2 a b,
        In draw1 todayDraws -> In draw2 todayDraws ->
        Types.animal draw1 = Some a -> Types.animal draw2 = Some b ->
        Types.hour draw1 <> "" -> Types.hour draw2 = Types.hour draw1 ->
        recorded (venezuelaDate clock) (Types.hour draw1) a after
        /\ recorded (venezuelaDate clock) (Types.hour draw1) b after).
Proof.
  cbv zeta.
  assert (Hcov : forall draw a, In draw todayDraws -> Types.animal draw = Some a ->
                   Types.hour draw <> "" ->
                   recorded (venezuelaDate clock) (Types.hour draw) a
                     (getPersistentHistory
                        (fst (getHistoricalResults localeCompare ls lotteryId clock
                                todayDraws todaySources)) lotteryId)).
  { intros draw a Hin Ha Hh. rewrite persisted_after_merge.
    apply sameDraw_recorded. unfold mergeDraws. now apply fold_covers. }
  split; [|split; [exact Hcov|]].
  - intros d h a Hrec.
    destruct (merge_prepends localeCompare ls lotteryId clock todayDraws
                todaySources) as (added & ->).
    now apply recorded_app.
  - intros draw1 draw2 a b H1 H2 Ha Hb Hh Heq. split; [now apply Hcov|].
    rewrite <- Heq. apply Hcov; auto. now rewrite Heq.
Qed.

End MergeInvariants.

(** ** Historical Store: order of the answer, isolation of the lotteries *)

Module StoreOrderFacts.
Import RealResults Store StoreFacts StoreKeys StoreOrder.

Lemma compareEntries_antisym (localeCompare : string -> string -> Z)
    (a b : RealHistoryEntry) :
  consistent localeCompare ->
  (0 < compareEntries localeCompare a b -> compareEntries localeCompare b a <= 0)%Z.
Proof.
  intros [A _]. unfold compareEntries.
  pose proof (A (date a) (date b)). pose proof (A (date b) (date a)).
  pose proof (A (hour a) (hour b)). pose proof (A (hour b) (hour a)).
  destruct (Z.eqb_spec (localeCompare (date b) (date a)) 0),
           (Z.eqb_spec (localeCompare (date a) (date b)) 0); lia.
Qed.

Lemma compareEntries_trans (localeCompare : string -> string -> Z)
    (a b c : RealHistoryEntry) :
  consistent localeCompare ->
  (compareEntries localeCompare a b <= 0 -> compareEntries localeCompare b c <= 0 ->
   compareEntries localeCompare a c <= 0)%Z.
Proof.
  intros [A T]. unfold compareEntries.
  pose proof (A (date a) (date b)). pose proof (A (date b) (date a)).
  pose proof (A (date a) (date c)). pose proof (A (date c) (date a)).
  pose proof (A (date b) (date c)). pose proof (A (date c) (date b)).
  pose proof (T (date c) (date b) (date a)).
  pose proof (T (date a) (date c) (date b)).
  pose proof (T (date b) (date a) (date c)).
  pose proof (T (hour c) (hour b) (hour a)).
  destruct (Z.eqb_spec (localeCompare (date b) (date a)) 0),
           (Z.eqb_spec (localeCompare (date c) (date b)) 0),
           (Z.eqb_spec (localeCompare (date c) (date a)) 0); lia.
Qed.

Lemma sort_mostRecentFirst (localeCompare : string -> string -> Z)
    (entries : list RealHistoryEntry) :
  consistent localeCompare ->
  mostRecentFirst localeCompare (JsArray.sort (entryAfter localeCompare) entries).
Proof.
  intros Hc. apply Sorted_StronglySorted.
  - intros a b c. now apply compareEntries_trans.
  - apply JsArrayFacts.sort_sorted.
    + intros a b H. unfold entryAfter in H. now apply Z.ltb_ge in H.
    + intros a b H. unfold entryAfter in H. apply Z.ltb_lt in H.
      now apply compareEntries_antisym.
Qed.

Lemma codeUnitCompare_consistent : consistent Host.codeUnitCompare.
Proof.
  split.
  - intros a b. unfold Host.codeUnitCompare. rewrite (String.compare_antisym a b).
    destruct (String.compare b a); simpl; lia.
  - apply ExtractorFacts.codeUnitCompare_trans.
Qed.

(** X4. With a consistent collation, the history that [getHistoricalResults]
    returns holds exactly the persisted records, most recent first by (date,
    hour), and totalResults is its length. *)
Theorem returned_history_most_recent_first (localeCompare : string -> string -> Z)
    (ls : gmap string Item) (lotteryId : LotteryId) (clock : Clock)
    (todayDraws : list Types.DrawResult) (todaySources : list string) :
  consistent localeCompare ->
  let outcome :=
    getHistoricalResults localeCompare ls lotteryId clock todayDraws todaySources in
  Permutation (history (snd outcome)) (getPersistentHistory (fst outcome) lotteryId)
  /\ mostRecentFirst localeCompare (history (snd outcome))
  /\ totalResults (snd outcome) = length (getPersistentHistory (fst outcome) lotteryId)
  /\ success (snd outcome) = true.
Proof.
  intros Hc. cbv zeta.
  rewrite totalResults_history, returned_after_merge, persisted_after_merge.
  split; [apply JsArrayFacts.sort_perm|].
  split; [now apply sort_mostRecentFirst|].
  split; [apply JsArrayFacts.sort_length|].
  unfold getHistoricalResults. destruct (mergeDraws _ _ _ _). reflexivity.
Qed.

Lemma returned_history_most_recent_first_witness :
  consistent Host.codeUnitCompare
  /\ map date
       (history
          (snd (getHistoricalResults Host.codeUnitCompare (Samples.store Samples.sixDays)
                  Types.GUACHARO Samples.clock [Samples.draw "10:00" Samples.rana] [])))
     = ["2024-01-10"; "2024-01-06"; "2024-01-05"; "2024-01-04"; "2024-01-03";
        "2024-01-02"; "2024-01-01"]
  /\ mostRecentFirst Host.codeUnitCompare
       (history
          (snd (getHistoricalResults Host.codeUnitCompare (Samples.store Samples.sixDays)
                  Types.GUACHARO Samples.clock [Samples.draw "10:00" Samples.rana] []))).
Proof.
  split; [exact codeUnitCompare_consistent|].
  split; [vm_compute; reflexivity|].
  exact (proj1 (proj2 (returned_history_most_recent_first Host.codeUnitCompare
                         (Samples.store Samples.sixDays) Types.GUACHARO Samples.clock
                         [Samples.draw "10:00" Samples.rana] []
                         codeUnitCompare_consistent))).
Defined.

Lemma historyKey_inj (l1 l2 : LotteryId) : historyKey l1 = historyKey l2 -> l1 = l2.
Proof. destruct l1, l2; intros H; try reflexivity; vm_compute in H; discriminate. Qed.

Lemma massiveLoadKey_not_history (l1 l2 : LotteryId) : massiveLoadKey l1 <> historyKey l2.
Proof. destruct l1, l2; vm_compute; discriminate. Qed.

Lemma getPersistentHistory_save_other (ls : gmap string Item) (l1 l2 : LotteryId)
    (entries : list RealHistoryEntry) :
  l2 <> l1 ->
  getPersistentHistory (savePersistentHistory ls l1 entries) l2
  = getPersistentHistory ls l2.
Proof.
  intros Hne. unfold getPersistentHistory, savePersistentHistory.
  rewrite lookup_insert_ne; [reflexivity|].
  intros H. apply historyKey_inj in H. congruence.
Qed.

(** X5. The histories of the two lotteries are separate: a merge, a manual
    entry or a bulk load for one lottery leaves the persisted history of the
    other one as it was. *)
Theorem operations_touch_one_lottery (localeCompare : string -> string -> Z)
    (ls : gmap string Item) (lotteryId other : LotteryId) (clock : Clock)
    (todayDraws : list Types.DrawResult) (todaySources : list string)
    (d h : string) (a : Animal) (convertedData : list LoteriaDehoy.AppItem) :
  other <> lotteryId ->
  getPersistentHistory
    (fst (getHistoricalResults localeCompare ls lotteryId clock todayDraws todaySources))
    other
  = getPersistentHistory ls other
  /\ getPersistentHistory (fst (addManualResult ls lotteryId d h a clock)) other
     = getPersistentHistory ls other
  /\ getPersistentHistory
       (fst (loadMassiveHistoricalData localeCompare ls lotteryId clock convertedData))
       other
     = getPersistentHistory ls other.
Proof.
  intros Hne. split; [|split].
  - unfold getHistoricalResults. destruct (mergeDraws _ _ _ _) as [merged added].
    cbn [fst]. destruct (0 <? added)%nat; [|reflexivity].
    now apply getPersistentHistory_save_other.
  - unfold addManualResult. destruct (find _ _); cbn [fst]; [reflexivity|].
    now apply getPersistentHistory_save_other.
  - unfold loadMassiveHistoricalData.
    destruct (match ls !! massiveLoadKey lotteryId with
              | Some (DateText lastDate) => _ | _ => false end); [reflexivity|].
    destruct (length convertedData =? 0)%nat; [reflexivity|]. cbn [fst].
    unfold getPersistentHistory at 1.
    rewrite lookup_insert_ne by apply massiveLoadKey_not_history.
    now apply getPersistentHistory_save_other.
Qed.

Lemma operations_touch_one_lottery_witness :
  getPersistentHistory
    (fst (getHistoricalResults Host.codeUnitCompare (Samples.store Samples.twoLeons)
            Types.LOTTO_ACTIVO Samples.clock [Samples.draw "10:00" Samples.rana] []))
    Types.GUACHARO
  = Samples.twoLeons.
Proof.
  refine (proj1 (operations_touch_one_lottery Host.codeUnitCompare
                   (Samples.store Samples.twoLeons) Types.LOTTO_ACTIVO Types.GUACHARO
                   Samples.clock [Samples.draw "10:00" Samples.rana] []
                   "2024-01-10" "10:00" Samples.rana [] _)).
  discriminate.
Defined.

(** X6. A slot takes one manual entry: whatever the first call answered, a
    second manual entry for the same (date, hour), with any animal, is
    refused and changes nothing. *)
Theorem manual_entry_twice_is_refused (ls : gmap string Item) (lotteryId : LotteryId)
    (d h : string) (a1 a2 : Animal) (clock1 clock2 : Clock) :
  addManualResult (fst (addManualResult ls lotteryId d h a1 clock1)) lotteryId d h a2 clock2
  = (fst (addManualResult ls lotteryId d h a1 clock1), false).
Proof.
  assert (Hocc : existsb (sameSlot d h)
                   (getPersistentHistory
                      (fst (addManualResult ls lotteryId d h a1 clock1)) lotteryId) = true).
  { unfold addManualResult.
    destruct (find (sameSlot d h) (getPersistentHistory ls lotteryId)) eqn:E; cbn [fst].
    - destruct (existsb (sameSlot d h) (getPersistentHistory ls lotteryId)) eqn:E';
        [reflexivity|]. apply find_existsb in E'. congruence.
    - rewrite getPersistentHistory_save. simpl. unfold sameSlot at 1. simpl.
      now rewrite !String.eqb_refl. }
  unfold addManualResult at 1.
  destruct (find_existsb_some _ _ Hocc) as [x ->]. reflexivity.
Qed.

(** X7. Once a merge has recorded a draw of today, a manual entry for that
    hour of today is refused, whatever animal it names, and changes
    nothing. *)
Theorem manual_entry_after_merge_is_refused (localeCompare : string -> string -> Z)
    (ls : gmap string Item) (lotteryId : LotteryId) (clock clock' : Clock)
    (todayDraws : list Types.DrawResult) (todaySources : list string)
    (draw : Types.DrawResult) (a b : Animal) :
  In draw todayDraws ->
  Types.animal draw = Some a ->
  Types.hour draw <> "" ->
  let merged :=
    fst (getHistoricalResults localeCompare ls lotteryId clock todayDraws todaySources) in
  addManualResult merged lotteryId (venezuelaDate clock) (Types.hour draw) b clock'
  = (merged, false).
Proof.
  intros Hin Ha Hh. cbv zeta.
  assert (Hocc : existsb (sameSlot (venezuelaDate clock) (Types.hour draw))
                   (getPersistentHistory
                      (fst (getHistoricalResults localeCompare ls lotteryId clock
                              todayDraws todaySources)) lotteryId) = true).
  { rewrite persisted_after_merge.
    pose proof (fold_covers (venezuelaDate clock) clock todayDraws
                  (getPersistentHistory ls lotteryId, 0) draw a Hin Ha Hh) as H.
    apply sameDraw_recorded in H as (e & He & H1 & H2 & _).
    apply sameSlot_occupied. exists e. auto. }
  unfold addManualResult.
  destruct (find_existsb_some _ _ Hocc) as [x ->]. reflexivity.
Qed.

Lemma manual_entry_after_merge_is_refused_witness :
  snd (addManualResult
         (fst (getHistoricalResults Host.codeUnitCompare (Samples.store Samples.twoLeons)
                 Types.GUACHARO Samples.clock [Samples.draw "10:00" Samples.rana] []))
         Types.GUACHARO "2024-01-10" "10:00" Samples.leon Samples.clock)
  = false.
Proof.
  exact (f_equal snd
           (manual_entry_after_merge_is_refused Host.codeUnitCompare
              (Samples.store Samples.twoLeons) Types.GUACHARO Samples.clock Samples.clock
              [Samples.draw "10:00" Samples.rana] []
              (Samples.draw "10:00" Samples.rana) Samples.rana Samples.leon
              (or_introl eq_refl) eq_refl ltac:(discriminate))).
Defined.

End StoreOrderFacts.

(** ** Historical Store: the bulk load *)

Module BulkLoadFacts.
Import RealResults Store StoreFacts StoreKeys BulkLoad.

Lemma loadItem_shape (lotteryId : LotteryId) (st : LoadCount)
    (item : LoteriaDehoy.AppItem) :
  (String.eqb (LoteriaDehoy.lotteryType item) (requestedType lotteryId) = false
   /\ loadItem lotteryId st item = st)
  \/ (String.eqb (LoteriaDehoy.lotteryType item) (requestedType lotteryId) = true
      /\ ((existsb (sameItem item) (existingHistory st) = true
           /\ loadItem lotteryId st item
              = {| existingHistory := existingHistory st; loaded := loaded st;
                   duplicates := S (duplicates st); errors := errors st |})
          \/ (existsb (sameItem item) (existingHistory st) = false
              /\ findAnimalByNumber (LoteriaDehoy.animalNumber item) = None
              /\ loadItem lotteryId st item
                 = {| existingHistory := existingHistory st; loaded := loaded st;
                      duplicates := duplicates st; errors := S (errors st) |})
          \/ (exists a,
                existsb (sameItem item) (existingHistory st) = false
                /\ findAnimalByNumber (LoteriaDehoy.animalNumber item) = Some a
                /\ loadItem lotteryId st item
                   = {| existingHistory := existingHistory st ++ [bulkEntry item a];
                        loaded := S (loaded st);
                        duplicates := duplicates st; errors := errors st |}))).
Proof.
  unfold loadItem.
  destruct (String.eqb (LoteriaDehoy.lotteryType item) (requestedType lotteryId));
    cbn [negb]; [right; split; [reflexivity|] | left; split; destruct st; reflexivity].
  destruct (find (sameItem item) (existingHistory st)) eqn:E.
  - left. split; [|reflexivity].
    destruct (existsb (sameItem item) (existingHistory st)) eqn:E'; [reflexivity|].
    apply find_existsb in E'. congruence.
  - apply find_existsb in E.
    destruct (findAnimalByNumber (LoteriaDehoy.animalNumber item)) as [a|] eqn:Ha.
    + right. right. exists a. repeat split; auto.
    + right. left. repeat split; auto.
Qed.

Lemma requested_cons (lotteryId : LotteryId) (item : LoteriaDehoy.AppItem)
    (data : list LoteriaDehoy.AppItem) :
  requested lotteryId (item :: data)
  = if String.eqb (LoteriaDehoy.lotteryType item) (requestedType lotteryId)
    then item :: requested lotteryId data else requested lotteryId data.
Proof. reflexivity. Qed.

Lemma fromData_cons (lotteryId : LotteryId) (item : LoteriaDehoy.AppItem)
    (data : list LoteriaDehoy.AppItem) (added : list RealHistoryEntry) :
  Forall (fromData lotteryId data) added ->
  Forall (fromData lotteryId (item :: data)) added.
Proof.
  intros H. eapply List.Forall_impl; [|exact H].
  intros e (it & a & Hin & Hrest). exists it, a. split; [|exact Hrest].
  rewrite requested_cons. destruct (String.eqb _ _); [now right | exact Hin].
Qed.

(** The loop counts every item of the requested lottery once and appends one
    record per loaded item. *)
Lemma fold_load_counts (lotteryId : LotteryId) (data : list LoteriaDehoy.AppItem)
    (st : LoadCount) :
  let st' := fold_left (loadItem lotteryId) data st in
  loaded st' + duplicates st' + errors st'
  = loaded st + duplicates st + errors st + length (requested lotteryId data)
  /\ exists added,
       existingHistory st' = existingHistory st ++ added
       /\ loaded st' = loaded st + length added
       /\ Forall (fromData lotteryId data) added.
Proof.
  cbv zeta. revert st. induction data as [|item data IH]; intros st; cbn [fold_left].
  - split; [simpl; lia|]. exists []. rewrite app_nil_r. repeat split; auto; simpl; lia.
  - destruct (IH (loadItem lotteryId st item)) as (Hc & added & He & Hl & Hall).
    apply (fromData_cons lotteryId item) in Hall.
    rewrite requested_cons.
    destruct (loadItem_shape lotteryId st item)
      as [[Ht E]|[Ht [[_ E]|[(_ & _ & E)|(a & Hnew & Ha & E)]]]];
      rewrite Ht, E in *; cbn [loaded duplicates errors existingHistory length] in *.
    + split; [lia|]. now exists added.
    + split; [lia|]. now exists added.
    + split; [lia|]. now exists added.
    + split; [lia|]. exists (bulkEntry item a :: added).
      rewrite <- app_assoc in He. cbn [app length] in *.
      repeat split; [exact He | lia |]. constructor; [|exact Hall].
      exists item, a. split; [|now split]. rewrite requested_cons, Ht. now left.
Qed.

Lemma not_recently (ls : gmap string Item) (lotteryId : LotteryId) (clock : Clock) :
  due ls lotteryId clock ->
  match ls !! massiveLoadKey lotteryId with
  | Some (DateText lastDate) => (now clock - lastDate <? 7 * 86400000)%Z
  | _ => false
  end = false.
Proof.
  intros Hdue. destruct (ls !! massiveLoadKey lotteryId) as [[| lastDate |]|] eqn:E;
    try reflexivity.
  apply Z.ltb_ge. now apply Hdue.
Qed.

Section Load.
Variable localeCompare : string -> string -> Z.

(** A load that goes ahead: what it stores and answers. *)
Lemma load_performed (ls : gmap string Item) (lotteryId : LotteryId) (clock : Clock)
    (convertedData : list LoteriaDehoy.AppItem) :
  due ls lotteryId clock ->
  convertedData <> [] ->
  let st := fold_left (loadItem lotteryId) convertedData
              (startLoad (getPersistentHistory ls lotteryId)) in
  loadMassiveHistoricalData localeCompare ls lotteryId clock convertedData
  = (<[massiveLoadKey lotteryId := DateText (now clock)]>
       (savePersistentHistory ls lotteryId
          (JsArray.sort (entryAfter localeCompare) (existingHistory st))),
     {| lr_success := true; lr_loaded := loaded st;
        lr_duplicates := duplicates st; lr_errors := errors st |}).
Proof.
  intros Hdue Hne. cbv zeta. unfold loadMassiveHistoricalData.
  rewrite (not_recently _ _ _ Hdue).
  destruct convertedData; [contradiction|]. reflexivity.
Qed.

Lemma persisted_after_load (ls : gmap string Item) (lotteryId : LotteryId)
    (clock : Clock) (entries : list RealHistoryEntry) :
  getPersistentHistory
    (<[massiveLoadKey lotteryId := DateText (now clock)]>
       (savePersistentHistory ls lotteryId entries)) lotteryId
  = entries.
Proof.
  unfold getPersistentHistory at 1.
  rewrite lookup_insert_ne by apply StoreOrderFacts.massiveLoadKey_not_history.
  apply getPersistentHistory_save.
Qed.

(** X8. A bulk load that goes ahead accounts for every item of the requested
    lottery exactly once, as loaded, duplicate or error (items of the other
    lottery are not counted); it keeps every stored record and adds one
    record per loaded item, built from an item whose number the table
    resolves and tagged LoteriaDehoy. *)
Theorem bulk_load_accounts_for_every_item (ls : gmap string Item)
    (lotteryId : LotteryId) (clock : Clock)
    (convertedData : list LoteriaDehoy.AppItem) :
  due ls lotteryId clock ->
  convertedData <> [] ->
  let outcome := loadMassiveHistoricalData localeCompare ls lotteryId clock convertedData in
  lr_success (snd outcome) = true
  /\ lr_loaded (snd outcome) + lr_duplicates (snd outcome) + lr_errors (snd outcome)
     = length (requested lotteryId convertedData)
  /\ exists added,
       Permutation (getPersistentHistory (fst outcome) lotteryId)
                   (getPersistentHistory ls lotteryId ++ added)
       /\ length added = lr_loaded (snd outcome)
       /\ Forall (fromData lotteryId convertedData) added
       /\ Forall (fun e => source e = FromLoteriaDehoy) added.
Proof.
  intros Hdue Hne. cbv zeta. rewrite (load_performed _ _ _ _ Hdue Hne).
  cbn [fst snd lr_success lr_loaded lr_duplicates lr_errors].
  destruct (fold_load_counts lotteryId convertedData
              (startLoad (getPersistentHistory ls lotteryId)))
    as (Hc & added & He & Hl & Hall).
  cbn [startLoad loaded duplicates errors existingHistory] in *.
  split; [reflexivity|]. split; [lia|].
  exists added. rewrite persisted_after_load, He.
  split; [apply JsArrayFacts.sort_perm|]. split; [lia|]. split; [exact Hall|].
  eapply List.Forall_impl; [|exact Hall]. intros e (it & a & _ & _ & ->). reflexivity.
Qed.

End Load.

Lemma bulk_load_accounts_for_every_item_witness :
  let outcome :=
    loadMassiveHistoricalData Host.codeUnitCompare loadedOnNewYear Types.GUACHARO
      Samples.clock sampleData in
  snd outcome
  = {| lr_success := true; lr_loaded := 1; lr_duplicates := 2; lr_errors := 1 |}
  /\ lr_loaded (snd outcome) + lr_duplicates (snd outcome) + lr_errors (snd outcome)
     = length (requested Types.GUACHARO sampleData).
Proof.
  cbv zeta. split; [vm_compute; reflexivity|].
  refine (proj1 (proj2 (bulk_load_accounts_for_every_item Host.codeUnitCompare
                          loadedOnNewYear Types.GUACHARO Samples.clock sampleData _ _))).
  - intros lastDate H. vm_compute in H. injection H as <-. vm_compute. discriminate.
  - discriminate.
Defined.

End BulkLoadFacts.

(** ** Historical Store: repeating a bulk load *)

Module BulkRepeatFacts.
Import RealResults Store StoreFacts StoreKeys BulkLoad BulkLoadFacts.

Lemma existsb_perm {A} (p : A -> bool) (l l' : list A) :
  Permutation l l' -> existsb p l = true -> existsb p l' = true.
Proof.
  intros Hp H. apply existsb_exists in H as (x & Hx & Hpx).
  apply existsb_exists. exists x. split; [|exact Hpx].
  now apply (Permutation_in _ Hp).
Qed.

Lemma loadItem_keeps (lotteryId : LotteryId) (p : RealHistoryEntry -> bool)
    (st : LoadCount) (item : LoteriaDehoy.AppItem) :
  existsb p (existingHistory st) = true ->
  existsb p (existingHistory (loadItem lotteryId st item)) = true.
Proof.
  intros H.
  destruct (loadItem_shape lotteryId st item)
    as [[_ E]|[_ [[_ E]|[(_ & _ & E)|(a & _ & _ & E)]]]]; rewrite E;
    cbn [existingHistory]; auto.
  rewrite existsb_app, H. reflexivity.
Qed.

Lemma fold_load_keeps (lotteryId : LotteryId) (p : RealHistoryEntry -> bool)
    (data : list LoteriaDehoy.AppItem) (st : LoadCount) :
  existsb p (existingHistory st) = true ->
  existsb p (existingHistory (fold_left (loadItem lotteryId) data st)) = true.
Proof.
  revert st. induction data as [|item data IH]; intros st H; cbn [fold_left]; [exact H|].
  apply IH. now apply loadItem_keeps.
Qed.

(** After the loop, every item of the requested lottery is stored or has a
    number the table does not resolve. *)
Lemma fold_load_covers (lotteryId : LotteryId) (data : list LoteriaDehoy.AppItem)
    (st : LoadCount) (item : LoteriaDehoy.AppItem) :
  In item (requested lotteryId data) ->
  existsb (sameItem item) (existingHistory (fold_left (loadItem lotteryId) data st)) = true
  \/ findAnimalByNumber (LoteriaDehoy.animalNumber item) = None.
Proof.
  revert st. induction data as [|it data IH]; intros st Hin; [inversion Hin|].
  cbn [fold_left]. rewrite requested_cons in Hin.
  destruct (loadItem_shape lotteryId st it)
    as [[Ht E]|[Ht [[Hex E]|[(_ & Hnone & E)|(a & _ & Ha & E)]]]];
    rewrite Ht in Hin; try (now apply IH);
    destruct Hin as [<-|Hin]; try (now apply IH).
  - left. apply fold_load_keeps. rewrite E. exact Hex.
  - now right.
  - left. apply fold_load_keeps. rewrite E. cbn [existingHistory].
    rewrite existsb_app. simpl. unfold sameItem at 2, bulkEntry; simpl.
    rewrite !String.eqb_refl. apply orb_true_r.
Qed.

Lemma fold_load_noop (lotteryId : LotteryId) (data : list LoteriaDehoy.AppItem)
    (st : LoadCount) :
  (forall item, In item (requested lotteryId data) ->
                existsb (sameItem item) (existingHistory st) = true
                \/ findAnimalByNumber (LoteriaDehoy.animalNumber item) = None) ->
  existingHistory (fold_left (loadItem lotteryId) data st) = existingHistory st
  /\ loaded (fold_left (loadItem lotteryId) data st) = loaded st.
Proof.
  revert st. induction data as [|it data IH]; intros st H; cbn [fold_left]; [auto|].
  assert (Hstep : existingHistory (loadItem lotteryId st it) = existingHistory st
                  /\ loaded (loadItem lotteryId st it) = loaded st).
  { destruct (loadItem_shape lotteryId st it)
      as [[_ E]|[Ht [[_ E]|[(_ & _ & E)|(a & Hnew & Ha & E)]]]];
      try (rewrite E; split; reflexivity).
    exfalso. destruct (H it) as [Hex|Hnone]; [|congruence|congruence].
    rewrite requested_cons, Ht. now left. }
  destruct Hstep as [He Hl].
  destruct (IH (loadItem lotteryId st it)) as [He' Hl'].
  - intros item Hin. rewrite He. apply H. rewrite requested_cons.
    destruct (String.eqb _ _); [now right | exact Hin].
  - split; congruence.
Qed.

(** X9. The bulk load is limited to one run per seven days and reports an
    empty scrape as a failure: when it is due but the data are empty it
    answers success = false and leaves the storage (and the mark of the last
    load) alone; once a load has gone ahead, any further call less than seven
    days later does nothing and answers success with zero counts, whatever
    data it is given. *)
Theorem bulk_load_is_rate_limited (localeCompare : string -> string -> Z)
    (ls : gmap string Item) (lotteryId : LotteryId) (clock : Clock)
    (convertedData : list LoteriaDehoy.AppItem) :
  due ls lotteryId clock ->
  (convertedData = [] ->
   loadMassiveHistoricalData localeCompare ls lotteryId clock convertedData
   = (ls, nothingLoaded false))
  /\ (convertedData <> [] ->
      forall (later : Clock) (otherData : list LoteriaDehoy.AppItem),
        (now later - now clock < 7 * 86400000)%Z ->
        let first :=
          loadMassiveHistoricalData localeCompare ls lotteryId clock convertedData in
        loadMassiveHistoricalData localeCompare (fst first) lotteryId later otherData
        = (fst first, nothingLoaded true)).
Proof.
  intros Hdue. split.
  - intros ->. unfold loadMassiveHistoricalData. now rewrite (not_recently _ _ _ Hdue).
  - intros Hne later otherData Hsoon. cbv zeta.
    rewrite (load_performed localeCompare _ _ _ _ Hdue Hne). cbn [fst].
    unfold loadMassiveHistoricalData at 1. rewrite lookup_insert_eq.
    now rewrite (proj2 (Z.ltb_lt _ _) Hsoon).
Qed.

Lemma bulk_load_is_rate_limited_witness :
  let first :=
    loadMassiveHistoricalData Host.codeUnitCompare loadedOnNewYear Types.GUACHARO
      Samples.clock sampleData in
  lr_loaded (snd first) = 1
  /\ loadMassiveHistoricalData Host.codeUnitCompare (fst first) Types.GUACHARO
       Samples.clock sampleData
     = (fst first, nothingLoaded true).
Proof.
  cbv zeta. split; [vm_compute; reflexivity|].
  refine (proj2 (bulk_load_is_rate_limited Host.codeUnitCompare loadedOnNewYear
                   Types.GUACHARO Samples.clock sampleData _) _ Samples.clock sampleData _).
  - intros lastDate H. vm_compute in H. injection H as <-. vm_compute. discriminate.
  - discriminate.
  - vm_compute. reflexivity.
Defined.

(** X10. Loading the same data again never loads anything: after a load that
    went ahead, a second load of the same data, at any later time, reports
    zero loaded items and leaves the persisted history with the same
    records. *)
Theorem bulk_load_again_loads_nothing (localeCompare : string -> string -> Z)
    (ls : gmap string Item) (lotteryId : LotteryId) (clock later : Clock)
    (convertedData : list LoteriaDehoy.AppItem) :
  due ls lotteryId clock ->
  convertedData <> [] ->
  let first := loadMassiveHistoricalData localeCompare ls lotteryId clock convertedData in
  let second :=
    loadMassiveHistoricalData localeCompare (fst first) lotteryId later convertedData in
  lr_loaded (snd second) = 0
  /\ lr_success (snd second) = true
  /\ Permutation (getPersistentHistory (fst second) lotteryId)
                 (getPersistentHistory (fst first) lotteryId).
Proof.
  intros Hdue Hne. cbv zeta.
  rewrite (load_performed localeCompare _ _ _ _ Hdue Hne). cbn [fst].
  set (st1 := fold_left (loadItem lotteryId) convertedData
                (startLoad (getPersistentHistory ls lotteryId))).
  set (ls1 := <[massiveLoadKey lotteryId := DateText (now clock)]> _).
  assert (Hp1 : getPersistentHistory ls1 lotteryId
                = JsArray.sort (entryAfter localeCompare) (existingHistory st1))
    by apply persisted_after_load.
  unfold loadMassiveHistoricalData.
  destruct (match ls1 !! massiveLoadKey lotteryId with
            | Some (DateText lastDate) => _ | _ => false end);
    [repeat split; reflexivity|].
  destruct convertedData as [|it data]; [contradiction|].
  cbn [length Nat.eqb fst snd lr_loaded lr_success].
  destruct (fold_load_noop lotteryId (it :: data)
              (startLoad (getPersistentHistory ls1 lotteryId))) as [He Hl].
  { intros item Hin. cbn [startLoad existingHistory]. rewrite Hp1.
    destruct (fold_load_covers lotteryId (it :: data)
                (startLoad (getPersistentHistory ls lotteryId)) item Hin) as [H|H];
      [left|now right].
    eapply existsb_perm; [|exact H]. apply Permutation_sym, JsArrayFacts.sort_perm. }
  fold (startLoad (getPersistentHistory ls1 lotteryId)).
  rewrite Hl, He. cbn [startLoad loaded existingHistory].
  split; [reflexivity|]. split; [reflexivity|].
  rewrite persisted_after_load. apply JsArrayFacts.sort_perm.
Qed.

Lemma bulk_load_again_loads_nothing_witness :
  let later := {| now := now Samples.clock + 30 * 86400000;
                  nowISO := "2024-02-09T12:00:00.000Z";
                  venezuelaDate := "2024-02-09" |} in
  let first :=
    loadMassiveHistoricalData Host.codeUnitCompare loadedOnNewYear Types.GUACHARO
      Samples.clock sampleData in
  let second :=
    loadMassiveHistoricalData Host.codeUnitCompare (fst first) Types.GUACHARO
      later sampleData in
  snd second = {| lr_success := true; lr_loaded := 0; lr_duplicates := 3; lr_errors := 1 |}
  /\ lr_loaded (snd second) = 0.
Proof.
  cbv zeta. split; [vm_compute; reflexivity|].
  refine (proj1 (bulk_load_again_loads_nothing Host.codeUnitCompare loadedOnNewYear
                   Types.GUACHARO Samples.clock _ sampleData _ _)).
  - intros lastDate H. vm_compute in H. injection H as <-. vm_compute. discriminate.
  - discriminate.
Defined.

Lemma fold_load_keeps_keys_unique (lotteryId : LotteryId)
    (data : list LoteriaDehoy.AppItem) (st : LoadCount) :
  List.NoDup (map bulkKey (existingHistory st)) ->
  List.NoDup (map bulkKey (existingHistory (fold_left (loadItem lotteryId) data st))).
Proof.
  revert st. induction data as [|it data IH]; intros st H; cbn [fold_left]; [exact H|].
  apply IH.
  destruct (loadItem_shape lotteryId st it)
    as [[_ E]|[_ [[_ E]|[(_ & _ & E)|(a & Hnew & _ & E)]]]]; rewrite E;
    cbn [existingHistory]; auto.
  rewrite map_app. cbn [map].
  apply (Permutation_NoDup (Permutation_cons_append _ _)).
  constructor; [|exact H].
  intros Hin. apply in_map_iff in Hin as (e & Hk & He).
  assert (existsb (sameItem it) (existingHistory st) = true); [|congruence].
  apply existsb_exists. exists e. split; [exact He|].
  unfold bulkKey, bulkEntry in Hk. simpl in Hk. injection Hk as H1 H2 H3.
  unfold sameItem. rewrite H1, H2, H3, !String.eqb_refl. reflexivity.
Qed.

(** X11. The bulk load keeps its keys unique: if no two stored records share
    (date, hour, number), no two do after a call, whatever the data (a row
    scraped twice is stored once). *)
Theorem bulk_load_keeps_keys_unique (localeCompare : string -> string -> Z)
    (ls : gmap string Item) (lotteryId : LotteryId) (clock : Clock)
    (convertedData : list LoteriaDehoy.AppItem) :
  List.NoDup (map bulkKey (getPersistentHistory ls lotteryId)) ->
  List.NoDup (map bulkKey
                (getPersistentHistory
                   (fst (loadMassiveHistoricalData localeCompare ls lotteryId clock
                           convertedData))
                   lotteryId)).
Proof.
  intros H. unfold loadMassiveHistoricalData.
  destruct (match ls !! massiveLoadKey lotteryId with
            | Some (DateText lastDate) => _ | _ => false end); [exact H|].
  destruct (length convertedData =? 0)%nat; [exact H|]. cbn [fst].
  rewrite persisted_after_load.
  eapply Permutation_NoDup.
  - apply Permutation_map, Permutation_sym, JsArrayFacts.sort_perm.
  - now apply fold_load_keeps_keys_unique.
Qed.

Lemma bulk_load_keeps_keys_unique_witness :
  length (getPersistentHistory
            (fst (loadMassiveHistoricalData Host.codeUnitCompare loadedOnNewYear
                    Types.GUACHARO Samples.clock sampleData))
            Types.GUACHARO) = 3
  /\ List.NoDup
       (map bulkKey
          (getPersistentHistory
             (fst (loadMassiveHistoricalData Host.codeUnitCompare loadedOnNewYear
                     Types.GUACHARO Samples.clock sampleData))
             Types.GUACHARO)).
Proof.
  split; [vm_compute; reflexivity|].
  apply (bulk_load_keeps_keys_unique Host.codeUnitCompare loadedOnNewYear
           Types.GUACHARO Samples.clock sampleData).
  apply NoDup_ListNoDup, (bool_decide_unpack _). vm_compute. exact I.
Defined.

End BulkRepeatFacts.

(** ** Historical Store: the bulk load and the key of the live merge *)

Module BackfillFacts.
Import RealResults Store StoreFacts StoreKeys BulkLoad Backfill.

Lemma liveSkips_sameItem (item : LoteriaDehoy.AppItem) (entries : list RealHistoryEntry) :
  numbersAreIds entries ->
  existsb (sameItem item) entries = liveSkips item entries.
Proof. intros H. now apply HistoricalStore.sameItem_sameDraw. Qed.

Lemma loadItem_byLiveKey (lotteryId : LotteryId) (st : LoadCount)
    (item : LoteriaDehoy.AppItem) :
  numbersAreIds (existingHistory st) ->
  loadItem lotteryId st item = loadItemByLiveKey lotteryId st item.
Proof.
  intros Hnum. unfold loadItem, loadItemByLiveKey.
  destruct (negb _); [reflexivity|].
  rewrite <- (liveSkips_sameItem item _ Hnum).
  destruct (existsb (sameItem item) (existingHistory st)) eqn:E.
  - destruct (find_existsb_some _ _ E) as [x ->]. reflexivity.
  - rewrite (proj2 (find_existsb _ _) E). reflexivity.
Qed.

(** The history of the loop only grows: what holds of all its records in
    the end held at every turn. *)
Lemma numbersAreIds_before (lotteryId : LotteryId) (data : list LoteriaDehoy.AppItem)
    (st : LoadCount) :
  numbersAreIds (existingHistory (fold_left (loadItem lotteryId) data st)) ->
  numbersAreIds (existingHistory st).
Proof.
  destruct (BulkLoadFacts.fold_load_counts lotteryId data st) as (_ & added & He & _).
  rewrite He. unfold numbersAreIds. rewrite Forall_app. tauto.
Qed.

Lemma fold_byLiveKey (lotteryId : LotteryId) (data : list LoteriaDehoy.AppItem)
    (st : LoadCount) :
  numbersAreIds (existingHistory (fold_left (loadItem lotteryId) data st)) ->
  fold_left (loadItem lotteryId) data st
  = fold_left (loadItemByLiveKey lotteryId) data st.
Proof.
  revert st. induction data as [|item data IH]; intros st H; cbn [fold_left] in *;
    [reflexivity|].
  rewrite (IH _ H).
  apply numbersAreIds_before in H.
  assert (Hst : numbersAreIds (existingHistory st)).
  { apply (numbersAreIds_before lotteryId [item]). exact H. }
  now rewrite (loadItem_byLiveKey lotteryId st item Hst).
Qed.

Lemma due_or_recently (ls : gmap string Item) (lotteryId : LotteryId) (clock : Clock) :
  match ls !! massiveLoadKey lotteryId with
  | Some (DateText lastDate) => (now clock - lastDate <? 7 * 86400000)%Z
  | _ => false
  end = false ->
  due ls lotteryId clock.
Proof.
  intros H lastDate E. rewrite E in H. now apply Z.ltb_ge in H.
Qed.

(** C9. Given that every record of the persisted history that the bulk load
    leaves keeps the id of its animal as its number.  A call that is refused
    (a bulk load less than seven days ago, or an empty scrape) examines no
    candidate: it stores nothing and counts nothing.  For a call that goes
    ahead, the counts it answers and the history it persists are those of
    the same loop with the duplicates told by the key of the live merge,
    (date, hour, entity id); and at every candidate of the requested
    lottery, the load counts it as a duplicate (leaving the history and the
    other counters alone) exactly when a record matches it on (date, hour,
    entity id), which, for a candidate with an hour, is exactly when the
    step of the live merge skips it.  An item of the other lottery is no
    candidate: the loop passes it over. *)
Theorem bulk_load_dedups_like_live_merge (localeCompare : string -> string -> Z)
    (ls : gmap string Item) (lotteryId : LotteryId) (clock : Clock)
    (convertedData : list LoteriaDehoy.AppItem) :
  let outcome :=
    loadMassiveHistoricalData localeCompare ls lotteryId clock convertedData in
  numbersAreIds (getPersistentHistory (fst outcome) lotteryId) ->
  let stored := getPersistentHistory ls lotteryId in
  let byLiveKey :=
    fold_left (loadItemByLiveKey lotteryId) convertedData (startLoad stored) in
  (~ (due ls lotteryId clock /\ convertedData <> []) ->
   fst outcome = ls
   /\ lr_loaded (snd outcome) = 0
   /\ lr_duplicates (snd outcome) = 0
   /\ lr_errors (snd outcome) = 0)
  /\ (due ls lotteryId clock -> convertedData <> [] ->
      snd outcome
      = {| lr_success := true; lr_loaded := loaded byLiveKey;
           lr_duplicates := duplicates byLiveKey; lr_errors := errors byLiveKey |}
      /\ getPersistentHistory (fst outcome) lotteryId
         = JsArray.sort (entryAfter localeCompare) (existingHistory byLiveKey)
      /\ (forall before item after a,
            convertedData = before ++ item :: after ->
            LoteriaDehoy.lotteryType item = requestedType lotteryId ->
            Types.id a = LoteriaDehoy.animalNumber item ->
            let st := reached lotteryId stored before in
            let bulk := loadItem lotteryId st item in
            (duplicates bulk = S (duplicates st)
             <-> recorded (LoteriaDehoy.date item) (LoteriaDehoy.time item) a
                          (existingHistory st))
            /\ (duplicates bulk = S (duplicates st) ->
                existingHistory bulk = existingHistory st /\ loaded bulk = loaded st
                /\ errors bulk = errors st)
            /\ (LoteriaDehoy.time item <> "" ->
                forall (merging : Clock) (n : nat),
                  duplicates bulk = S (duplicates st)
                  <-> mergeDraw (LoteriaDehoy.date item) merging
                                (existingHistory st, n) (asDraw item a)
                      = (existingHistory st, n)))
      /\ (forall before item after,
            convertedData = before ++ item :: after ->
            LoteriaDehoy.lotteryType item <> requestedType lotteryId ->
            loadItem lotteryId (reached lotteryId stored before) item
            = reached lotteryId stored before)).
Proof.
  cbv zeta. intros Hnum. split.
  - intros Hrefused. unfold loadMassiveHistoricalData.
    destruct (match ls !! massiveLoadKey lotteryId with
              | Some (DateText lastDate) => (now clock - lastDate <? 7 * 86400000)%Z
              | _ => false
              end) eqn:Hrecent; [repeat split|].
    destruct convertedData as [|item data]; [repeat split|].
    exfalso. apply Hrefused. split; [now apply due_or_recently | discriminate].
  - intros Hdue Hne. revert Hnum.
    rewrite (BulkLoadFacts.load_performed localeCompare _ _ _ _ Hdue Hne).
    cbn [fst snd]. rewrite BulkLoadFacts.persisted_after_load.
    intros Hnum.
    assert (Hfinal : numbersAreIds
              (existingHistory (fold_left (loadItem lotteryId) convertedData
                                  (startLoad (getPersistentHistory ls lotteryId))))).
    { unfold numbersAreIds in *.
      eapply Permutation_Forall; [|exact Hnum]. apply JsArrayFacts.sort_perm. }
    rewrite (fold_byLiveKey lotteryId convertedData _ Hfinal).
    split; [reflexivity|]. split; [reflexivity|]. split.
    2:{ intros before item after _ Htype. unfold loadItem.
        destruct (String.eqb_spec (LoteriaDehoy.lotteryType item)
                                  (requestedType lotteryId)); [contradiction|].
        reflexivity. }
    intros before item after a Hsplit Htype Ha.
    assert (Hst : numbersAreIds (existingHistory
                                   (reached lotteryId (getPersistentHistory ls lotteryId)
                                      before))).
    { unfold reached. apply (numbersAreIds_before lotteryId (item :: after)).
      rewrite <- fold_left_app, <- Hsplit. exact Hfinal. }
    destruct (HistoricalStore.loadItem_like_mergeDraw lotteryId
                (reached lotteryId (getPersistentHistory ls lotteryId) before)
                item a clock 0 Hst Htype Ha) as (H1 & H2 & _).
    split; [exact H1|]. split; [exact H2|].
    intros Htime merging n.
    exact (proj2 (proj2 (HistoricalStore.loadItem_like_mergeDraw lotteryId _ item a
                           merging n Hst Htype Ha)) Htime).
Qed.

Lemma bulk_load_dedups_like_live_merge_witness :
  let outcome :=
    loadMassiveHistoricalData Host.codeUnitCompare loadedOnNewYear Types.GUACHARO
      Samples.clock sampleData in
  let byLiveKey :=
    fold_left (loadItemByLiveKey Types.GUACHARO) sampleData
      (startLoad (getPersistentHistory loadedOnNewYear Types.GUACHARO)) in
  snd outcome
  = {| lr_success := true; lr_loaded := 1; lr_duplicates := 2; lr_errors := 1 |}
  /\ snd outcome
     = {| lr_success := true; lr_loaded := loaded byLiveKey;
          lr_duplicates := duplicates byLiveKey; lr_errors := errors byLiveKey |}
  /\ length (getPersistentHistory (fst outcome) Types.GUACHARO) = 3.
Proof.
  cbv zeta. split; [vm_compute; reflexivity|]. split; [|vm_compute; reflexivity].
  refine (proj1 (proj2 (bulk_load_dedups_like_live_merge Host.codeUnitCompare
                          loadedOnNewYear Types.GUACHARO Samples.clock sampleData _)
                   _ _)).
  - vm_compute. repeat constructor.
  - intros lastDate H. vm_compute in H. injection H as <-. vm_compute. discriminate.
  - discriminate.
Defined.

(** Rows numbered with names of inherited members are loaded, not counted
    as errors; the records they leave do not keep an entity id as their
    number. *)
Example inherited_rows_are_loaded :
  snd (loadMassiveHistoricalData Host.codeUnitCompare (Samples.store [])
         Types.GUACHARO Samples.clock inheritedRows)
  = {| lr_success := true; lr_loaded := 2; lr_duplicates := 0; lr_errors := 0 |}.
Proof. vm_compute. reflexivity. Qed.

End BackfillFacts.

(** ** Historical Store: the statistics of a history *)

Module HistoryStatsFacts.
Import RealResults HistoryStats.

Lemma sourceEqb_eq (a b : Source) : sourceEqb a b = true <-> a = b.
Proof. destruct a, b; simpl; split; intros H; try reflexivity; discriminate. Qed.

Lemma existsb_source (s : Source) (set : list Source) :
  existsb (sourceEqb s) set = true <-> In s set.
Proof.
  rewrite existsb_exists. split.
  - intros (x & Hx & H). apply sourceEqb_eq in H. now subst.
  - intros H. exists s. split; [exact H | now apply sourceEqb_eq].
Qed.

Lemma distinct_fold (l set : list Source) :
  List.NoDup set ->
  let r := fold_left (fun set s => if existsb (sourceEqb s) set then set else set ++ [s])
                     l set in
  List.NoDup r /\ (forall s, In s r <-> In s set \/ In s l).
Proof.
  cbv zeta. revert set. induction l as [|x l IH]; intros set Hnd; cbn [fold_left].
  - split; [exact Hnd|]. intros s. simpl. tauto.
  - destruct (existsb (sourceEqb x) set) eqn:E.
    + destruct (IH set Hnd) as [H1 H2]. split; [exact H1|].
      intros s. rewrite H2. apply existsb_source in E. simpl.
      split; [tauto|]. intros [H|[<-|H]]; auto.
    + assert (Hx : ~ In x set).
      { intros H. apply existsb_source in H. congruence. }
      destruct (IH (set ++ [x])) as [H1 H2].
      { apply (Permutation_NoDup (Permutation_cons_append set x)).
        now constructor. }
      split; [exact H1|]. intros s. rewrite H2, in_app_iff. simpl. tauto.
Qed.

Lemma later_fold (rest : list RealHistoryEntry) (first : RealHistoryEntry) :
  In (fold_left later rest first) (first :: rest)
  /\ (forall e, In e (first :: rest) ->
                (timestamp e <= timestamp (fold_left later rest first))%Z).
Proof.
  revert first. induction rest as [|x rest IH]; intros first; cbn [fold_left].
  - split; [now left|]. intros e [<-|[]]. lia.
  - destruct (IH (later first x)) as [Hin Hmax]. split.
    + destruct Hin as [Hin|Hin]; [|right; now right].
      rewrite <- Hin. unfold later. destruct (_ <? _)%Z; [right|]; now left.
    + assert (Hf : (timestamp first <= timestamp (later first x))%Z).
      { unfold later. destruct (Z.ltb_spec (timestamp first) (timestamp x)); lia. }
      assert (Hx : (timestamp x <= timestamp (later first x))%Z).
      { unfold later. destruct (Z.ltb_spec (timestamp first) (timestamp x)); lia. }
      pose proof (Hmax (later first x) (or_introl eq_refl)) as Hl.
      intros e [<-|[<-|He]]; [lia | lia |]. apply Hmax. now right.
Qed.

Lemma sorted_dates (l : list string) :
  StronglySorted notAfter (JsArray.sort codeUnitAfter l).
Proof.
  apply Sorted_StronglySorted.
  - intros a b c. apply ExtractorFacts.compare_not_Gt_trans.
  - apply JsArrayFacts.sort_sorted.
    + intros a b H. unfold codeUnitAfter in H. unfold notAfter.
      destruct (String.compare a b); congruence.
    + intros a b H. unfold codeUnitAfter in H. unfold notAfter.
      rewrite String.compare_antisym. destruct (String.compare a b); simpl; congruence.
Qed.

Lemma notAfter_refl (a : string) : notAfter a a.
Proof.
  unfold notAfter. pose proof (String.compare_antisym a a) as H.
  destruct (String.compare a a); simpl in H; congruence.
Qed.

Lemma sorted_hd_least (l : list string) (x : string) :
  StronglySorted notAfter l -> In x l -> notAfter (hd "" l) x.
Proof.
  intros Hs Hin. destruct Hs as [|a l Hs Hall]; [inversion Hin|]. simpl.
  destruct Hin as [<-|Hin]; [apply notAfter_refl|].
  exact (proj1 (List.Forall_forall _ _) Hall x Hin).
Qed.

Lemma sorted_last_greatest (l : list string) (x : string) :
  StronglySorted notAfter l -> In x l -> notAfter x (List.last l "").
Proof.
  intros Hs. revert x. induction Hs as [|a l Hs IH Hall]; intros x Hin; [inversion Hin|].
  destruct l as [|b l].
  - destruct Hin as [<-|[]]. apply notAfter_refl.
  - change (List.last (a :: b :: l) "") with (List.last (b :: l) "").
    destruct Hin as [<-|Hin]; [|now apply IH].
    apply (ExtractorFacts.compare_not_Gt_trans _ b).
    + apply (proj1 (List.Forall_forall _ _) Hall). now left.
    + apply IH. now left.
Qed.

Lemma hd_In (l : list string) : l <> [] -> In (hd "" l) l.
Proof. destruct l; [congruence | now left]. Qed.

Lemma last_In (l : list string) : l <> [] -> In (List.last l "") l.
Proof.
  induction l as [|a l IH]; [congruence|]. intros _.
  destruct l as [|b l]; [now left|].
  right. apply IH. discriminate.
Qed.

(** X12. [getHistoryStats] on a stored history that is not empty: the count
    is the number of records; [from] and [to] are dates of the history, the
    least and the greatest by code units; the sources are those of the
    records, each listed once; and lastUpdate is the timestamp of a record,
    the greatest there is.  On an empty, missing or unreadable history it
    answers 0, N/A, no source and Never. *)
Theorem history_stats_summarise_the_history (ls : gmap string Item)
    (lotteryId : LotteryId) :
  let history := getPersistentHistory ls lotteryId in
  let stats := getHistoryStats ls lotteryId in
  (history = [] ->
   stats = {| totalEntries := 0; dateRange := {| from := "N/A"; to := "N/A" |};
              sources := []; lastUpdate := Never |})
  /\ (history <> [] ->
      totalEntries stats = length history
      /\ In (from (dateRange stats)) (map date history)
      /\ In (to (dateRange stats)) (map date history)
      /\ (forall e, In e history ->
            notAfter (from (dateRange stats)) (date e)
            /\ notAfter (date e) (to (dateRange stats)))
      /\ List.NoDup (sources stats)
      /\ (forall s, In s (sources stats) <-> exists e, In e history /\ source e = s)
      /\ exists e, In e history /\ lastUpdate stats = At (timestamp e)
                   /\ forall e', In e' history -> (timestamp e' <= timestamp e)%Z).
Proof.
  cbv zeta. unfold getHistoryStats.
  destruct (getPersistentHistory ls lotteryId) as [|first rest];
    (split; [intros H | intros H]); try congruence; try reflexivity.
  cbn [totalEntries dateRange from to sources lastUpdate].
  set (history := first :: rest).
  pose proof (sorted_dates (map date history)) as Hs.
  pose proof (JsArrayFacts.sort_perm codeUnitAfter (map date history)) as Hp.
  assert (Hne : JsArray.sort codeUnitAfter (map date history) <> []).
  { intros E. rewrite E in Hp. apply Permutation_nil in Hp. discriminate. }
  split; [reflexivity|].
  split; [apply (Permutation_in _ Hp), hd_In, Hne|].
  split; [apply (Permutation_in _ Hp), last_In, Hne|].
  split.
  { intros e He. apply (in_map date) in He.
    apply (Permutation_in _ (Permutation_sym Hp)) in He.
    split; [now apply sorted_hd_least | now apply sorted_last_greatest]. }
  destruct (distinct_fold (map source history) [] (List.NoDup_nil _)) as [Hnd Hin].
  split; [exact Hnd|].
  split.
  { intros s. unfold distinct. rewrite Hin, in_map_iff. simpl. split.
    - intros [[]|(e & <- & He)]. now exists e.
    - intros (e & He & <-). right. now exists e. }
  destruct (later_fold rest first) as [Hl Hmax].
  exists (fold_left later rest first). repeat split; auto.
Qed.

End HistoryStatsFacts.

(** ** Analyzer and scoring engine on any history *)

Module AnalysisFacts.
Import Statistical Windows.

Lemma hot_prefix (i : nat) (l : list PredictionScore.t) :
  List.filter (isCategory hot) (JsArray.mapi_from withRank i l)
  = firstn (5 - i) (JsArray.mapi_from withRank i l).
Proof.
  revert i. induction l as [|s l IH]; intros i; cbn [JsArray.mapi_from List.filter].
  - now rewrite firstn_nil.
  - rewrite IH. unfold isCategory at 1. cbn [withRank PredictionScore.category].
    unfold categoryOfRank.
    destruct (Nat.leb_spec (i + 1) 5) as [H|H].
    + replace (5 - i) with (S (5 - S i)) by lia. reflexivity.
    + replace (5 - i) with 0 by lia. replace (5 - S i) with 0 by lia.
      destruct (i + 1 <=? 15)%nat; [|destruct (i + 1 <=? 25)%nat]; reflexivity.
Qed.

Lemma cold_suffix (i : nat) (l : list PredictionScore.t) :
  List.filter (fun s => isCategory cold s || isCategory frozen s)
              (JsArray.mapi_from withRank i l)
  = skipn (15 - i) (JsArray.mapi_from withRank i l).
Proof.
  revert i. induction l as [|s l IH]; intros i; cbn [JsArray.mapi_from List.filter].
  - now rewrite skipn_nil.
  - rewrite IH. unfold isCategory at 1 2. cbn [withRank PredictionScore.category].
    unfold categoryOfRank.
    destruct (Nat.leb_spec (i + 1) 5) as [H5|H5];
      [replace (15 - i) with (S (15 - S i)) by lia; reflexivity|].
    destruct (Nat.leb_spec (i + 1) 15) as [H15|H15];
      [replace (15 - i) with (S (15 - S i)) by lia; reflexivity|].
    replace (15 - i) with 0 by lia. replace (15 - S i) with 0 by lia.
    destruct (i + 1 <=? 25)%nat; reflexivity.
Qed.

Section Coverage.
Variable today : Z.
Variable todayISODate : string.
Variable getTime : string -> Z.
Variable lotteryId : LotteryId.
Variable results : list HistoricalResult.t.
Variable customWeights : option PartialWeights.

Lemma scores_ids :
  map PredictionScore.animalId (scoresOf today getTime results customWeights)
  = map Types.id ANIMALS.
Proof.
  unfold scoresOf, calculatePredictionScores, calculateFrequencyAnalysis.
  rewrite !map_map. reflexivity.
Qed.

Lemma scores_length : length (scoresOf today getTime results customWeights) = 37.
Proof. rewrite <- (length_map PredictionScore.animalId), scores_ids. reflexivity. Qed.

Lemma all_eq :
  allAnimals (analyzeHistoricalData today todayISODate getTime lotteryId results
                customWeights)
  = categorizeAnimals (scoresOf today getTime results customWeights).
Proof. reflexivity. Qed.

Lemma top5_eq :
  top5 (analyzeHistoricalData today todayISODate getTime lotteryId results customWeights)
  = firstn 5 (categorizeAnimals (scoresOf today getTime results customWeights)).
Proof. unfold analyzeHistoricalData. cbn [top5]. reflexivity. Qed.

Lemma top10_eq :
  top10 (analyzeHistoricalData today todayISODate getTime lotteryId results customWeights)
  = firstn 10 (categorizeAnimals (scoresOf today getTime results customWeights)).
Proof. unfold analyzeHistoricalData. cbn [top10]. reflexivity. Qed.

Lemma hot_eq :
  hotAnimals (analyzeHistoricalData today todayISODate getTime lotteryId results
                customWeights)
  = List.filter (isCategory hot)
                (categorizeAnimals (scoresOf today getTime results customWeights)).
Proof. unfold analyzeHistoricalData. cbn [hotAnimals]. reflexivity. Qed.

Lemma cold_eq :
  coldAnimals (analyzeHistoricalData today todayISODate getTime lotteryId results
                 customWeights)
  = List.filter (fun s => isCategory cold s || isCategory frozen s)
                (categorizeAnimals (scoresOf today getTime results customWeights)).
Proof. unfold analyzeHistoricalData. cbn [coldAnimals]. reflexivity. Qed.

Lemma all_rank :
  map PredictionScore.rank
      (categorizeAnimals (scoresOf today getTime results customWeights))
  = seq 1 37.
Proof. now rewrite ScoringFacts.categorize_rank, scores_length. Qed.

End Coverage.

(** X13. Whatever the history and the weights, the analysis ranks the whole
    catalogue: allAnimals has 37 entries, one per catalogue animal, ranked
    1..37 in order; top5 and top10 are its first 5 and 10 entries;
    hotAnimals is exactly top5; coldAnimals is exactly the last 22 entries
    (ranks 16..37); and totalResults is the length of the history. *)
Theorem analysis_ranks_whole_catalogue (today : Z) (todayISODate : string)
    (getTime : string -> Z) (lotteryId : LotteryId)
    (results : list HistoricalResult.t) (customWeights : option PartialWeights) :
  let p := analyzeHistoricalData today todayISODate getTime lotteryId results
             customWeights in
  length (allAnimals p) = 37
  /\ Permutation (map PredictionScore.animalId (allAnimals p)) (map Types.id ANIMALS)
  /\ map PredictionScore.rank (allAnimals p) = seq 1 37
  /\ map PredictionScore.rank (top5 p) = seq 1 5
  /\ map PredictionScore.rank (top10 p) = seq 1 10
  /\ hotAnimals p = top5 p
  /\ coldAnimals p = skipn 15 (allAnimals p)
  /\ map PredictionScore.rank (coldAnimals p) = seq 16 22
  /\ totalResults p = length results.
Proof.
  cbv zeta. rewrite all_eq, top5_eq, top10_eq, hot_eq, cold_eq.
  pose proof (all_rank today getTime results customWeights) as Hrank.
  set (ranked := categorizeAnimals (scoresOf today getTime results customWeights)) in *.
  assert (Hcold : List.filter (fun s => isCategory cold s || isCategory frozen s) ranked
                  = skipn 15 ranked).
  { subst ranked. unfold categorizeAnimals, JsArray.mapi. apply (cold_suffix 0). }
  split.
  { rewrite <- (length_map PredictionScore.rank), Hrank. reflexivity. }
  split.
  { subst ranked. rewrite ScoringFacts.categorize_ids. now rewrite scores_ids. }
  split; [exact Hrank|].
  split; [rewrite <- firstn_map, Hrank; reflexivity|].
  split; [rewrite <- firstn_map, Hrank; reflexivity|].
  split.
  { subst ranked. unfold categorizeAnimals, JsArray.mapi. apply (hot_prefix 0). }
  split; [exact Hcold|].
  split; [|reflexivity].
  rewrite Hcold, <- skipn_map, Hrank. reflexivity.
Qed.

Lemma filter_length_le {A} (p : A -> bool) (l : list A) :
  length (List.filter p l) <= length l.
Proof. induction l as [|x l IH]; simpl; [lia|]. destruct (p x); simpl; lia. Qed.

Lemma filter_skipn_le {A} (p : A -> bool) (k : nat) (l : list A) :
  length (List.filter p (skipn k l)) <= length (List.filter p l).
Proof.
  revert k. induction l as [|x l IH]; intros [|k]; simpl; try lia.
  specialize (IH k). destruct (p x); simpl; lia.
Qed.

Lemma filter_window_mono {A} (p : A -> bool) (v w : nat) (l : list A) :
  v <= w ->
  length (List.filter p (JsArray.sliceLast v l))
  <= length (List.filter p (JsArray.sliceLast w l)).
Proof.
  intros H. unfold JsArray.sliceLast.
  replace (length l - v) with ((length l - v - (length l - w)) + (length l - w)) by lia.
  rewrite <- skipn_skipn. apply filter_skipn_le.
Qed.

Lemma window_length {A} (w : nat) (l : list A) :
  length (JsArray.sliceLast w l) = Nat.min w (length l).
Proof. unfold JsArray.sliceLast. rewrite length_skipn. lia. Qed.

(** X14. The counters of the analyzer are nested: for every animal and
    every history, its count in the window of 5 is at most its count in the
    window of 10, that at most its count in the window of 20, that at most
    its total count, and that at most the length of the history; and each
    window count is at most the size of its window. *)
Theorem window_counts_are_nested (today : Z) (getTime : string -> Z)
    (results : list HistoricalResult.t) (a : Animal) :
  let f := analyzeAnimal today getTime results a in
  FrequencyAnalysis.recentAppearances5 f <= FrequencyAnalysis.recentAppearances10 f
  /\ FrequencyAnalysis.recentAppearances10 f <= FrequencyAnalysis.recentAppearances20 f
  /\ FrequencyAnalysis.recentAppearances20 f <= FrequencyAnalysis.totalAppearances f
  /\ FrequencyAnalysis.totalAppearances f <= length results
  /\ FrequencyAnalysis.recentAppearances5 f <= 5
  /\ FrequencyAnalysis.recentAppearances10 f <= 10
  /\ FrequencyAnalysis.recentAppearances20 f <= 20.
Proof.
  cbv zeta.
  cbn [analyzeAnimal FrequencyAnalysis.recentAppearances5
       FrequencyAnalysis.recentAppearances10 FrequencyAnalysis.recentAppearances20
       FrequencyAnalysis.totalAppearances].
  split; [apply filter_window_mono; lia|].
  split; [apply filter_window_mono; lia|].
  split; [apply filter_skipn_le|].
  split; [apply filter_length_le|].
  repeat split;
    (etransitivity; [apply filter_length_le|]; rewrite window_length; lia).
Qed.

Lemma overCatalogue_window (w : nat) (results : list HistoricalResult.t) :
  FrequencySum.overCatalogue results ->
  FrequencySum.overCatalogue (JsArray.sliceLast w results).
Proof.
  unfold FrequencySum.overCatalogue, JsArray.sliceLast. intros H.
  apply List.Forall_forall. intros r Hr.
  apply (proj1 (List.Forall_forall _ _) H).
  rewrite <- (firstn_skipn (length results - w) results). apply in_or_app. now right.
Qed.

(** X15. For a history all of whose records hold catalogue animals, the
    window counts add up to the sizes of the windows: summed over the
    catalogue, the counts in the windows of 5, 10 and 20 are min(5, n),
    min(10, n) and min(20, n) for a history of n records, the sizes that the
    analysis reports in analysisWindow. *)
Theorem window_counts_sum_to_window_sizes (today : Z) (todayISODate : string)
    (getTime : string -> Z) (lotteryId : LotteryId)
    (results : list HistoricalResult.t) (customWeights : option PartialWeights) :
  FrequencySum.overCatalogue results ->
  let frequencies := calculateFrequencyAnalysis today getTime results in
  let window :=
    analysisWindow (analyzeHistoricalData today todayISODate getTime lotteryId results
                      customWeights) in
  sumOf FrequencyAnalysis.recentAppearances5 frequencies = Nat.min 5 (length results)
  /\ sumOf FrequencyAnalysis.recentAppearances10 frequencies = Nat.min 10 (length results)
  /\ sumOf FrequencyAnalysis.recentAppearances20 frequencies = Nat.min 20 (length results)
  /\ recent5 window = Nat.min 5 (length results)
  /\ recent10 window = Nat.min 10 (length results)
  /\ recent20 window = Nat.min 20 (length results).
Proof.
  intros H. cbv zeta. unfold sumOf, calculateFrequencyAnalysis. rewrite !map_map.
  cbn [analyzeAnimal FrequencyAnalysis.recentAppearances5
       FrequencyAnalysis.recentAppearances10 FrequencyAnalysis.recentAppearances20].
  repeat split;
    rewrite <- window_length;
    apply FrequencySumFacts.appearances_sum;
    solve [apply ResolverFacts.catalogue_ids_unique | now apply overCatalogue_window].
Qed.

Lemma window_counts_sum_to_window_sizes_witness :
  FrequencySum.overCatalogue (Samples.delivered Samples.sixDays)
  /\ sumOf FrequencyAnalysis.recentAppearances5
       (calculateFrequencyAnalysis (RealResults.now Samples.clock) Host.utcMidnight
          (Samples.delivered Samples.sixDays))
     = 5.
Proof.
  assert (H : FrequencySum.overCatalogue (Samples.delivered Samples.sixDays)).
  { vm_compute. repeat (constructor; [tauto|]). constructor. }
  split; [exact H|].
  exact (proj1 (window_counts_sum_to_window_sizes (RealResults.now Samples.clock)
                  "2024-01-10" Host.utcMidnight Types.GUACHARO
                  (Samples.delivered Samples.sixDays) None H)).
Defined.

End AnalysisFacts.

(** ** Confidence labels and the data handed to the analysis *)

Module ConfidenceFacts.
Import Statistical Windows.

Lemma confidence_needs_appearances (analysis : FrequencyAnalysis.t) (score : float) :
  (FrequencyAnalysis.totalAppearances analysis <= 10 ->
   determineConfidence analysis score <> alta)
  /\ (FrequencyAnalysis.totalAppearances analysis <= 5 ->
      determineConfidence analysis score = baja).
Proof.
  unfold determineConfidence. split; intros H.
  - rewrite (proj2 (Nat.ltb_ge 10 _)) by lia. rewrite andb_false_r.
    destruct (_ && _); discriminate.
  - rewrite (proj2 (Nat.ltb_ge 10 _)), (proj2 (Nat.ltb_ge 5 _)) by lia.
    now rewrite !andb_false_r.
Qed.

Lemma mapi_from_Forall_In {A B} (P : B -> Prop) (f : A -> nat -> B) (i : nat)
    (l : list A) :
  (forall x k, In x l -> P (f x k)) -> Forall P (JsArray.mapi_from f i l).
Proof.
  revert i. induction l as [|x l IH]; intros i H; simpl; constructor.
  - apply H. now left.
  - apply IH. intros y k Hy. apply H. now right.
Qed.

Lemma ranked_confidence (P : Confidence -> Prop) (scores : list PredictionScore.t) :
  (forall s, In s scores -> P (PredictionScore.confidence s)) ->
  Forall (fun s => P (PredictionScore.confidence s)) (categorizeAnimals scores).
Proof.
  intros H. unfold categorizeAnimals, JsArray.mapi.
  apply mapi_from_Forall_In. intros s k Hs. cbn [withRank PredictionScore.confidence].
  apply H. exact (Permutation_in _ (JsArrayFacts.sort_perm scoreAfter scores) Hs).
Qed.

Lemma scores_confidence (today : Z) (getTime : string -> Z)
    (results : list HistoricalResult.t) (customWeights : option PartialWeights)
    (s : PredictionScore.t) :
  In s (scoresOf today getTime results customWeights) ->
  exists analysis score,
    FrequencyAnalysis.totalAppearances analysis <= length results
    /\ PredictionScore.confidence s = determineConfidence analysis score.
Proof.
  unfold scoresOf, calculatePredictionScores, calculateFrequencyAnalysis.
  intros Hs. apply in_map_iff in Hs as (analysis & <- & Hin).
  apply in_map_iff in Hin as (a & <- & _).
  eexists. eexists. split; [|cbn [PredictionScore.confidence]; reflexivity].
  cbn [analyzeAnimal FrequencyAnalysis.totalAppearances].
  apply AnalysisFacts.filter_length_le.
Qed.

(** X16. Confidence needs a sample: whatever the scores and the weights, a
    history of at most 10 draws gives no animal the confidence "alta", and a
    history of at most 5 draws gives every animal the confidence "baja". *)
Theorem small_history_gives_low_confidence (today : Z) (todayISODate : string)
    (getTime : string -> Z) (lotteryId : LotteryId)
    (results : list HistoricalResult.t) (customWeights : option PartialWeights) :
  let p := analyzeHistoricalData today todayISODate getTime lotteryId results
             customWeights in
  (length results <= 10 ->
   Forall (fun s => PredictionScore.confidence s <> alta) (allAnimals p))
  /\ (length results <= 5 ->
      Forall (fun s => PredictionScore.confidence s = baja) (allAnimals p)).
Proof.
  cbv zeta. rewrite AnalysisFacts.all_eq. split; intros H.
  - apply (ranked_confidence (fun c => c <> alta)). intros s Hs.
    destruct (scores_confidence _ _ _ _ s Hs) as (analysis & score & Hle & ->).
    apply confidence_needs_appearances. lia.
  - apply (ranked_confidence (fun c => c = baja)). intros s Hs.
    destruct (scores_confidence _ _ _ _ s Hs) as (analysis & score & Hle & ->).
    apply confidence_needs_appearances. lia.
Qed.

(** X17. [getHistoricalData] throws exactly when the store's answer failed
    or holds no record.  Otherwise it hands over the first n records of the
    answer in their order (the most recent n) for a limit n > 0, and all of
    them for no limit or a limit of 0; the list is never empty, and each
    record keeps the date, the hour and the animal of the stored one. *)
Theorem analysis_input_is_a_prefix_of_the_history
    (realResults : RealResults.RealResultsResponse) (maxResults : option nat) :
  let history := RealResults.history realResults in
  let limit := match maxResults with
               | Some (S n) => S n
               | _ => length history
               end in
  (Prediction.getHistoricalData realResults maxResults = None
   <-> RealResults.success realResults = false \/ history = [])
  /\ (forall results,
        Prediction.getHistoricalData realResults maxResults = Some results ->
        results <> []
        /\ length results = Nat.min limit (length history)
        /\ map HistoricalResult.date results = firstn limit (map RealResults.date history)
        /\ map HistoricalResult.hour results
           = firstn limit (map (fun h => Some (RealResults.hour h)) history)
        /\ map HistoricalResult.animal results
           = firstn limit (map RealResults.animal history)).
Proof.
  cbv zeta. unfold Prediction.getHistoricalData.
  destruct (RealResults.success realResults); cbn [negb orb].
  - destruct (RealResults.history realResults) as [|h history] eqn:E; cbn [length Nat.eqb].
    + split; [split; auto|]. discriminate.
    + split; [split; [discriminate | intros [H|H]; discriminate]|].
      intros results [= <-].
      assert (Hcut : (match maxResults with
                      | Some n => if (0 <? n)%nat
                                  then JsArray.sliceFirst n (h :: history)
                                  else h :: history
                      | None => h :: history
                      end)
                     = firstn (match maxResults with
                               | Some (S n) => S n
                               | _ => length (h :: history)
                               end) (h :: history)).
      { destruct maxResults as [[|n]|]; cbn [Nat.ltb Nat.leb];
          try reflexivity; now rewrite firstn_all. }
      rewrite Hcut. rewrite !map_map. cbn [HistoricalResult.date HistoricalResult.hour
                                            HistoricalResult.animal].
      rewrite length_map, length_firstn, !firstn_map.
      repeat split; try reflexivity.
      destruct maxResults as [[|n]|]; discriminate.
  - split; [split; auto|]. discriminate.
Qed.

End ConfidenceFacts.

(** ** Entity resolver: the edit distance *)

Module LevenshteinFacts.
Import LotoVen.

Lemma levRow_length (c2 : N) (str1 : list N) (prev : list nat) (left : nat) :
  length prev = S (length str1) -> length (levRow c2 str1 prev left) = length str1.
Proof.
  revert prev left. induction str1 as [|c1 str1 IH]; intros prev left H; [reflexivity|].
  destruct prev as [|diag [|up prev]]; simpl in H; try lia.
  cbn [levRow length]. rewrite IH; [reflexivity | simpl; lia].
Qed.

Lemma levStep_length (row : list nat) (c2 : N) (str1 : list N) :
  length row = S (length str1) -> length (levStep row c2 str1) = S (length str1).
Proof. intros H. unfold levStep. cbn [length]. now rewrite levRow_length. Qed.

Lemma last_nth (l : list nat) : List.last l 0 = nth (length l - 1) l 0.
Proof.
  induction l as [|x l IH]; [reflexivity|].
  destruct l as [|y l]; [reflexivity|].
  change (List.last (x :: y :: l) 0) with (List.last (y :: l) 0). rewrite IH.
  cbn [length]. replace (S (S (length l)) - 1) with (S (S (length l) - 1)) by lia.
  reflexivity.
Qed.

(** An entry is at most one more than the entry diagonally above it. *)
Lemma levRow_bound (c2 : N) (i k : nat) (str1 : list N) (prev : list nat) (left : nat) :
  length prev = S (length str1) ->
  (forall m, m <= length str1 -> nth m prev 0 <= Nat.max i (k + m)) ->
  forall m, m < length str1 ->
            nth m (levRow c2 str1 prev left) 0 <= Nat.max (S i) (S k + m).
Proof.
  revert prev left k. induction str1 as [|c1 str1 IH]; intros prev left k Hlen Hprev m Hm;
    [simpl in Hm; lia|].
  destruct prev as [|diag [|up prev]]; simpl in Hlen; try lia.
  cbn [levRow]. destruct m as [|m].
  - cbn [nth]. pose proof (Hprev 0 ltac:(simpl; lia)) as H0. cbn [nth] in H0.
    destruct (c2 =? c1)%N; lia.
  - cbn [nth]. simpl in Hm.
    pose proof (IH (up :: prev) (if (c2 =? c1)%N then diag
                                 else Nat.min (Nat.min (diag + 1) (left + 1)) (up + 1))
                   (S k) ltac:(simpl; lia)) as H.
    replace (S k + S m) with (S (S k) + m) by lia. apply H; [|lia].
    intros j Hj. specialize (Hprev (S j) ltac:(simpl; lia)). cbn [nth] in Hprev.
    replace (S k + j) with (k + S j) by lia. exact Hprev.
Qed.

Lemma levStep_bound (c2 : N) (i : nat) (str1 : list N) (row : list nat) :
  length row = S (length str1) ->
  (forall m, m <= length str1 -> nth m row 0 <= Nat.max i m) ->
  forall m, m <= length str1 -> nth m (levStep row c2 str1) 0 <= Nat.max (S i) m.
Proof.
  intros Hlen Hrow m Hm. unfold levStep. destruct m as [|m].
  - cbn [nth]. specialize (Hrow 0 ltac:(lia)).
    destruct row; simpl in *; lia.
  - cbn [nth]. apply (levRow_bound c2 i 0); auto; lia.
Qed.

Lemma fold_bound (str1 str2 : list N) (row : list nat) (i : nat) :
  length row = S (length str1) ->
  (forall m, m <= length str1 -> nth m row 0 <= Nat.max i m) ->
  let final := fold_left (fun row c2 => levStep row c2 str1) str2 row in
  length final = S (length str1)
  /\ forall m, m <= length str1 -> nth m final 0 <= Nat.max (i + length str2) m.
Proof.
  cbv zeta. revert row i. induction str2 as [|c2 str2 IH]; intros row i Hlen Hrow;
    cbn [fold_left length].
  - split; [exact Hlen|]. intros m Hm. rewrite Nat.add_0_r. now apply Hrow.
  - replace (i + S (length str2)) with (S i + length str2) by lia.
    apply IH; [now apply levStep_length | now apply levStep_bound].
Qed.

Lemma seq_row (n : nat) :
  length (seq 0 (S n)) = S n /\ forall m, m <= n -> nth m (seq 0 (S n)) 0 = m.
Proof.
  split; [apply length_seq|]. intros m Hm. rewrite seq_nth; lia.
Qed.

(** X18. The edit distance of the resolver is bounded by the longer of the
    two strings (so the similarity 1 - distance/maxLength never goes below
    0); against the empty string it is the length of the other string. *)
Theorem levenshtein_is_bounded (str1 str2 : list N) :
  levenshteinDistance str1 str2 <= Nat.max (length str1) (length str2)
  /\ levenshteinDistance str1 [] = length str1
  /\ levenshteinDistance [] str2 = length str2.
Proof.
  split; [|split].
  - unfold levenshteinDistance.
    destruct (seq_row (length str1)) as [Hlen Hnth].
    destruct (fold_bound str1 str2 (seq 0 (S (length str1))) 0 Hlen) as [Hl Hb].
    { intros m Hm. rewrite Hnth; lia. }
    rewrite last_nth, Hl. replace (S (length str1) - 1) with (length str1) by lia.
    specialize (Hb (length str1) ltac:(lia)). lia.
  - unfold levenshteinDistance. cbn [fold_left].
    destruct (seq_row (length str1)) as [Hlen Hnth].
    rewrite last_nth, Hlen. replace (S (length str1) - 1) with (length str1) by lia.
    now apply Hnth.
  - unfold levenshteinDistance. cbn [length seq].
    assert (H : forall s k, fold_left (fun row c2 => levStep row c2 []) s [k]
                            = [k + length s]).
    { induction s as [|c s IH]; intros k; cbn [fold_left length].
      - now rewrite Nat.add_0_r.
      - unfold levStep at 2. cbn [hd levRow]. rewrite IH. f_equal. lia. }
    rewrite H. reflexivity.
Qed.

(** On the column of a character equal to the row's character, the entry
    is the one diagonally above. *)
Lemma levRow_match (c2 : N) (str1 : list N) (prev : list nat) (left j : nat) :
  length prev = S (length str1) ->
  nth_error str1 j = Some c2 ->
  nth j (levRow c2 str1 prev left) 0 = nth j prev 0.
Proof.
  revert prev left j. induction str1 as [|c1 str1 IH]; intros prev left j Hlen Hj;
    [destruct j; discriminate|].
  destruct prev as [|diag [|up prev]]; simpl in Hlen; try lia.
  cbn [levRow]. destruct j as [|j].
  - simpl in Hj. injection Hj as ->. cbn [nth]. now rewrite N.eqb_refl.
  - cbn [nth nth_error] in *. rewrite IH; [reflexivity | simpl; lia | exact Hj].
Qed.

(** An entry is 0 only on the column of an equal character, under a 0. *)
Lemma levRow_zero (c2 : N) (str1 : list N) (prev : list nat) (left j : nat) :
  length prev = S (length str1) ->
  j < length str1 ->
  nth j (levRow c2 str1 prev left) 0 = 0 ->
  nth_error str1 j = Some c2 /\ nth j prev 0 = 0.
Proof.
  revert prev left j. induction str1 as [|c1 str1 IH]; intros prev left j Hlen Hj H;
    [simpl in Hj; lia|].
  destruct prev as [|diag [|up prev]]; simpl in Hlen; try lia.
  cbn [levRow] in H. destruct j as [|j].
  - cbn [nth] in *. destruct (N.eqb_spec c2 c1) as [->|_]; [now split | lia].
  - cbn [nth nth_error] in *. simpl in Hj.
    apply (IH (up :: prev) _ j) in H; [exact H | simpl; lia | lia].
Qed.

Lemma firstn_snoc (str1 : list N) (j : nat) (c : N) :
  nth_error str1 j = Some c -> firstn (S j) str1 = firstn j str1 ++ [c].
Proof.
  revert j. induction str1 as [|x str1 IH]; intros [|j] H; try discriminate.
  - simpl in H. injection H as ->. reflexivity.
  - cbn [firstn nth_error] in *. now rewrite (IH j H).
Qed.

Lemma fold_zero (str1 : list N) (rest done : list N) (row : list nat) :
  length row = S (length str1) ->
  (forall j, j <= length str1 -> nth j row 0 = 0 -> firstn j str1 = done) ->
  let final := fold_left (fun row c2 => levStep row c2 str1) rest row in
  forall j, j <= length str1 -> nth j final 0 = 0 -> firstn j str1 = done ++ rest.
Proof.
  cbv zeta. revert done row. induction rest as [|c rest IH]; intros done row Hlen Hrow;
    cbn [fold_left].
  - intros j Hj H. rewrite app_nil_r. now apply Hrow.
  - replace (done ++ c :: rest) with ((done ++ [c]) ++ rest) by now rewrite <- app_assoc.
    apply IH; [now apply levStep_length|].
    intros j Hj H. unfold levStep in H. destruct j as [|j]; [discriminate H|].
    cbn [nth] in H. apply levRow_zero in H as [Hc H0]; [|exact Hlen|lia].
    rewrite (firstn_snoc _ _ _ Hc). f_equal. apply Hrow; [lia | exact H0].
Qed.

Lemma fold_diagonal (str1 : list N) (rest done : list N) (row : list nat) :
  str1 = done ++ rest ->
  length row = S (length str1) ->
  nth (length done) row 0 = 0 ->
  nth (length str1) (fold_left (fun row c2 => levStep row c2 str1) rest row) 0 = 0.
Proof.
  revert done row. induction rest as [|c rest IH]; intros done row Hs Hlen H;
    cbn [fold_left].
  - rewrite Hs, app_nil_r. exact H.
  - apply (IH (done ++ [c])).
    + now rewrite <- app_assoc.
    + now apply levStep_length.
    + rewrite length_app, Nat.add_1_r. unfold levStep. cbn [nth].
      rewrite levRow_match; [exact H | exact Hlen|].
      rewrite Hs. rewrite nth_error_app2; [|lia]. now rewrite Nat.sub_diag.
Qed.

(** X19. The edit distance of the resolver is 0 exactly for equal strings:
    only a normalized token identical to a normalized name has similarity
    1. *)
Theorem levenshtein_zero_iff_equal (str1 str2 : list N) :
  levenshteinDistance str1 str2 = 0 <-> str1 = str2.
Proof.
  unfold levenshteinDistance.
  destruct (seq_row (length str1)) as [Hlen Hnth].
  destruct (fold_bound str1 str2 (seq 0 (S (length str1))) 0 Hlen) as [Hl _].
  { intros m Hm. rewrite Hnth; lia. }
  rewrite last_nth, Hl. replace (S (length str1) - 1) with (length str1) by lia.
  split.
  - intros H.
    pose proof (fold_zero str1 str2 [] (seq 0 (S (length str1))) Hlen) as Hz.
    cbv zeta in Hz. rewrite <- (firstn_all str1). apply Hz; [|lia|exact H].
    intros j Hj H0. rewrite Hnth in H0 by lia. now subst.
  - intros <-. apply (fold_diagonal str1 str1 []); [reflexivity | exact Hlen|].
    cbn [length]. now rewrite Hnth by lia.
Qed.

End LevenshteinFacts.


(** ** The resolver of names and numbers *)

Module ResolverMore.
Import JsText LotoVen Spellings.

Lemma similarity_fold (n : list N) (l : list Animal) (st : option Animal * float) :
  fst (fold_left (similarityStep n) l st) = fst st
  \/ exists a, In a l /\ fst (fold_left (similarityStep n) l st) = Some a.
Proof.
  revert st. induction l as [|b l IH]; intros st; cbn [fold_left].
  - now left.
  - destruct (IH (similarityStep n st b)) as [E | (a & Hin & E)].
    + rewrite E. unfold similarityStep. cbv zeta.
      destruct (_ && _).
      * right. exists b. split; [now left | reflexivity].
      * now left.
    + right. exists a. split; [now right | exact E].
Qed.

Lemma find_In {A} (p : A -> bool) (l : list A) (a : A) :
  find p l = Some a -> In a l.
Proof. intros H. now apply find_some in H. Qed.


Lemma resolved_In (input : string) (a : Animal) :
  findAnimalByNameOrNumber input = Some a -> In a ANIMALS.
Proof.
  intros H. unfold findAnimalByNameOrNumber in H. cbv zeta in H.
  destruct (trim (codes input)) as [|x c]; [discriminate|].
  destruct (matchNumber None (x :: c)) as [digits|].
  - destruct (find _ ANIMALS) as [b|] eqn:E1 in H.
    { injection H as <-. exact (find_In _ _ _ E1). }
    clear E1.
    destruct (find _ ANIMALS) as [b|] eqn:E2 in H.
    { injection H as <-. exact (find_In _ _ _ E2). }
    destruct (_ <? _)%nat in H; [discriminate|].
    destruct (find _ ANIMALS) as [b|] eqn:E3 in H.
    { injection H as <-. exact (find_In _ _ _ E3). }
    destruct (find _ ANIMALS) as [b|] eqn:E4 in H.
    { injection H as <-. exact (find_In _ _ _ E4). }
    destruct (similarity_fold (normalizeLetters (x :: c)) ANIMALS (None, infinity))
      as [E | (b & Hin & E)]; rewrite E in H; [discriminate|].
    now injection H as <-.
  - destruct (find _ ANIMALS) as [b|] eqn:E2 in H.
    { injection H as <-. exact (find_In _ _ _ E2). }
    destruct (_ <? _)%nat in H; [discriminate|].
    destruct (find _ ANIMALS) as [b|] eqn:E3 in H.
    { injection H as <-. exact (find_In _ _ _ E3). }
    destruct (find _ ANIMALS) as [b|] eqn:E4 in H.
    { injection H as <-. exact (find_In _ _ _ E4). }
    destruct (similarity_fold (normalizeLetters (x :: c)) ANIMALS (None, infinity))
      as [E | (b & Hin & E)]; rewrite E in H; [discriminate|].
    now injection H as <-.
Qed.


Lemma find_by_code :
  List.Forall (fun a =>
    find (fun b => codesEqb (codes (Types.number b)) (codes (Types.number a))
                   || codesEqb (codes (Types.id b)) (codes (Types.number a)))
         ANIMALS = Some a) ANIMALS.
Proof. repeat constructor. Qed.

(** X21. a standalone one- or two-digit number in the token decides the
    answer: when it is the code of a catalogue animal, that animal is
    returned, whatever name the token spells. *)
Theorem number_in_token_wins (input : string) (digits : list N) (a : Animal) :
  matchNumber None (trim (codes input)) = Some digits ->
  In a ANIMALS ->
  codes (Types.number a) = padStart2 digits ->
  findAnimalByNameOrNumber input = Some a.
Proof.
  intros Hm Hin Hnum. unfold findAnimalByNameOrNumber. cbv zeta.
  destruct (trim (codes input)) as [|x c]; [discriminate|].
  rewrite Hm, <- Hnum.
  now rewrite (proj1 (List.Forall_forall _ _) find_by_code a Hin).
Qed.

Lemma number_in_token_wins_witness :
  findAnimalByNameOrNumber "Rana 5 (sorteo)" = Some Samples.leon.
Proof.
  apply (number_in_token_wins "Rana 5 (sorteo)" [53%N] Samples.leon).
  - reflexivity.
  - vm_compute. tauto.
  - reflexivity.
Defined.

Lemma low_codes : forallb (fun n => lowerKeeps (N.of_nat n)) (seq 0 128) = true.
Proof. vm_compute. reflexivity. Qed.

Lemma runs_keep : forallb runKeeps lowerRuns = true.
Proof. vm_compute. reflexivity. Qed.

(** Beyond Basic Latin the lower case stays beyond it, the Kelvin sign
    apart. *)
Lemma lower_high (x : N) :
  (128 <= x)%N -> x <> 8490%N -> (128 <= toLowerCode x)%N.
Proof.
  intros Hx Hk. unfold toLowerCode, isUpperAZ.
  replace (x <=? 90)%N with false by (symmetry; apply N.leb_gt; lia).
  rewrite andb_false_r.
  replace (x <? 128)%N with false by (symmetry; apply N.ltb_ge; lia).
  destruct (find (inRun x) lowerRuns) as [[[[first last] stride] target]|] eqn:E;
    [|exact Hx].
  apply find_some in E as [Hin Hrun].
  pose proof (proj1 (forallb_forall _ _) runs_keep _ Hin) as Hkeep.
  unfold runKeeps in Hkeep. unfold inRun in Hrun.
  apply andb_prop in Hrun as [Hrun _]. apply andb_prop in Hrun as [Hf Hl].
  apply N.leb_le in Hf, Hl.
  apply andb_prop in Hkeep as [_ Hkeep]. apply orb_prop in Hkeep as [Ht | Hkelvin].
  - apply N.leb_le in Ht. lia.
  - apply andb_prop in Hkelvin as [H1 H2]. apply N.eqb_eq in H1, H2. lia.
Qed.

Lemma lowerKeeps_plain (x : N) : plainCase x = true -> lowerKeeps x = true.
Proof.
  intros Hp. destruct (N.lt_ge_cases x 128) as [Hlo | Hhi].
  - pose proof (proj1 (forallb_forall _ _) low_codes (N.to_nat x)) as H.
    cbv beta in H. rewrite N2Nat.id in H. apply H, in_seq. lia.
  - assert (Hk : x <> 8490%N).
    { intros ->. discriminate. }
    pose proof (lower_high x Hhi Hk) as Hl.
    assert (Hw : forall y, (128 <= y)%N -> isWord y = false /\ isDigit y = false).
    { intros y Hy. unfold isWord, isDigit, isLowerAZ, isUpperAZ.
      replace (y <=? 57)%N with false by (symmetry; apply N.leb_gt; lia).
      replace (y <=? 122)%N with false by (symmetry; apply N.leb_gt; lia).
      replace (y <=? 90)%N with false by (symmetry; apply N.leb_gt; lia).
      replace (y =? 95)%N with false by (symmetry; apply N.eqb_neq; lia).
      now rewrite !andb_false_r. }
    unfold lowerKeeps.
    destruct (Hw x Hhi) as [-> ->]. destruct (Hw _ Hl) as [-> ->]. reflexivity.
Qed.

(** What [toLowerCase] writes for the code point [x]: its lower case, or
    for the capital sigma one of the two small sigmas. *)
Lemma lowerFrom_cons (before : list N) (x : N) (rest : list N) :
  plainCase x = true ->
  exists o,
    lowerFrom before (x :: rest) = o :: lowerFrom (x :: before) rest
    /\ (o = toLowerCode x \/ (128 <= x /\ 128 <= o)%N).
Proof.
  intros Hp. cbn [lowerFrom]. destruct (N.eqb_spec x 931) as [->|Hx].
  - eexists. split; [reflexivity|]. right. destruct (finalSigma _ _); lia.
  - unfold lowerOf. unfold plainCase in Hp. apply negb_true_iff in Hp.
    apply orb_false_elim in Hp as [_ Hp]. rewrite Hp.
    eexists. split; [reflexivity|]. now left.
Qed.

Lemma high_class (y : N) : (128 <= y)%N -> isWord y = false /\ isDigit y = false.
Proof.
  intros Hy. unfold isWord, isDigit, isLowerAZ, isUpperAZ.
  replace (y <=? 57)%N with false by (symmetry; apply N.leb_gt; lia).
  replace (y <=? 122)%N with false by (symmetry; apply N.leb_gt; lia).
  replace (y <=? 90)%N with false by (symmetry; apply N.leb_gt; lia).
  replace (y =? 95)%N with false by (symmetry; apply N.eqb_neq; lia).
  now rewrite !andb_false_r.
Qed.

(** The class of a code point shows in what is written for it. *)
Lemma written_class (x o : N) :
  plainCase x = true ->
  o = toLowerCode x \/ (128 <= x /\ 128 <= o)%N ->
  isWord o = isWord x /\ isDigit o = isDigit x /\ (isDigit x = true -> o = x).
Proof.
  intros Hp [-> | [Hx Ho]].
  - pose proof (lowerKeeps_plain x Hp) as H. unfold lowerKeeps in H.
    apply andb_prop in H as [H H3]. apply andb_prop in H as [H1 H2].
    apply Bool.eqb_prop in H1, H2. split; [exact H1|]. split; [exact H2|].
    intros Hd. rewrite Hd in H3. now apply N.eqb_eq in H3.
  - destruct (high_class x Hx) as [-> ->]. destruct (high_class o Ho) as [-> ->].
    repeat split. discriminate.
Qed.

Lemma written_alike (x y o : N) :
  plainCase x = true -> plainCase y = true ->
  o = toLowerCode x \/ (128 <= x /\ 128 <= o)%N ->
  o = toLowerCode y \/ (128 <= y /\ 128 <= o)%N ->
  isWord x = isWord y /\ isDigit x = isDigit y /\ (isDigit x = true -> x = y).
Proof.
  intros Px Py Hx Hy.
  destruct (written_class x o Px Hx) as (W1 & D1 & E1).
  destruct (written_class y o Py Hy) as (W2 & D2 & E2).
  split; [congruence|]. split; [congruence|].
  intros Hd. rewrite <- (E1 Hd). apply E2. congruence.
Qed.

Lemma matchNumber_lower (c c' before before' : list N) (prev prev' : option N) :
  forallb plainCase c = true -> forallb plainCase c' = true ->
  lowerFrom before c = lowerFrom before' c' ->
  wordBefore prev = wordBefore prev' ->
  matchNumber prev c = matchNumber prev' c'.
Proof.
  revert c' before before' prev prev'.
  induction c as [|x rest IH]; intros [|y rest'] before before' prev prev' Pc Pc' E Hp;
    try reflexivity.
  - cbn [forallb] in Pc'. apply andb_prop in Pc' as [Py _].
    destruct (lowerFrom_cons before' y rest' Py) as (o & Eo & _).
    rewrite Eo in E. discriminate.
  - cbn [forallb] in Pc. apply andb_prop in Pc as [Px _].
    destruct (lowerFrom_cons before x rest Px) as (o & Eo & _).
    rewrite Eo in E. discriminate.
  - cbn [forallb] in Pc, Pc'.
    apply andb_prop in Pc as [Px Prest]. apply andb_prop in Pc' as [Py Prest'].
    destruct (lowerFrom_cons before x rest Px) as (o & Eo & Ho).
    destruct (lowerFrom_cons before' y rest' Py) as (o' & Eo' & Ho').
    rewrite Eo, Eo' in E. injection E as <- Erest.
    destruct (written_alike x y o Px Py Ho Ho') as (Wxy & Dxy & Exy).
    cbn [matchNumber]. fold (wordBefore prev). fold (wordBefore prev').
    rewrite Hp, <- Dxy.
    assert (Hnext : matchNumber (Some x) rest = matchNumber (Some y) rest').
    { apply (IH rest' (x :: before) (y :: before')); [exact Prest | exact Prest'
                                                     | exact Erest | exact Wxy]. }
    destruct (isDigit x && negb (wordBefore prev')) eqn:Hd; [|exact Hnext].
    apply andb_prop in Hd as [Hd _]. pose proof (Exy Hd) as <-.
    destruct rest as [|d rest2], rest' as [|d' rest2']; try reflexivity.
    + cbn [forallb] in Prest'. apply andb_prop in Prest' as [Pd' _].
      destruct (lowerFrom_cons (x :: before') d' rest2' Pd') as (od & Eod & _).
      rewrite Eod in Erest. discriminate.
    + cbn [forallb] in Prest. apply andb_prop in Prest as [Pd _].
      destruct (lowerFrom_cons (x :: before) d rest2 Pd) as (od & Eod & _).
      rewrite Eod in Erest. discriminate.
    + cbn [forallb] in Prest, Prest'.
      apply andb_prop in Prest as [Pd Prest2]. apply andb_prop in Prest' as [Pd' Prest2'].
      destruct (lowerFrom_cons (x :: before) d rest2 Pd) as (od & Eod & Hod).
      destruct (lowerFrom_cons (x :: before') d' rest2' Pd') as (od' & Eod' & Hod').
      pose proof Erest as Erest0.
      rewrite Eod, Eod' in Erest. injection Erest as <- Erest2.
      destruct (written_alike d d' od Pd Pd' Hod Hod') as (Wd & Dd & Ed).
      rewrite <- Dd, <- Wd.
      assert (Hw : match rest2 with e :: _ => isWord e | [] => false end
                   = match rest2' with e :: _ => isWord e | [] => false end).
      { destruct rest2 as [|e r2], rest2' as [|e' r2']; try reflexivity.
        - cbn [forallb] in Prest2'. apply andb_prop in Prest2' as [Pe' _].
          destruct (lowerFrom_cons (d' :: x :: before') e' r2' Pe') as (oe & Eoe & _).
          rewrite Eoe in Erest2. discriminate.
        - cbn [forallb] in Prest2. apply andb_prop in Prest2 as [Pe _].
          destruct (lowerFrom_cons (d :: x :: before) e r2 Pe) as (oe & Eoe & _).
          rewrite Eoe in Erest2. discriminate.
        - cbn [forallb] in Prest2, Prest2'.
          apply andb_prop in Prest2 as [Pe _]. apply andb_prop in Prest2' as [Pe' _].
          destruct (lowerFrom_cons (d :: x :: before) e r2 Pe) as (oe & Eoe & Hoe).
          destruct (lowerFrom_cons (d' :: x :: before') e' r2' Pe') as (oe' & Eoe' & Hoe').
          rewrite Eoe, Eoe' in Erest2. injection Erest2 as <- _.
          exact (proj1 (written_alike e e' oe Pe Pe' Hoe Hoe')). }
      rewrite Hw.
      destruct (isDigit d && _) eqn:Hd2.
      * apply andb_prop in Hd2 as [Hd2 _]. now rewrite (Ed Hd2).
      * destruct (negb (isWord d)); [reflexivity | exact Hnext].
Qed.

(** X22. The resolver does not see the case of its input: two tokens whose
    trimmed texts have the same lower case resolve alike, provided that
    neither holds the Kelvin sign (U+212A) or the capital I with a dot
    (U+0130).  These two have a lower case that begins with a letter of
    Basic Latin while they are no word characters themselves, and the search
    for a number reads the token before it is put in lower case. *)
Theorem resolution_ignores_case (s s' : string) :
  forallb plainCase (trim (codes s)) = true ->
  forallb plainCase (trim (codes s')) = true ->
  toLowerCase (trim (codes s)) = toLowerCase (trim (codes s')) ->
  findAnimalByNameOrNumber s = findAnimalByNameOrNumber s'.
Proof.
  intros P P' E. unfold findAnimalByNameOrNumber. cbv zeta.
  assert (Hm : matchNumber None (trim (codes s)) = matchNumber None (trim (codes s'))).
  { now apply (matchNumber_lower _ _ [] []). }
  unfold normalizeLetters.
  destruct (trim (codes s)) as [|x c], (trim (codes s')) as [|y c'];
    try reflexivity.
  - cbn [forallb] in P'. apply andb_prop in P' as [Py _].
    destruct (lowerFrom_cons [] y c' Py) as (o & Eo & _).
    unfold toLowerCase in E. rewrite Eo in E. discriminate.
  - cbn [forallb] in P. apply andb_prop in P as [Px _].
    destruct (lowerFrom_cons [] x c Px) as (o & Eo & _).
    unfold toLowerCase in E. rewrite Eo in E. discriminate.
  - rewrite Hm, E. reflexivity.
Qed.

Lemma resolution_ignores_case_witness :
  findAnimalByNameOrNumber "LEÓN" = findAnimalByNameOrNumber "  león ".
Proof. apply resolution_ignores_case; vm_compute; reflexivity. Defined.

(** The two code points that the proviso leaves out do change the answer:
    the Kelvin sign before a 5 leaves the 5 a number of its own, the letter k
    does not; the capital I with a dot after a 5 leaves it one, its lower
    case does not. *)
Example case_matters_at_kelvin_and_dotted_I :
  toLowerCase (codes kelvin5) = codes "k5"
  /\ findAnimalByNameOrNumber kelvin5 = Some Samples.leon
  /\ findAnimalByNameOrNumber "k5" = None
  /\ toLowerCase (codes five_dotted) = toLowerCase (codes five_small_dotted)
  /\ findAnimalByNameOrNumber five_dotted = Some Samples.leon
  /\ findAnimalByNameOrNumber five_small_dotted = None.
Proof. repeat split; vm_compute; reflexivity. Qed.

(** X23. every animal of the catalogue is found under its own name, and
    under that name written without diacritics, in lower or in upper
    case. *)
Theorem catalogue_names_resolve (a : Animal) :
  In a ANIMALS ->
  findAnimalByNameOrNumber (Types.name a) = Some a
  /\ findAnimalByNameOrNumber (plainName a) = Some a
  /\ findAnimalByNameOrNumber (shoutedName a) = Some a.
Proof.
  revert a. apply List.Forall_forall. unfold ANIMALS, animalMap. cbn [map snd].
  repeat (apply List.Forall_cons; [vm_compute; repeat split; reflexivity|]).
  apply List.Forall_nil.
Qed.

Lemma catalogue_names_resolve_witness :
  findAnimalByNameOrNumber "León" = Some Samples.leon
  /\ findAnimalByNameOrNumber "leon" = Some Samples.leon
  /\ findAnimalByNameOrNumber "LEON" = Some Samples.leon.
Proof. apply (catalogue_names_resolve Samples.leon). vm_compute. tauto. Defined.

End ResolverMore.


(** ** Readings of the results page *)

Module PageFacts.
Import JsText LotoVen Extractor Page.

Lemma primaryStep_shape (draws : list Draw) (m : RawMatch) :
  primaryStep draws m = draws
  \/ exists a, findAnimalByNameOrNumber (animalInfo m) = Some a
               /\ primaryStep draws m
                  = draws ++ [{| hour := normalizedHour m; animal := a;
                                 isCompleted := true |}].
Proof.
  unfold primaryStep. destruct (findAnimalByNameOrNumber (animalInfo m)) as [a|].
  - destruct (isDuplicate _ _ _); [now left|]. right. now exists a.
  - now left.
Qed.

Lemma primary_from (P : Draw -> Prop) (l : list RawMatch) (acc : list Draw) :
  (forall d, In d acc -> P d) ->
  (forall m a, In m l -> findAnimalByNameOrNumber (animalInfo m) = Some a ->
     P {| hour := normalizedHour m; animal := a; isCompleted := true |}) ->
  forall d, In d (fold_left primaryStep l acc) -> P d.
Proof.
  revert acc. induction l as [|m l IH]; intros acc Hacc Hnew; cbn [fold_left].
  - exact Hacc.
  - apply IH.
    + destruct (primaryStep_shape acc m) as [-> | (a & Ha & ->)]; [exact Hacc|].
      intros d Hd. apply in_app_or in Hd as [Hd | [<- | []]]; [now apply Hacc|].
      apply (Hnew m a); [now left | exact Ha].
    + intros m' a Hin. apply Hnew. now right.
Qed.

Lemma primary_length (l : list RawMatch) (acc : list Draw) :
  length acc <= length (fold_left primaryStep l acc) <= length acc + length l.
Proof.
  revert acc. induction l as [|m l IH]; intros acc; cbn [fold_left length]; [lia|].
  specialize (IH (primaryStep acc m)).
  destruct (primaryStep_shape acc m) as [E | (a & _ & E)]; rewrite E in *.
  - lia.
  - rewrite length_app in IH. cbn [length] in IH. lia.
Qed.

Lemma primary_none (l : list RawMatch) (acc : list Draw) :
  existsb resolves l = false -> fold_left primaryStep l acc = acc.
Proof.
  revert acc. induction l as [|m l IH]; intros acc H; cbn [fold_left]; [reflexivity|].
  cbn [existsb] in H. apply orb_false_elim in H as [Hm Hl].
  rewrite (IH _ Hl). unfold primaryStep. unfold resolves in Hm.
  now destruct (findAnimalByNameOrNumber (animalInfo m)).
Qed.

Lemma primary_some (l : list RawMatch) :
  existsb resolves l = true -> fold_left primaryStep l [] <> [].
Proof.
  induction l as [|m l IH]; intros H; [discriminate|].
  cbn [fold_left]. destruct (resolves m) eqn:Hm.
  - assert (E : exists a, primaryStep [] m
                 = [{| hour := normalizedHour m; animal := a; isCompleted := true |}]).
    { unfold primaryStep. unfold resolves in Hm.
      destruct (findAnimalByNameOrNumber (animalInfo m)) as [a|]; [|discriminate].
      now exists a. }
    destruct E as [a ->]. intros E.
    pose proof (primary_length l
      [{| hour := normalizedHour m; animal := a; isCompleted := true |}]) as Hlen.
    rewrite E in Hlen. cbn [length] in Hlen. lia.
  - cbn [existsb] in H. rewrite Hm in H. cbn [orb] in H.
    assert (E : primaryStep [] m = []).
    { unfold primaryStep. unfold resolves in Hm.
      now destruct (findAnimalByNameOrNumber (animalInfo m)). }
    rewrite E. now apply IH.
Qed.

Lemma firstPerHour_incl (l : list Draw) (d : Draw) : In d (firstPerHour l) -> In d l.
Proof.
  rewrite ExtractorFacts.firstPerHour_keepFresh. intros H. apply ExtractorFacts.keepFresh_In in H as [_ H].
  now apply find_some in H.
Qed.

Lemma keepFresh_length (seen l : list Draw) : length (keepFresh seen l) <= length l.
Proof.
  revert seen. induction l as [|x l IH]; intros seen; cbn [keepFresh length]; [lia|].
  destruct (existsb _ seen); cbn [length]; specialize (IH (seen ++ [x])); lia.
Qed.

(** X24. what [parseHTML] returns when the pattern yields an animal.  If one
    of the first 30 matches resolves, every returned draw is read from one
    of these matches (its animal is the one the resolver gives for the
    match, its hour the normalised time of the match, and it is completed),
    there are at most 30 of them and the broader search is not used; if none
    resolves, the answer is taken from the broader search alone.  Matches
    beyond the 30th never count. *)
Theorem parsed_draws_are_read_from_the_matches
    (localeCompare : string -> string -> Z)
    (matches : list RawMatch) (broadResults : list Draw) :
  let draws := fst (parseHTML localeCompare matches broadResults) in
  (existsb resolves (firstn 30 matches) = true ->
     (forall d, In d draws -> readFrom matches d /\ In (animal d) ANIMALS)
     /\ length draws <= 30
     /\ draws = fst (parseHTML localeCompare matches []))
  /\ (existsb resolves (firstn 30 matches) = false ->
      draws = JsArray.sort (hourAfter localeCompare) (firstPerHour broadResults))
  /\ parseHTML localeCompare matches broadResults
     = parseHTML localeCompare (firstn 30 matches) broadResults.
Proof.
  cbv zeta. unfold parseHTML, collectDraws. cbv zeta. cbn [fst].
  rewrite firstn_firstn, Nat.min_id.
  set (primary := fold_left primaryStep (firstn 30 matches) []).
  split; [|split]; [| |reflexivity].
  - intros Hsome. apply primary_some in Hsome. fold primary in Hsome.
    destruct primary as [|d0 rest] eqn:Ep; [congruence|].
    cbn [length Nat.eqb]. rewrite <- Ep. clear Hsome.
    split; [|split]; [| |reflexivity].
    + intros d Hd.
      apply (Permutation_in _ (JsArrayFacts.sort_perm _ _)) in Hd.
      apply firstPerHour_incl in Hd. revert d Hd. unfold primary.
      apply primary_from; [intros d []|].
      intros m a Hin Ha. split.
      * exists m. cbn. auto.
      * exact (ResolverMore.resolved_In _ _ Ha).
    + rewrite JsArrayFacts.sort_length, ExtractorFacts.firstPerHour_keepFresh.
      pose proof (keepFresh_length [] primary) as H1.
      pose proof (primary_length (firstn 30 matches) []) as H2.
      pose proof (firstn_le_length 30 matches) as H3.
      fold primary in H2. cbn [length] in H2. lia.
  - intros Hnone. unfold primary. rewrite (primary_none _ _ Hnone). reflexivity.
Qed.

Lemma pad2_table :
  forallb (fun x => forallb (fun y => pad2Ordered x y
                                      && (String.length (pad2 x) =? 2)%nat)
                            (seq 0 60)) (seq 0 60) = true.
Proof. vm_compute. reflexivity. Qed.

Lemma pad2_compare (x y : nat) :
  x < 60 -> y < 60 ->
  String.compare (pad2 x) (pad2 y) = Nat.compare x y /\ String.length (pad2 x) = 2.
Proof.
  intros Hx Hy.
  pose proof (proj1 (forallb_forall _ _) pad2_table x) as H.
  cbv beta in H. specialize (H ltac:(apply in_seq; lia)).
  pose proof (proj1 (forallb_forall _ _) H y ltac:(apply in_seq; lia)) as H'.
  cbv beta in H'. apply andb_prop in H' as [Ho Hl]. apply Nat.eqb_eq in Hl.
  split; [|exact Hl]. unfold pad2Ordered in Ho.
  destruct (String.compare (pad2 x) (pad2 y)), (Nat.compare x y);
    try reflexivity; discriminate.
Qed.

Lemma compare_app (a a' s s' : string) :
  String.length a = String.length a' ->
  String.compare (a ++ s) (a' ++ s')
  = match String.compare a a' with
    | Eq => String.compare s s'
    | c => c
    end.
Proof.
  revert a'. induction a as [|x a IH]; intros [|y a'] Hlen; try discriminate.
  - reflexivity.
  - change (String.compare (String x (a ++ s)) (String y (a' ++ s'))
            = match String.compare (String x a) (String y a') with
              | Eq => String.compare s s'
              | c => c
              end).
    cbn [String.compare]. cbn [String.length] in Hlen.
    destruct (Ascii.compare x y); try reflexivity. apply IH. congruence.
Qed.

Lemma length_append (a b : string) :
  String.length (a ++ b) = String.length a + String.length b.
Proof.
  induction a as [|x a IH]; [reflexivity|].
  change (S (String.length (a ++ b)) = S (String.length a + String.length b)).
  now rewrite IH.
Qed.

Lemma compare_self (s : string) : String.compare s s = Eq.
Proof.
  induction s as [|x s IH]; [reflexivity|]. cbn [String.compare].
  unfold Ascii.compare. now rewrite N.compare_refl.
Qed.

Lemma hour24 (m : RawMatch) :
  clockReading m ->
  exists h, h < 24 /\ h * 60 + minutes m = minuteOfDay m
            /\ normalizedHour m = (pad2 h ++ ":" ++ pad2 (minutes m))%string.
Proof.
  intros [[H1 H12] _].
  exists (hours12 m mod 12 + (if isPM m then 12 else 0)).
  unfold normalizedHour, minuteOfDay. cbv zeta.
  remember (hours12 m) as h eqn:Eh. clear Eh.
  destruct (isPM m); (split; [|split; [reflexivity|]]);
    try (pose proof (Nat.mod_upper_bound h 12); lia).
  - do 13 (destruct h as [|h]; [first [lia | reflexivity]|]). lia.
  - do 13 (destruct h as [|h]; [first [lia | reflexivity]|]). lia.
Qed.

(** X25. the hour text made of a reading of a 12-hour clock has five
    characters and orders as the time of day does: comparing two such texts
    by code units gives the comparison of their minutes of the day (12:xx AM
    being the first hour and 12:xx PM the thirteenth).  So two readings give
    the same text exactly when they denote the same minute. *)
Theorem normalized_hours_order_as_times (m1 m2 : RawMatch) :
  clockReading m1 -> clockReading m2 ->
  String.length (normalizedHour m1) = 5
  /\ String.compare (normalizedHour m1) (normalizedHour m2)
     = Nat.compare (minuteOfDay m1) (minuteOfDay m2)
  /\ (normalizedHour m1 = normalizedHour m2 <-> minuteOfDay m1 = minuteOfDay m2).
Proof.
  intros R1 R2.
  destruct (hour24 m1 R1) as (h1 & Hh1 & Hd1 & E1).
  destruct (hour24 m2 R2) as (h2 & Hh2 & Hd2 & E2).
  destruct R1 as [_ Hm1], R2 as [_ Hm2].
  destruct (pad2_compare h1 h2 ltac:(lia) ltac:(lia)) as [Ch Lh1].
  destruct (pad2_compare h2 h1 ltac:(lia) ltac:(lia)) as [_ Lh2].
  destruct (pad2_compare (minutes m1) (minutes m2) ltac:(lia) ltac:(lia)) as [Cm Lm1].
  assert (Hcmp : String.compare (normalizedHour m1) (normalizedHour m2)
                 = Nat.compare (minuteOfDay m1) (minuteOfDay m2)).
  { rewrite E1, E2, <- Hd1, <- Hd2.
    rewrite (compare_app (pad2 h1) (pad2 h2)) by congruence.
    rewrite Ch.
    change (":" ++ pad2 (minutes m1))%string with (String ":" (pad2 (minutes m1))).
    change (":" ++ pad2 (minutes m2))%string with (String ":" (pad2 (minutes m2))).
    cbn [String.compare]. change (Ascii.compare ":" ":") with Eq. cbv iota.
    rewrite Cm.
    destruct (Nat.compare_spec h1 h2) as [Eh|Lh|Lh];
      destruct (Nat.compare_spec (minutes m1) (minutes m2)) as [Em|Lm|Lm];
      symmetry; first [apply Nat.compare_eq_iff | apply Nat.compare_lt_iff
                       | apply Nat.compare_gt_iff]; lia. }
  split; [|split; [exact Hcmp|]].
  - rewrite E1, !length_append, Lh1, Lm1. reflexivity.
  - rewrite <- (Nat.compare_eq_iff (minuteOfDay m1)), <- Hcmp.
    split; [intros ->; apply compare_self | apply String.compare_eq_iff].
Qed.

Lemma normalized_hours_order_as_times_witness :
  String.compare (normalizedHour halfPastMidnight) (normalizedHour halfPastNoon) = Lt.
Proof.
  apply (normalized_hours_order_as_times halfPastMidnight halfPastNoon);
    unfold clockReading; cbn; lia.
Defined.

End PageFacts.


(** ** The broader search of the results page *)

Module BroadSearchFacts.
Import LotoVen Extractor Page BroadSearch.

Lemma closestStep_keeps (hourPos : nat) (seen : list Candidate)
    (st : option Animal * option nat) (x : Candidate) :
  closestAfter hourPos seen st ->
  closestAfter hourPos (seen ++ [x]) (closestStep hourPos st x).
Proof.
  intros [[-> Hfar] | (before & c & after & -> & -> & Hlt & Hb & Ha)];
    unfold closestStep; cbv zeta; cbn [snd].
  - rewrite andb_true_r. destruct (Nat.ltb_spec (distanceTo hourPos x) 200) as [H|H].
    + right. exists seen, x, []. repeat split; auto.
      * intros c' Hc'. specialize (Hfar c' Hc'). lia.
      * intros c' [].
    + left. split; [reflexivity|]. intros c Hc.
      apply in_app_or in Hc as [Hc | [<- | []]]; auto.
  - destruct (Nat.ltb_spec (distanceTo hourPos x) 200) as [H|H]; cbn [andb].
    + destruct (Nat.ltb_spec (distanceTo hourPos x) (distanceTo hourPos c)) as [H'|H'].
      * right. exists (before ++ c :: after), x, []. repeat split; auto.
        -- intros c' Hc'. apply in_app_or in Hc' as [Hc' | [<- | Hc']].
           ++ specialize (Hb c' Hc'). lia.
           ++ exact H'.
           ++ specialize (Ha c' Hc'). lia.
        -- intros c' [].
      * right. exists before, c, (after ++ [x]). repeat split; auto.
        -- now rewrite <- app_assoc.
        -- intros c' Hc'. apply in_app_or in Hc' as [Hc' | [<- | []]]; auto.
    + right. exists before, c, (after ++ [x]). repeat split; auto.
      * now rewrite <- app_assoc.
      * intros c' Hc'. apply in_app_or in Hc' as [Hc' | [<- | []]]; auto. lia.
Qed.

Lemma closest_fold (hourPos : nat) (l seen : list Candidate)
    (st : option Animal * option nat) :
  closestAfter hourPos seen st ->
  closestAfter hourPos (seen ++ l) (fold_left (closestStep hourPos) l st).
Proof.
  revert seen st. induction l as [|x l IH]; intros seen st H; cbn [fold_left].
  - now rewrite app_nil_r.
  - replace (seen ++ x :: l) with ((seen ++ [x]) ++ l) by now rewrite <- app_assoc.
    apply IH, closestStep_keeps, H.
Qed.

Lemma closest_found (hourPos : nat) (candidates : list Candidate) (a : Animal) :
  fst (fold_left (closestStep hourPos) candidates (None, None)) = Some a ->
  exists c, firstNearest hourPos candidates c /\ a = candidate c.
Proof.
  intros H.
  destruct (closest_fold hourPos candidates [] (None, None)) as
    [[E _] | (before & c & after & Hs & E & Hlt & Hb & Ha)].
  - left. split; [reflexivity | intros c []].
  - rewrite E in H. discriminate.
  - rewrite E in H. cbn [fst] in H. injection H as <-.
    exists c. split; [|reflexivity]. exists before, after. auto.
Qed.

Lemma closest_none (hourPos : nat) (candidates : list Candidate) :
  fst (fold_left (closestStep hourPos) candidates (None, None)) = None ->
  forall c, In c candidates -> 200 <= distanceTo hourPos c.
Proof.
  intros H.
  destruct (closest_fold hourPos candidates [] (None, None)) as
    [[_ Hfar] | (before & c & after & Hs & E & _)].
  - left. split; [reflexivity | intros c []].
  - exact Hfar.
  - rewrite E in H. discriminate.
Qed.

Lemma hourStep_shape (candidates : list Candidate) (draws : list Draw) (hm : HourMatch) :
  hourStep candidates draws hm = draws
  \/ exists d, hourStep candidates draws hm = draws ++ [d]
               /\ drawnAt candidates hm d
               /\ existsb (hourTaken (hour d)) draws = false.
Proof.
  unfold hourStep. destruct (hourPosition hm) as [hourPos|] eqn:Ep; [|now left].
  destruct (fst (fold_left _ candidates _)) as [a|] eqn:Ea; [|now left].
  cbv zeta. destruct (existsb _ draws) eqn:Ex; [now left|].
  right. eexists. split; [reflexivity|]. split; [|exact Ex].
  destruct (closest_found _ _ _ Ea) as (c & Hc & ->).
  exists hourPos, c. cbn. auto.
Qed.

Lemma hours_fold (candidates : list Candidate) (l : list HourMatch) (acc : list Draw)
    (P : Draw -> Prop) :
  (forall d, In d acc -> P d) ->
  (forall hm d, In hm l -> drawnAt candidates hm d -> P d) ->
  List.NoDup (map hour acc) ->
  (forall d, In d (fold_left (hourStep candidates) l acc) -> P d)
  /\ List.NoDup (map hour (fold_left (hourStep candidates) l acc)).
Proof.
  revert acc. induction l as [|hm l IH]; intros acc Hacc Hnew Hnd; cbn [fold_left].
  - auto.
  - apply IH.
    + destruct (hourStep_shape candidates acc hm) as [-> | (d & -> & Hd & _)]; [exact Hacc|].
      intros d' Hd'. apply in_app_or in Hd' as [Hd' | [<- | []]]; [now apply Hacc|].
      apply (Hnew hm); [now left | exact Hd].
    + intros hm' d Hin. apply Hnew. now right.
    + destruct (hourStep_shape candidates acc hm) as [-> | (d & -> & _ & Hfresh)]; [exact Hnd|].
      rewrite map_app. cbn [map].
      apply NoDup_ListNoDup. apply NoDup_app. repeat split.
      * now apply NoDup_ListNoDup.
      * intros h Hin Hin'. apply list_elem_of_In in Hin, Hin'.
        destruct Hin' as [<- | []].
        apply in_map_iff in Hin as (d' & Hh & Hd').
        assert (existsb (hourTaken (hour d)) acc = true) as E.
        { apply existsb_exists. exists d'. split; [exact Hd'|].
          unfold hourTaken. now apply String.eqb_eq. }
        congruence.
      * apply NoDup_ListNoDup. constructor; [intros [] | constructor].
Qed.

Lemma keepFresh_all (seen l : list Draw) :
  List.NoDup (map hour l) ->
  (forall d, In d l -> existsb (sameHour (hour d)) seen = false) ->
  keepFresh seen l = l.
Proof.
  revert seen. induction l as [|x l IH]; intros seen Hnd Hseen; cbn [keepFresh]; [reflexivity|].
  rewrite (Hseen x) by now left. f_equal.
  cbn [map] in Hnd. apply List.NoDup_cons_iff in Hnd as [Hx Hnd].
  apply IH; [exact Hnd|].
  intros d Hd. rewrite ExtractorFacts.existsb_snoc, (Hseen d) by now right.
  cbn [orb]. unfold sameHour. apply String.eqb_neq. intros E.
  apply Hx. rewrite E. now apply in_map.
Qed.

(** X26. every draw of the broader search pairs an hour found in the page
    with the candidate nearest to it: a name or number of the catalogue
    standing less than 200 characters from the hour, strictly nearer than
    every candidate listed before it and at least as near as every one
    listed after it.  No hour is given twice.  An hour with no candidate
    within 200 characters gives no draw. *)
Theorem broad_search_takes_nearest_candidate
    (hourMatches : list HourMatch) (candidates : list Candidate) :
  let draws := aggressiveHTMLParse hourMatches candidates in
  (forall d, In d draws -> exists hm, In hm hourMatches /\ drawnAt candidates hm d)
  /\ List.NoDup (map hour draws)
  /\ ((forall hm hourPos c, In hm hourMatches -> hourPosition hm = Some hourPos ->
         In c candidates -> 200 <= distanceTo hourPos c) ->
      draws = []).
Proof.
  cbv zeta. unfold aggressiveHTMLParse.
  destruct (hours_fold candidates hourMatches []
              (fun d => exists hm, In hm hourMatches /\ drawnAt candidates hm d))
    as [Hall Hnd].
  - intros d [].
  - intros hm d Hin Hd. now exists hm.
  - constructor.
  - split; [exact Hall | split; [exact Hnd|]].
    intros Hfar. destruct (fold_left _ hourMatches []) as [|d rest]; [reflexivity|].
    destruct (Hall d (or_introl eq_refl)) as (hm & Hin & hourPos & c & Hp & Hn & _).
    destruct Hn as (before & after & Hc & Hlt & _).
    specialize (Hfar hm hourPos c Hin Hp).
    rewrite Hc in Hfar. specialize (Hfar ltac:(apply in_or_app; right; now left)). lia.
Qed.

(** X27. when none of the first 30 matches of the pattern resolves, every
    draw of the broader search is returned by [parseHTML], and nothing else:
    its final filter drops none of them. *)
Theorem broad_search_is_returned_whole
    (localeCompare : string -> string -> Z)
    (matches : list RawMatch)
    (hourMatches : list HourMatch) (candidates : list Candidate) :
  existsb resolves (firstn 30 matches) = false ->
  Permutation
    (fst (parseHTML localeCompare matches (aggressiveHTMLParse hourMatches candidates)))
    (aggressiveHTMLParse hourMatches candidates).
Proof.
  intros Hnone. unfold parseHTML, collectDraws. cbv zeta. cbn [fst].
  rewrite (PageFacts.primary_none _ _ Hnone). cbn [length Nat.eqb app].
  assert (Hk : firstPerHour (aggressiveHTMLParse hourMatches candidates)
               = aggressiveHTMLParse hourMatches candidates).
  { rewrite ExtractorFacts.firstPerHour_keepFresh. apply keepFresh_all.
    - unfold aggressiveHTMLParse.
      apply (hours_fold candidates hourMatches [] (fun _ => True)); auto. constructor.
    - reflexivity. }
  rewrite Hk. apply JsArrayFacts.sort_perm.
Qed.

Lemma broad_search_is_returned_whole_witness :
  Permutation
    (fst (parseHTML Host.codeUnitCompare
            [{| animalInfo := "Dragón"; hours12 := 9; minutes := 0; isPM := false |}]
            (aggressiveHTMLParse sampleHours sampleCandidates)))
    (aggressiveHTMLParse sampleHours sampleCandidates).
Proof. apply broad_search_is_returned_whole. vm_compute. reflexivity. Defined.

End BroadSearchFacts.


(** ** The schedule of the day *)

Module ScheduleFacts.
Import LotoVen Lottery.

Lemma findIndex_from_ge {A} (p : A -> bool) (i k : nat) (l : list A) :
  findIndex_from p i l = Some k -> i <= k.
Proof.
  revert i. induction l as [|x l IH]; intros i; cbn [findIndex_from]; [discriminate|].
  destruct (p x); [intros [= ->]; lia|]. intros H. apply IH in H. lia.
Qed.

Lemma findIndex_from_None {A} (p : A -> bool) (i : nat) (l : list A) (x : A) :
  findIndex_from p i l = None -> In x l -> p x = false.
Proof.
  revert i. induction l as [|y l IH]; intros i; cbn [findIndex_from]; [intros _ []|].
  destruct (p y) eqn:E; [discriminate|]. intros H [<- | Hin]; [exact E|]. eauto.
Qed.

(** The first element that satisfies [p] is the one whose index
    [findIndex] gives. *)
Lemma findIndex_is_first (p : string -> bool) (i : nat) (l : list string) (h : string) :
  List.NoDup l -> In h l ->
  (findIndex_from p i l = findIndex_from (fun x => String.eqb x h) i l
   <-> find p l = Some h).
Proof.
  revert i. induction l as [|x l IH]; intros i Hnd Hin; [destruct Hin|].
  apply List.NoDup_cons_iff in Hnd as [Hx Hnd].
  cbn [findIndex_from find].
  destruct (p x) eqn:Hp, (String.eqb_spec x h) as [E|E].
  - subst. tauto.
  - split; [|intros [= ?]; contradiction].
    intros H. symmetry in H. apply findIndex_from_ge in H. lia.
  - subst. split.
    + intros H. apply findIndex_from_ge in H. lia.
    + intros H. apply find_some in H as [H _]. contradiction.
  - destruct Hin as [?|Hin]; [contradiction|]. now apply IH.
Qed.

Lemma filter_one {A} (f : A -> string) (q : A -> bool) (c : string) (l : list A) :
  List.NoDup (map f l) ->
  (forall x, In x l -> q x = true -> f x = c) ->
  length (List.filter q l) <= 1.
Proof.
  induction l as [|x l IH]; intros Hnd Hq; cbn [List.filter length map] in *; [lia|].
  apply List.NoDup_cons_iff in Hnd as [Hx Hnd].
  destruct (q x) eqn:Ex.
  - assert (E : List.filter q l = []).
    { destruct (List.filter q l) as [|y r] eqn:Ef; [reflexivity|].
      assert (Hy : In y (List.filter q l)) by (rewrite Ef; now left).
      apply filter_In in Hy as [Hy Hqy]. exfalso. apply Hx.
      rewrite (Hq x (or_introl eq_refl) Ex), <- (Hq y (or_intror Hy) Hqy).
      now apply in_map. }
    rewrite E. cbn. lia.
  - apply IH; [exact Hnd|]. intros y Hy. apply Hq. now right.
Qed.

Lemma DRAW_HOURS_NoDup : List.NoDup DRAW_HOURS.
Proof. apply NoDup_ListNoDup, (bool_decide_unpack _). vm_compute. exact I. Qed.

Lemma schedule_hours (now : nat) (realResults : list PartialDraw) :
  map Types.hour (getDrawSchedule now realResults) = DRAW_HOURS.
Proof. unfold getDrawSchedule. rewrite map_map. cbn [Types.hour]. apply map_id. Qed.

Lemma schedule_next (now : nat) (realResults : list PartialDraw) (d : Types.DrawResult) :
  In d (getDrawSchedule now realResults) ->
  (Types.isNext d = true
   <-> find (upcoming now realResults) DRAW_HOURS = Some (Types.hour d)).
Proof.
  unfold getDrawSchedule. intros Hin. apply in_map_iff in Hin as (h & <- & Hin).
  cbv zeta. cbn [Types.isNext Types.hour].
  pose proof (findIndex_is_first (upcoming now realResults) 0 DRAW_HOURS h
                DRAW_HOURS_NoDup Hin) as Hfirst.
  fold (findIndex (upcoming now realResults) DRAW_HOURS) in Hfirst.
  fold (indexOf h DRAW_HOURS) in Hfirst.
  rewrite <- Hfirst. split.
  - intros H. apply andb_prop in H as [_ H]. now apply bool_decide_eq_true in H.
  - intros H. apply andb_true_intro. split; [|now apply bool_decide_eq_true].
    apply Hfirst, find_some in H as [_ H]. unfold upcoming in H. cbv zeta in H.
    apply andb_prop in H as [Hlt Hno]. apply Nat.ltb_lt in Hlt.
    apply negb_true_iff in Hno. rewrite Hno. cbn [orb].
    apply negb_true_iff, Nat.leb_gt. lia.
Qed.

(** X28. the schedule always lists the eleven draw hours in order.  A draw
    is marked as next exactly when it is the first hour of the table that is
    still to come and has no result; so at most one draw is marked, it is
    not completed and carries no animal, and no draw is marked when every
    hour still to come already has a result.  A draw that carries an animal
    is completed. *)
Theorem schedule_marks_first_upcoming_draw (now : nat) (realResults : list PartialDraw) :
  let schedule := getDrawSchedule now realResults in
  map Types.hour schedule = DRAW_HOURS
  /\ (forall d, In d schedule ->
        (Types.isNext d = true
         <-> find (upcoming now realResults) DRAW_HOURS = Some (Types.hour d)))
  /\ length (List.filter Types.isNext schedule) <= 1
  /\ (forall d, In d schedule -> Types.isNext d = true ->
        Types.isCompleted d = false /\ Types.animal d = None /\ now < drawMinutes d)
  /\ (forall d, In d schedule -> Types.animal d <> None -> Types.isCompleted d = true).
Proof.
  cbv zeta. split; [apply schedule_hours|]. split; [apply schedule_next|].
  split; [|split].
  - destruct (find (upcoming now realResults) DRAW_HOURS) as [h0|] eqn:E.
    + apply (filter_one Types.hour Types.isNext h0).
      * rewrite schedule_hours. exact DRAW_HOURS_NoDup.
      * intros d Hin Hn. apply (schedule_next now realResults d Hin) in Hn.
        congruence.
    + apply (filter_one Types.hour Types.isNext "").
      * rewrite schedule_hours. exact DRAW_HOURS_NoDup.
      * intros d Hin Hn. apply (schedule_next now realResults d Hin) in Hn.
        congruence.
  - intros d Hin Hn. pose proof (proj1 (schedule_next now realResults d Hin) Hn) as Hf.
    apply find_some in Hf as [_ Hu]. unfold upcoming in Hu. cbv zeta in Hu.
    apply andb_prop in Hu as [Hlt Hno]. apply Nat.ltb_lt in Hlt.
    apply negb_true_iff in Hno.
    unfold getDrawSchedule in Hin. apply in_map_iff in Hin as (h & <- & Hin).
    cbv zeta in *. cbn [Types.isCompleted Types.animal Types.hour] in *.
    unfold drawMinutes. cbn [Types.hour].
    destruct (resultAt realResults h); [discriminate|]. cbn [truthy orb].
    repeat split; [apply Nat.leb_gt; lia | exact Hlt].
  - intros d Hin Ha.
    unfold getDrawSchedule in Hin. apply in_map_iff in Hin as (h & <- & Hin).
    cbv zeta in *. cbn [Types.isCompleted Types.animal] in *.
    destruct (resultAt realResults h); [reflexivity | contradiction].
Qed.

End ScheduleFacts.


(** ** Saving the rows of the history pages *)

Module ScraperFacts.
Import LoteriaDehoy Scraper.

Lemma existsb_sameId (x : AppItem) (l : list AppItem) :
  existsb (sameId x) l = true <-> In (id x) (map id l).
Proof.
  rewrite existsb_exists, in_map_iff. unfold sameId.
  split; intros (y & H1 & H2); exists y.
  - apply String.eqb_eq in H2. auto.
  - split; [exact H2 | now apply String.eqb_eq].
Qed.

Lemma existsb_sameId_false (x : AppItem) (l : list AppItem) :
  existsb (sameId x) l = false <-> ~ In (id x) (map id l).
Proof.
  rewrite <- existsb_sameId. destruct (existsb (sameId x) l); split; congruence.
Qed.

Lemma filteri_keepNew (self pre suf : list AppItem) :
  self = pre ++ suf ->
  LotoVen.filteri_from
    (fun item index => bool_decide (LotoVen.findIndex (sameId item) self = Some index))
    (length pre) suf
  = keepNew pre suf.
Proof.
  revert pre. induction suf as [|x suf IH]; intros pre Hself; simpl; [reflexivity|].
  assert (Hnext : self = (pre ++ [x]) ++ suf) by now rewrite <- app_assoc.
  specialize (IH (pre ++ [x]) Hnext).
  rewrite length_app, Nat.add_1_r in IH. rewrite IH, Hself.
  rewrite (ExtractorFacts.findIndex_here (sameId x) pre x suf)
    by apply String.eqb_refl.
  now destruct (existsb (sameId x) pre).
Qed.

Lemma unique_keepNew (arr : list AppItem) : unique arr = keepNew [] arr.
Proof. unfold unique. now apply (filteri_keepNew arr []). Qed.

Lemma keepNew_app (seen l1 l2 : list AppItem) :
  keepNew seen (l1 ++ l2) = keepNew seen l1 ++ keepNew (seen ++ l1) l2.
Proof.
  revert seen. induction l1 as [|x l1 IH]; intros seen; cbn [keepNew app].
  - now rewrite app_nil_r.
  - rewrite IH, <- app_assoc. cbn [app]. now destruct (existsb (sameId x) seen).
Qed.

Lemma keepNew_all (seen l : list AppItem) :
  List.NoDup (map id l) ->
  (forall d, In d l -> ~ In (id d) (map id seen)) ->
  keepNew seen l = l.
Proof.
  revert seen. induction l as [|x l IH]; intros seen Hnd Hseen; cbn [keepNew]; [reflexivity|].
  rewrite (proj2 (existsb_sameId_false x seen)) by (apply Hseen; now left).
  f_equal. cbn [map] in Hnd. apply List.NoDup_cons_iff in Hnd as [Hx Hnd].
  apply IH; [exact Hnd|]. intros d Hd. rewrite map_app, in_app_iff. cbn [map In].
  intros [H | [H | []]]; [now apply (Hseen d (or_intror Hd))|].
  apply Hx. rewrite H. now apply in_map.
Qed.

Lemma keepNew_none (seen l : list AppItem) :
  (forall d, In d l -> In (id d) (map id seen)) ->
  keepNew seen l = [].
Proof.
  revert seen. induction l as [|x l IH]; intros seen Hseen; cbn [keepNew]; [reflexivity|].
  rewrite (proj2 (existsb_sameId x seen)) by (apply Hseen; now left).
  apply IH. intros d Hd. rewrite map_app, in_app_iff. left. apply Hseen. now right.
Qed.

Lemma keepNew_ids (seen l : list AppItem) (s : string) :
  In s (map id (seen ++ keepNew seen l)) <-> In s (map id (seen ++ l)).
Proof.
  revert seen. induction l as [|x l IH]; intros seen; cbn [keepNew]; [tauto|].
  replace (seen ++ x :: l) with ((seen ++ [x]) ++ l) by now rewrite <- app_assoc.
  rewrite <- IH. destruct (existsb (sameId x) seen) eqn:E.
  - apply existsb_sameId in E. rewrite !map_app, !in_app_iff. cbn [map In].
    split; [tauto|]. intros [[H | [<- | []]] | H]; auto.
  - replace (seen ++ x :: keepNew (seen ++ [x]) l)
      with ((seen ++ [x]) ++ keepNew (seen ++ [x]) l) by now rewrite <- app_assoc.
    tauto.
Qed.

Lemma keepNew_incl (seen l : list AppItem) (d : AppItem) :
  In d (keepNew seen l) -> In d l.
Proof.
  revert seen. induction l as [|x l IH]; intros seen; cbn [keepNew]; [tauto|].
  destruct (existsb (sameId x) seen); cbn [In]; intros H.
  - right. eauto.
  - destruct H as [H | H]; [now left | right; eauto].
Qed.

Lemma keepNew_NoDup (seen l : list AppItem) :
  List.NoDup (map id (keepNew seen l))
  /\ forall d, In d (keepNew seen l) -> ~ In (id d) (map id seen).
Proof.
  revert seen. induction l as [|x l IH]; intros seen; cbn [keepNew].
  - split; [constructor | intros d []].
  - destruct (IH (seen ++ [x])) as [Hnd Hfresh].
    assert (Hseen : forall d, In d (keepNew (seen ++ [x]) l) ->
                              ~ In (id d) (map id seen) /\ id d <> id x).
    { intros d Hd. specialize (Hfresh d Hd). rewrite map_app, in_app_iff in Hfresh.
      cbn [map In] in Hfresh. split; [tauto | intros E; apply Hfresh; right; left; congruence]. }
    destruct (existsb (sameId x) seen) eqn:E.
    + split; [exact Hnd|]. intros d Hd. now apply Hseen.
    + cbn [map]. split.
      * constructor; [|exact Hnd]. intros Hin. apply in_map_iff in Hin as (d & Hid & Hd).
        now apply (Hseen d Hd).
      * intros d [<- | Hd]; [now apply existsb_sameId_false | now apply Hseen].
Qed.

Lemma converted_ids (clock clock' : nat -> Z) (rows : list HistoricalResult) :
  map id (convertirAFormatoApp clock rows) = map id (convertirAFormatoApp clock' rows).
Proof.
  unfold convertirAFormatoApp, JsArray.mapi. generalize 0.
  induction rows as [|r rows IH]; intros i; cbn [JsArray.mapi_from map]; [reflexivity|].
  rewrite IH. reflexivity.
Qed.

(** X29. saving rows keeps one item for every identifier, the first one:
    what is stored afterwards has no identifier twice and has exactly the
    identifiers of the stored items and of the converted rows; stored items
    whose identifiers were distinct all stay, in their order, before what is
    added; and saving the same rows once more changes none of the stored
    items.  When the stored text cannot be read, nothing is written. *)
Theorem saving_keeps_first_item_of_each_id
    (st : Storage) (clock : nat -> Z) (savedAt : Z) (rows : list HistoricalResult) :
  let after := guardarResultados st clock savedAt rows in
  (historicalResults st = Malformed -> after = st)
  /\ (historicalResults st <> Malformed ->
      historicalResults after = Items (itemsOf after)
      /\ List.NoDup (map id (itemsOf after))
      /\ (forall s, In s (map id (itemsOf after))
                    <-> In s (map id (itemsOf st ++ convertirAFormatoApp clock rows)))
      /\ (List.NoDup (map id (itemsOf st)) ->
          exists added, itemsOf after = itemsOf st ++ added
                        /\ incl added (convertirAFormatoApp clock rows))
      /\ (forall clock' savedAt',
            itemsOf (guardarResultados after clock' savedAt' rows) = itemsOf after)).
Proof.
  cbv zeta. split.
  - intros E. unfold guardarResultados. now rewrite E.
  - intros Hok.
    set (existing := itemsOf st).
    set (converted := convertirAFormatoApp clock rows).
    assert (E : guardarResultados st clock savedAt rows
                = {| historicalResults := Items (keepNew [] (existing ++ converted));
                     lastHistoricalUpdate := Some savedAt |}).
    { unfold guardarResultados, existing, itemsOf. cbv zeta.
      destruct (historicalResults st); [|contradiction|]; now rewrite unique_keepNew. }
    rewrite E. unfold itemsOf at 1 2 3 4. cbn [historicalResults].
    split; [reflexivity|]. split; [apply keepNew_NoDup|].
    split; [intros s; apply (keepNew_ids [] (existing ++ converted) s)|]. split.
    + intros Hnd. exists (keepNew existing converted). split.
      * rewrite keepNew_app. cbn [app]. f_equal. apply keepNew_all; [exact Hnd|].
        intros d _ [].
      * intros d. apply keepNew_incl.
    + intros clock' savedAt'.
      pose proof (proj1 (keepNew_NoDup [] (existing ++ converted))) as Hnd.
      pose proof (keepNew_ids [] (existing ++ converted)) as Hids.
      set (saved := keepNew [] (existing ++ converted)) in *.
      unfold guardarResultados. cbv zeta. cbn [historicalResults itemsOf].
      rewrite unique_keepNew, (keepNew_app [] saved). cbn [app].
      rewrite (keepNew_all [] saved Hnd) by (intros d _ []).
      rewrite keepNew_none; [apply app_nil_r|].
      intros d Hd. apply (Hids (id d)). cbn [app].
      rewrite map_app, in_app_iff. right.
      unfold converted. rewrite (converted_ids clock clock'). now apply in_map.
Qed.

(** Of two rows of the same draw the first is kept, also when the day is
    written with and without its leading zero. *)
Example saving_sample_rows :
  map id (itemsOf (guardarResultados emptyStorage (fun _ => 0%Z) 1%Z rows))
  = ["lotto-activo-2026-01-05-09:00"; "guacharo-activo-2026-01-05-09:00"].
Proof. vm_compute. reflexivity. Qed.

End ScraperFacts.


(** ** The hot and cold analysis *)

Module EngineFacts.
Import Engine.

Section Places.
Variable animalId : string.

Local Abbreviation places := (placesFrom animalId).

Lemma places_count (n i : nat) (l : list Entry) :
  length (List.filter (fun p => (snd p <? n)%nat) (places i l)) <= n - i.
Proof.
  revert i. induction l as [|h l IH]; intros i; unfold placesFrom;
    cbn [JsArray.mapi_from List.filter fst length]; [lia|].
  fold (places (S i) l). specialize (IH (S i)).
  destruct (isOf animalId h); [|lia].
  cbn [List.filter snd]. destruct (Nat.ltb_spec i n); cbn [length]; lia.
Qed.

Lemma places_first (i : nat) (l : list Entry) :
  match places i l with
  | [] => streakLoop animalId l = length l
          /\ forall h, In h l -> isOf animalId h = false
  | p :: _ =>
    snd p = i + streakLoop animalId l
    /\ streakLoop animalId l < length l
    /\ nth_error l (streakLoop animalId l) = Some (fst p)
    /\ isOf animalId (fst p) = true
    /\ forall n, length (List.filter (fun q => (snd q <? n)%nat) (places i l)) <= n - snd p
  end.
Proof.
  revert i. induction l as [|h l IH]; intros i; unfold placesFrom;
    cbn [JsArray.mapi_from List.filter fst].
  - split; [reflexivity | intros h []].
  - fold (places (S i) l). cbn [streakLoop length].
    destruct (isOf animalId h) eqn:E.
    + cbn [snd fst nth_error]. repeat split; try lia; try assumption.
      intros n. pose proof (places_count n i (h :: l)) as H. unfold placesFrom in H.
      cbn [JsArray.mapi_from List.filter fst] in H. rewrite E in H. exact H.
    + specialize (IH (S i)). destruct (places (S i) l) as [|p rest].
      * destruct IH as [IH1 IH2]. split; [now rewrite IH1|].
        intros x [<- | Hx]; auto.
      * destruct IH as (H1 & H2 & H3 & H4 & H5).
        cbn [nth_error]. repeat split; try lia; assumption.
Qed.
End Places.

(** X30. in the hot and cold analysis the two fields [streak] and
    [lastSeen] of an animal always hold the same number: the count of kept
    records before the first record of the animal, or the count of all of
    them (at most 200) when there is none.  An animal marked hot has
    appeared among the first 18 records. *)
Theorem streak_is_last_seen (history : list Entry) (animal : Animal) :
  let analysis := hotCold (kept history) animal in
  streak analysis = lastSeen analysis
  /\ lastSeen analysis <= length (kept history) <= 200
  /\ (forall k h, k < lastSeen analysis -> nth_error (kept history) k = Some h ->
        isOf (Types.id animal) h = false)
  /\ (lastSeen analysis < length (kept history) ->
      exists h, nth_error (kept history) (lastSeen analysis) = Some h
                /\ isOf (Types.id animal) h = true)
  /\ (isHot analysis = true -> lastSeen analysis < 18).
Proof.
  cbv zeta. unfold hotCold. cbv zeta. cbn [streak lastSeen isHot].
  assert (Hlen : length (kept history) <= 200).
  { unfold kept, JsArray.sliceFirst. rewrite length_firstn. lia. }
  generalize dependent (kept history). intros l Hlen.
  pose proof (places_first (Types.id animal) 0 l) as H.
  change (positionsOf (Types.id animal) l) with (placesFrom (Types.id animal) 0 l).
  assert (Hbefore : forall k h, k < streakLoop (Types.id animal) l ->
            nth_error l k = Some h -> isOf (Types.id animal) h = false).
  { clear. induction l as [|x l IH]; intros k h; cbn [streakLoop]; [lia|].
    destruct (isOf (Types.id animal) x) eqn:E; [lia|].
    destruct k as [|k]; cbn [nth_error]; [now intros _ [= <-]|].
    intros Hk. apply IH. lia. }
  destruct (placesFrom (Types.id animal) 0 l) as [|p rest].
  - destruct H as [H1 H2]. rewrite H1. cbn [List.filter length Nat.leb].
    split; [reflexivity|]. split; [lia|]. split; [|split].
    + rewrite <- H1. exact Hbefore.
    + lia.
    + discriminate.
  - destruct H as (H1 & H2 & H3 & H4 & H5). cbn [Nat.add] in H1.
    rewrite H1. split; [reflexivity|]. split; [lia|]. split; [|split].
    + exact Hbefore.
    + intros _. exists (fst p). auto.
    + intros Hhot. apply Nat.leb_le in Hhot. specialize (H5 20). lia.
Qed.

End EngineFacts.
